(** * OCR planner: plan generation, adaptive rescheduling, calendar, review

    A shallow embedding of [src/script.js] (functions [weeksBetween],
    [generatePlan], [renderPlan], [updateCountdown], [adaptPlan],
    [formatICSDate], [formatUTCStamp], [escapeICSText], [downloadCalendar]
    and the listeners of the page), of the metrics and recommendations of
    [src/review.js], of the submission of [src/tracker.js], and of the
    achievements of the tracker and the search of coaches, whose texts
    follow in [src/script.js] and [src/review.js], together with the part of
    the JavaScript runtime these functions call.

    Conventions of the embedding:
    - a JavaScript Number that holds a fractional quantity (mileage, RPE,
      ratios, the parsed form fields) is a binary64 [float]; the primitive
      operations of Rocq are the IEEE-754 operations JavaScript uses;
    - a Number that is an integer by construction and far below 2^53 (week
      counts, loop counters, day offsets, time values in milliseconds) is a
      [Z], where binary64 arithmetic is exact;
    - a JavaScript string is the list of its UTF-16 code units;
    - an object used as a dictionary is a [gmap];
    - [adaptPlan] mutates its argument in place and returns nothing; the
      embedding returns the plan after the call. *)

From Stdlib Require Import ZArith NArith String Ascii Bool Lia Floats.
From stdpp Require Import base list gmap.

#[local] Set Warnings "-inexact-float".
#[local] Open Scope Z_scope.

(** ** The JavaScript runtime used by the program *)

Module JS.

(** *** Strings *)

Definition jsstring := list N.

Definition cp_units (cp : N) : jsstring :=
  if (cp <? 65536)%N then [cp]
  else [(55296 + (cp - 65536) / 1024)%N; (56320 + (cp - 65536) mod 1024)%N].

(** Code units of a UTF-8 encoded byte sequence (the encoding of this file's
    string literals). *)
Fixpoint units_of_bytes (bs : list N) : jsstring :=
  match bs with
  | [] => []
  | b0 :: r0 =>
    if (b0 <? 128)%N then b0 :: units_of_bytes r0
    else if (b0 <? 224)%N then
      match r0 with
      | b1 :: r1 => cp_units ((b0 - 192) * 64 + (b1 - 128)) ++ units_of_bytes r1
      | _ => []
      end
    else if (b0 <? 240)%N then
      match r0 with
      | b1 :: b2 :: r2 =>
        cp_units ((b0 - 224) * 4096 + (b1 - 128) * 64 + (b2 - 128))
          ++ units_of_bytes r2
      | _ => []
      end
    else
      match r0 with
      | b1 :: b2 :: b3 :: r3 =>
        cp_units ((b0 - 240) * 262144 + (b1 - 128) * 4096 + (b2 - 128) * 64
                  + (b3 - 128)) ++ units_of_bytes r3
      | _ => []
      end
  end.

Definition lit (s : string) : jsstring :=
  units_of_bytes (map N_of_ascii (list_ascii_of_string s)).

Fixpoint str_eqb (a b : jsstring) : bool :=
  match a, b with
  | [], [] => true
  | x :: a', y :: b' => (x =? y)%N && str_eqb a' b'
  | _, _ => false
  end.

Fixpoint starts_with (p s : jsstring) : bool :=
  match p, s with
  | [], _ => true
  | x :: p', y :: s' => (x =? y)%N && starts_with p' s'
  | _ :: _, [] => false
  end.

(** [s.indexOf(p)]: [None] stands for -1. *)
Fixpoint indexOf (p s : jsstring) : option nat :=
  if starts_with p s then Some O
  else match s with
       | [] => None
       | _ :: s' => option_map S (indexOf p s')
       end.

(** [s.substring(0, n)] for [0 <= n]. *)
Definition substring0 (n : nat) (s : jsstring) : jsstring := firstn n s.

(** WhiteSpace and LineTerminator code units, as [trim] and the number
    parsers skip them. *)
Definition is_space (c : N) : bool :=
  ((9 <=? c) && (c <=? 13) || (c =? 32) || (c =? 160) || (c =? 5760)
   || (8192 <=? c) && (c <=? 8202) || (c =? 8232) || (c =? 8233)
   || (c =? 8239) || (c =? 8287) || (c =? 12288) || (c =? 65279))%N.

Fixpoint trim_start (s : jsstring) : jsstring :=
  match s with
  | c :: s' => if is_space c then trim_start s' else s
  | [] => []
  end.

Definition trim_end (s : jsstring) : jsstring := rev (trim_start (rev s)).

Definition trim (s : jsstring) : jsstring := trim_end (trim_start s).

(** Canonicalisation of a code unit by a case-insensitive regular
    expression without the unicode flag: ASCII letters go to upper case, and
    no code unit above 127 is identified with an ASCII one. The patterns of
    the program contain ASCII letters, spaces and U+2011 only, which no other
    code unit canonicalises to. *)
Definition canon (c : N) : N :=
  if ((97 <=? c) && (c <=? 122))%N then (c - 32)%N else c.

Fixpoint starts_with_ci (p s : jsstring) : bool :=
  match p, s with
  | [], _ => true
  | x :: p', y :: s' => (canon x =? canon y)%N && starts_with_ci p' s'
  | _ :: _, [] => false
  end.

Fixpoint contains_ci (p s : jsstring) : bool :=
  starts_with_ci p s ||
  match s with
  | [] => false
  | _ :: s' => contains_ci p s'
  end.

(** [/a1|a2|...|an/i.test(s)] for literal alternatives. *)
Definition test_ci (alts : list jsstring) (s : jsstring) : bool :=
  existsb (fun p => contains_ci p s) alts.

(** Decimal digits of a natural number. *)
Fixpoint digits_fuel (fuel : nat) (n : N) (acc : jsstring) : jsstring :=
  match fuel with
  | O => (48 + n mod 10)%N :: acc
  | S f =>
    if (n <? 10)%N then (48 + n)%N :: acc
    else digits_fuel f (n / 10)%N ((48 + n mod 10)%N :: acc)
  end.

Definition digits (n : N) : jsstring :=
  digits_fuel (N.to_nat (N.log2 n)) n [].

Definition int_to_string (z : Z) : jsstring :=
  if z <? 0 then 45%N :: digits (Z.to_N (- z)) else digits (Z.to_N z).

(** [s.padStart(2, '0')]. *)
Definition pad2 (s : jsstring) : jsstring :=
  match s with
  | [] => [48; 48]%N
  | [c] => [48%N; c]
  | _ => s
  end.

(** *** Numbers *)

(** The Number nearest to an integer (round to nearest, ties to even). *)
Definition of_int (z : Z) : float :=
  SF2Prim (binary_normalize prec emax z 0 false).

(** The Number nearest to [m * 10^e10], negated when [neg]. *)
Definition of_decimal (neg : bool) (m : N) (e10 : Z) : float :=
  match m with
  | N0 => if neg then neg_zero else zero
  | Npos p =>
    if 0 <=? e10
    then SF2Prim (binary_normalize prec emax
                    ((if neg then Zneg p else Zpos p) * 10 ^ e10) 0 false)
    else SF2Prim (SFdiv prec emax (S754_finite neg p 0)
                    (S754_finite false (Z.to_pos (10 ^ (- e10))) 0))
  end.

Definition isNaN (x : float) : bool := is_nan x.

(** ToBoolean on a Number: NaN, +0 and -0 are falsy. *)
Definition truthy (x : float) : bool := negb (is_nan x || is_zero x).

(** [x || d] on Numbers. *)
Definition or_default (x d : float) : float := if truthy x then x else d.

(** [Math.max] and [Math.min] of two Numbers: NaN is contagious and +0 is
    larger than -0. *)
Definition Math_max (x y : float) : float :=
  if is_nan x || is_nan y then nan
  else if (x <? y)%float then y
  else if (y <? x)%float then x
  else if get_sign x then y else x.

Definition Math_min (x y : float) : float :=
  if is_nan x || is_nan y then nan
  else if (x <? y)%float then x
  else if (y <? x)%float then y
  else if get_sign x then x else y.

(** [Math.round]: the nearest integer, ties towards +Infinity; -0 when the
    result is zero and the argument is negative. *)
Definition Math_round (x : float) : float :=
  match Prim2SF x with
  | S754_finite s m e =>
    let n := if 0 <=? e then (if s then Zneg m else Zpos m) * 2 ^ e
             else ((if s then Zneg m else Zpos m) * 2 + 2 ^ (- e))
                    / 2 ^ (1 - e) in
    if n =? 0 then (if s then neg_zero else zero) else of_int n
  | _ => x
  end.

(** The value of a floating-point datum in units of 2^-1074, with the
    infinities beyond every finite value. *)
Definition huge : Z := 2 ^ 2100.

Definition ordZ (x : spec_float) : Z :=
  match x with
  | S754_zero _ => 0
  | S754_nan => 0
  | S754_infinity s => if s then - huge else huge
  | S754_finite s m e =>
    if s then - (Zpos m * 2 ^ (e + 1074)) else Zpos m * 2 ^ (e + 1074)
  end.

Definition is_num (x : spec_float) : Prop := x <> S754_nan.

Definition num_value (x : float) : Z := ordZ (Prim2SF x).

(** A Number that is not NaN. *)
Definition number (x : float) : Prop := is_nan x = false.

(** A finite Number in the range [1, 2^53). *)
Definition at_least_one (c : float) : bool :=
  match Prim2SF c with
  | S754_finite false mc ec =>
    (-52 <=? ec) && (ec <=? 0) && (2 ^ (- ec) <=? Zpos mc)
  | _ => false
  end.

(** Digit values of the longest prefix of decimal digits, and the rest. *)
Fixpoint take_digits (s : jsstring) : list N * jsstring :=
  match s with
  | c :: s' =>
    if ((48 <=? c) && (c <=? 57))%N
    then let (ds, r) := take_digits s' in ((c - 48)%N :: ds, r)
    else ([], s)
  | [] => ([], [])
  end.

Definition digits_value (ds : list N) : N :=
  fold_left (fun acc d => (acc * 10 + d)%N) ds 0%N.

(** An optional sign: [true] for '-'. *)
Definition take_sign (s : jsstring) : bool * jsstring :=
  match s with
  | 43%N :: s' => (false, s')
  | 45%N :: s' => (true, s')
  | _ => (false, s)
  end.

(** The value of an ExponentPart at the head of [s], 0 when there is none. *)
Definition take_exponent (s : jsstring) : Z :=
  match s with
  | c :: s' =>
    if ((c =? 101) || (c =? 69))%N then
      let (neg, s'') := take_sign s' in
      match take_digits s'' with
      | ([], _) => 0
      | (ds, _) => let v := Z.of_N (digits_value ds) in if neg then - v else v
      end
    else 0
  | [] => 0
  end.

(** [parseFloat(s)]: leading white space is skipped and the longest prefix
    that is a StrDecimalLiteral is converted; NaN when there is none. *)
Definition parseFloat (s : jsstring) : float :=
  let (neg, s1) := take_sign (trim_start s) in
  if starts_with (lit "Infinity") s1
  then (if neg then neg_infinity else infinity)
  else
    let (ip, s2) := take_digits s1 in
    let (fp, s3) :=
      match s2 with
      | 46%N :: s2' => take_digits s2'
      | _ => ([], s2)
      end in
    match ip, fp with
    | [], [] => nan
    | _, _ =>
      of_decimal neg (digits_value (ip ++ fp))
        (take_exponent s3 - Z.of_nat (List.length fp))
    end.

(** [parseInt(s, 10)]. *)
Definition parseInt10 (s : jsstring) : float :=
  let (neg, s1) := take_sign (trim_start s) in
  match take_digits s1 with
  | ([], _) => nan
  | (ds, _) => of_decimal neg (digits_value ds) 0
  end.

(** [Number::toString] of a finite [x] whose exact value is the integer
    [v >= 10^21]: the shortest decimal [s * 10^(n-k)], [s] of [k] digits,
    that converts back to [x]; among the candidates of that length the one
    nearest to [v], the even one on a tie. *)
Definition dec_len (v : Z) : Z := Z.of_nat (List.length (digits (Z.to_N v))).

Definition repr_at (x : float) (v k : Z) : list (Z * Z) :=
  filter (fun sn : Z * Z =>
            Is_true ((10 ^ (k - 1) <=? sn.1) && (sn.1 <? 10 ^ k)
                     && (of_int (sn.1 * 10 ^ (sn.2 - k)) =? x)%float))
    (flat_map (fun n => let s0 := v / 10 ^ (n - k) in [(s0, n); (s0 + 1, n)])
       [dec_len v; dec_len v + 1]).

Definition closer (v k : Z) (a b : Z * Z) : Z * Z :=
  let da := Z.abs (a.1 * 10 ^ (a.2 - k) - v) in
  let db := Z.abs (b.1 * 10 ^ (b.2 - k) - v) in
  if da <? db then a else if db <? da then b
  else if Z.even a.1 then a else b.

Fixpoint shortest (fuel : nat) (x : float) (v k : Z) : Z * Z :=
  match repr_at x v k with
  | c :: cs => fold_left (closer v k) cs c
  | [] =>
    match fuel with
    | O => (v, dec_len v)
    | S f => shortest f x v (k + 1)
    end
  end.

Definition toString_large (x : float) (v : Z) : jsstring :=
  let (s, n) := shortest 16 x v 1 in
  match digits (Z.to_N s) with
  | [] => []
  | [d] => d :: lit "e+" ++ digits (Z.to_N (n - 1))
  | d :: ds => d :: 46%N :: ds ++ lit "e+" ++ digits (Z.to_N (n - 1))
  end.

(** [x.toFixed(1)]: below 10^21 the integer [n] nearest to [10 * x] (the
    larger one on a tie) printed with a point before its last digit. *)
Definition toFixed1 (x : float) : jsstring :=
  match Prim2SF x with
  | S754_nan => lit "NaN"
  | S754_infinity s => if s then lit "-Infinity" else lit "Infinity"
  | S754_zero _ => lit "0.0"
  | S754_finite s m e =>
    (if s then [45%N] else []) ++
    (if (0 <=? e) && (10 ^ 21 <=? Zpos m * 2 ^ e)
     then toString_large (abs x) (Zpos m * 2 ^ e)
     else
       let n := Z.to_N (if 0 <=? e then 10 * Zpos m * 2 ^ e
                        else (20 * Zpos m + 2 ^ (- e)) / 2 ^ (1 - e)) in
       digits (n / 10) ++ [46%N; (48 + n mod 10)%N])
  end.

(** The number of tenths that [toFixed(1)] prints for a finite [x >= 0]
    below 10^21: the integer nearest to [10 * x], the larger one on a tie.
    [num_value x] is [x] in units of 2^-1074. *)
Definition tenths (x : float) : Z := (20 * num_value x + 2 ^ 1074) / 2 ^ 1075.

(** A number of tenths in decimal, with one digit after the point. *)
Definition printTenths (t : Z) : jsstring :=
  let n := Z.to_N t in digits (n / 10) ++ [46%N; (48 + n mod 10)%N].

(** ToString of a value that is a string or undefined ([None]). *)
Definition to_string_opt (v : option jsstring) : jsstring :=
  match v with
  | Some s => s
  | None => lit "undefined"
  end.

(** *** Dates

    A Date is its time value, the milliseconds since the epoch. The local
    time zone is taken to be UTC, without daylight saving, so that a local
    calendar day is a block of 86400000 ms. *)

Definition msPerDay : Z := 86400000.

(** [d.getDay()]: 0 is Sunday. The epoch was a Thursday. *)
Definition getDay (t : Z) : Z := (t / msPerDay + 4) mod 7.

(** [d.setDate(d.getDate() + k)]. *)
Definition addDays (t k : Z) : Z := t + k * msPerDay.

(** Year, month (1..12) and day of the month of a time value. *)
Definition civil (t : Z) : Z * Z * Z :=
  let z := t / msPerDay + 719468 in
  let era := z / 146097 in
  let doe := z - era * 146097 in
  let yoe := (doe - doe / 1460 + doe / 36524 - doe / 146096) / 365 in
  let doy := doe - (365 * yoe + yoe / 4 - yoe / 100) in
  let mp := (5 * doy + 2) / 153 in
  let d := doy - (153 * mp + 2) / 5 + 1 in
  let m := if mp <? 10 then mp + 3 else mp - 9 in
  (yoe + era * 400 + (if m <=? 2 then 1 else 0), m, d).

End JS.

(** ** The program: [src/script.js] *)

Module Planner.
Import JS.

(** *** Data *)

(** The object [data] that the form handler passes to [generatePlan]. A form
    value is a string, or undefined ([None]) when the form has no such field.
    [raceDate] holds the time value of [new Date(data.raceDate)]. *)
Record FormData := {
  raceDate : Z;
  raceDistance : option jsstring;
  experience : option jsstring;
  runningMileage : option jsstring;
  trainingDays : option jsstring;
  strengthFrequency : option jsstring
}.

Inductive Phase := Base | Build | Specific | Taper.

Record WeekEntry := {
  week : Z;
  phase : Phase;
  mileage : jsstring;
  days : list jsstring
}.

Record Phases := {
  baseWeeks : Z;
  buildWeeks : Z;
  specificWeeks : Z;
  taperWeeks : Z
}.

Record Plan := {
  weeks : list WeekEntry;
  phases : Phases;
  weeksToRace : Z
}.

(** An entry of the log store, as [tracker.js] writes it. *)
Record LogEntry := {
  date : jsstring;
  type : jsstring;
  value : jsstring;
  rpe : jsstring;
  notes : jsstring
}.

(** [v === s] for a form value [v] and a string literal [s]. *)
Definition is_str (v : option jsstring) (s : jsstring) : bool :=
  match v with
  | Some t => str_eqb t s
  | None => false
  end.

(** *** weeksBetween

    The difference of two time values and its quotient by [msPerWeek] are
    far below 2^53, where the binary64 quotient has the same floor as the
    exact one. *)

Definition msPerWeek : Z := 1000 * 60 * 60 * 24 * 7.

Definition weeksBetween (date1 date2 : Z) : Z :=
  Z.max 1 ((date2 - date1) / msPerWeek).

(** *** generatePlan *)

Definition phaseLengths (weeksToRace : Z) : Phases :=
  if weeksToRace <? 8 then
    {| baseWeeks := 2; taperWeeks := 1; specificWeeks := 1;
       buildWeeks := weeksToRace - 2 - 1 - 1 |}
  else if weeksToRace <? 12 then
    {| baseWeeks := 3; taperWeeks := 1; specificWeeks := 2;
       buildWeeks := weeksToRace - 3 - 2 - 1 |}
  else if weeksToRace <? 20 then
    {| baseWeeks := 4; taperWeeks := 1; specificWeeks := 3;
       buildWeeks := weeksToRace - 4 - 3 - 1 |}
  else
    {| baseWeeks := 6; taperWeeks := 2; specificWeeks := 5;
       buildWeeks := weeksToRace - 6 - 5 - 2 |}.

Definition initialMiles (data : FormData) : float :=
  Math_max 0 (or_default (parseFloat (to_string_opt (runningMileage data))) 0).

Definition peakMultiplier (data : FormData) : float :=
  if is_str (raceDistance data) (lit "5k") then 1.5%float
  else if is_str (raceDistance data) (lit "10k") then 1.8%float
  else if is_str (raceDistance data) (lit "21k") then 2.2%float
  else 3.0%float.

Definition targetPeak (data : FormData) : float :=
  Math_max (initialMiles data * peakMultiplier data)%float 10.

Definition inc (data : FormData) : float :=
  if is_str (experience data) (lit "beginner") then 0.08%float
  else if is_str (experience data) (lit "intermediate") then 0.10%float
  else 0.12%float.

(** The loop that fills [weeklyMiles]: [n] iterations remain. *)
Fixpoint mileageLoop (n : nat) (peak rate currentMiles : float) : list float :=
  match n with
  | O => []
  | S n' =>
    currentMiles ::
      mileageLoop n' peak rate
        (Math_min peak (currentMiles * (1 + rate))%float)
  end.

Definition weeklyMiles (data : FormData) (weeks : Z) : list float :=
  mileageLoop (Z.to_nat weeks) (targetPeak data) (inc data) (initialMiles data).

Definition easyRunText : jsstring :=
  lit "Easy run – stay at conversational pace (RPE 3–4).".
Definition recoveryText : jsstring :=
  lit "Active recovery/mobility – gentle stretching or yoga.".
Definition restText : jsstring := lit "Rest day.".
Definition intervalText : jsstring :=
  lit "Interval or hill session – short bursts at RPE 6–7 with recovery jogs.".

Definition generateRunDesc (isHard : bool) (phase : Phase) : jsstring :=
  if negb isHard then easyRunText
  else match phase with
       | Base => lit "Tempo run – moderate pace (RPE 5–6)."
       | Build => intervalText
       | Specific =>
         lit "Race‑specific run – include carries or obstacles and maintain RPE 5–7."
       | Taper => lit "Short sharpening run – brief bursts at RPE 6, mostly easy."
       end.

Definition generateStrengthDesc (phase : Phase) : jsstring :=
  match phase with
  | Base =>
    lit "General strength circuit – squats, push‑ups, lunges, core exercises."
  | Build =>
    lit "Full‑body strength with added grip work – deadlifts, pull‑ups, presses."
  | Specific =>
    lit "Obstacle strength & carries – rope climbs, sandbag/bucket carries, rig practice."
  | Taper =>
    lit "Light strength & mobility – keep muscles activated but prioritise recovery."
  end.

Definition parsedTrainingDays (data : FormData) : float :=
  or_default (parseInt10 (to_string_opt (trainingDays data))) 3.

Definition parsedStrengthFreq (data : FormData) : float :=
  or_default (parseInt10 (to_string_opt (strengthFrequency data))) 1.

Section Week.
Variable phase : Phase.
Variable trainingDays strengthFreq : float.

Definition runDays : float := Math_max 1 (Math_round (trainingDays * 0.6)%float).
Definition strengthDays : float := Math_min strengthFreq (trainingDays - runDays)%float.
Definition hardRuns : Z := if (4 <=? trainingDays)%float then 1 else 0.

(** The loop over the days [d, d+1, ...] of one week; [n] days remain. *)
Fixpoint assignDays (n : nat) (d runCount strengthCount hardRunUsed : Z)
  : list jsstring :=
  match n with
  | O => []
  | S n' =>
    if (of_int runCount <? runDays)%float then
      let isHard :=
        (hardRunUsed <? hardRuns)
        && (runDays - of_int runCount
            <=? of_int (hardRuns - hardRunUsed + (7 - d)))%float in
      generateRunDesc isHard phase ::
        assignDays n' (d + 1) (runCount + 1) strengthCount
          (if isHard then hardRunUsed + 1 else hardRunUsed)
    else if (of_int strengthCount <? strengthDays)%float then
      generateStrengthDesc phase ::
        assignDays n' (d + 1) runCount (strengthCount + 1) hardRunUsed
    else if (of_int d <? trainingDays)%float then
      recoveryText :: assignDays n' (d + 1) runCount strengthCount hardRunUsed
    else
      restText :: assignDays n' (d + 1) runCount strengthCount hardRunUsed
  end.

Definition weekDays : list jsstring := assignDays 7 0 0 0 0.
End Week.

Definition phaseOf (p : Phases) (w : Z) : Phase :=
  if w <? baseWeeks p then Base
  else if w <? baseWeeks p + buildWeeks p then Build
  else if w <? baseWeeks p + buildWeeks p + specificWeeks p then Specific
  else Taper.

Definition generatePlan (today : Z) (data : FormData) : Plan :=
  let weeksToRace := weeksBetween today (raceDate data) in
  let p := phaseLengths weeksToRace in
  let miles := weeklyMiles data weeksToRace in
  let weeksPlan :=
    map (fun w : nat =>
           {| week := Z.of_nat w + 1;
              phase := phaseOf p (Z.of_nat w);
              mileage := toFixed1 (nth w miles nan);
              days := weekDays (phaseOf p (Z.of_nat w))
                        (parsedTrainingDays data) (parsedStrengthFreq data) |})
        (seq 0 (Z.to_nat weeksToRace)) in
  {| weeks := weeksPlan; phases := p; weeksToRace := weeksToRace |}.

(** *** adaptPlan *)

(** The upcoming Monday, today when today is a Monday. *)
Definition startDateOf (today : Z) : Z :=
  let dow := getDay today in
  let diffToMon := if dow =? 1 then 0 else if dow =? 0 then 1 else 8 - dow in
  addDays today diffToMon.

Definition toIso (t : Z) : jsstring :=
  let '(y, m, d) := civil t in
  int_to_string y ++ 45%N :: pad2 (int_to_string m)
    ++ 45%N :: pad2 (int_to_string d).

(** [logMap]: the entries with a non-empty date, keyed by date; a later
    entry replaces an earlier one of the same date. *)
Definition logMapOf (logs : list LogEntry) : gmap (list N) LogEntry :=
  fold_left (fun (m : gmap (list N) LogEntry) entry =>
               match date entry with
               | [] => m
               | _ => <[date entry := entry]> m
               end) logs ∅.

Record Stats := {
  lastLoggedWeekIndex : Z;
  completedSessions : Z;
  totalDaysPassed : Z;
  totalRPE : float
}.

Section Scan.
Variable logMap : gmap (list N) LogEntry.
Variable now endDate : Z.

(** The loop over the days from the start date; [n] bounds the iterations
    that remain. *)
Fixpoint scanDays (n : nat) (d i : Z) (st : Stats) : Stats :=
  match n with
  | O => st
  | S n' =>
    if (d <=? now) && (d <? endDate) then
      let weekIndex := i / 7 in
      let st' :=
        match logMap !! toIso d with
        | Some entry =>
          let rpeNum := parseFloat (rpe entry) in
          {| completedSessions := completedSessions st + 1;
             totalRPE := if negb (isNaN rpeNum)
                         then (totalRPE st + rpeNum)%float else totalRPE st;
             lastLoggedWeekIndex :=
               if lastLoggedWeekIndex st <? weekIndex then weekIndex
               else lastLoggedWeekIndex st;
             totalDaysPassed := totalDaysPassed st |}
        | None => st
        end in
      scanDays n' (addDays d 1) (i + 1)
        {| completedSessions := completedSessions st';
           totalRPE := totalRPE st';
           lastLoggedWeekIndex := lastLoggedWeekIndex st';
           totalDaysPassed := totalDaysPassed st' + 1 |}
    else st
  end.
End Scan.

Definition stats0 : Stats :=
  {| lastLoggedWeekIndex := -1; completedSessions := 0;
     totalDaysPassed := 0; totalRPE := 0 |}.

(** The statistics [adaptPlan] computes; [today] and [now] are its two
    readings of the clock. The loop stops at [endDate], seven days per week
    after the start, so [7 * weekCount] iterations exhaust it. *)
Definition statsOf (today now : Z) (logs : list LogEntry) (weekCount : nat)
  : Stats :=
  let startDate := startDateOf today in
  let endDate := addDays startDate (Z.of_nat weekCount * 7) in
  scanDays (logMapOf logs) now endDate (7 * weekCount) startDate 0 stats0.

Inductive Mode := none | lighten | intensify.

Definition completionRatio (st : Stats) : float :=
  (of_int (completedSessions st) / of_int (totalDaysPassed st))%float.

Definition avgRPE (st : Stats) : float :=
  (totalRPE st / of_int (completedSessions st))%float.

Definition selectMode (st : Stats) : Mode :=
  if (completionRatio st <? 0.5)%float || (6 <=? avgRPE st)%float then lighten
  else if (0.8 <=? completionRatio st)%float && (avgRPE st <=? 4)%float
       then intensify
       else none.

Definition lightenPattern : list jsstring := [lit "Interval"; lit "Tempo"; lit "race‑specific"; lit "short"].

Definition intensifyPattern : list jsstring :=
  [lit "Easy run"; lit "Active recovery"; lit "Rest day"; lit "mobility"].

(** The loop over the days of a week that is adapted. *)
Fixpoint modifyDays (mode : Mode) (days : list jsstring) (modified : bool)
  : list jsstring :=
  match days with
  | [] => []
  | desc :: rest =>
    match mode with
    | lighten =>
      if test_ci lightenPattern desc && negb modified
      then recoveryText :: modifyDays mode rest true
      else desc :: modifyDays mode rest modified
    | intensify =>
      if test_ci intensifyPattern desc && negb modified
      then intervalText :: modifyDays mode rest true
      else desc :: modifyDays mode rest modified
    | none => desc :: modifyDays mode rest modified
    end
  end.

Definition factorOf (mode : Mode) : float :=
  match mode with lighten => 0.9%float | _ => 1.1%float end.

Definition scaleMileage (mode : Mode) (m : jsstring) : jsstring :=
  let mileageNum := parseFloat m in
  if negb (isNaN mileageNum) then toFixed1 (mileageNum * factorOf mode)%float
  else m.

Definition adaptWeek (mode : Mode) (weekObj : WeekEntry) : WeekEntry :=
  {| week := week weekObj;
     phase := phase weekObj;
     mileage := scaleMileage mode (mileage weekObj);
     days := modifyDays mode (days weekObj) false |}.

(** The loop over the weeks: those after [last] are adapted. *)
Definition adaptWeeks (mode : Mode) (last : Z) (ws : list WeekEntry)
  : list WeekEntry :=
  imap (fun (w : nat) weekObj =>
          if last <? Z.of_nat w then adaptWeek mode weekObj else weekObj) ws.

(** [adaptPlan(plan)] with the clock readings [today] and [now] and the
    stored log entries [logs]: the plan after the call. *)
Definition adaptPlan (today now : Z) (logs : list LogEntry) (plan : Plan)
  : Plan :=
  let st := statsOf today now logs (List.length (weeks plan)) in
  if (totalDaysPassed st =? 0) || (completedSessions st =? 0) then plan
  else
    match selectMode st with
    | none => plan
    | mode =>
      {| weeks := adaptWeeks mode (lastLoggedWeekIndex st) (weeks plan);
         phases := phases plan;
         weeksToRace := weeksToRace plan |}
    end.

(** The guard of [adaptPlan] that returns before any adaptation. *)
Definition nothingToAdapt (st : Stats) : bool :=
  (totalDaysPassed st =? 0) || (completedSessions st =? 0).

(** *** downloadCalendar: the summary of an event *)

Definition summaryOf (desc : jsstring) : jsstring :=
  let summary :=
    match indexOf (lit "–") desc with
    | Some dashIdx => trim (substring0 dashIdx desc)
    | None => desc
    end in
  match summary with
  | [] => desc
  | _ => summary
  end.

(** *** Vocabulary of the statements *)

Definition enDash : N := 8211.
Definition emDash : N := 8212.

Definition withRunningMileage (v : option jsstring) (data : FormData) :=
  {| raceDate := raceDate data; raceDistance := raceDistance data;
     experience := experience data; runningMileage := v;
     trainingDays := trainingDays data;
     strengthFrequency := strengthFrequency data |}.

Definition withTrainingDays (v : option jsstring) (data : FormData) :=
  {| raceDate := raceDate data; raceDistance := raceDistance data;
     experience := experience data; runningMileage := runningMileage data;
     trainingDays := v;
     strengthFrequency := strengthFrequency data |}.

Definition withStrengthFrequency (v : option jsstring) (data : FormData) :=
  {| raceDate := raceDate data; raceDistance := raceDistance data;
     experience := experience data; runningMileage := runningMileage data;
     trainingDays := trainingDays data;
     strengthFrequency := v |}.

(** A numeric form value is malformed for a parser when the parser finds no
    number in it; a missing value is read as the text of undefined. *)
Definition malformed (parse : jsstring -> float) (v : option jsstring) : Prop :=
  isNaN (parse (to_string_opt v)) = true.

(** The days that [adaptPlan] walks: from the start date, not after [now],
    before the end of the plan. *)
Definition inWindow (today now : Z) (weekCount : nat) (d : Z) : Prop :=
  d <= now /\ d < addDays (startDateOf today) (Z.of_nat weekCount * 7).

(** The pattern a mode looks for in a day, the text it puts there and the
    factor it applies to the mileage. *)
Definition patternOf (mode : Mode) : list jsstring :=
  match mode with
  | lighten => lightenPattern
  | intensify => intensifyPattern
  | none => []
  end.

Definition replacementOf (mode : Mode) : jsstring :=
  match mode with
  | lighten => recoveryText
  | _ => intervalText
  end.

Definition matchesMode (mode : Mode) (desc : jsstring) : Prop :=
  test_ci (patternOf mode) desc = true.

#[global] Instance matchesMode_dec mode desc : Decision (matchesMode mode desc) :=
  bool_eq_dec (test_ci (patternOf mode) desc) true.

(** The plan with the weeks after [last] adapted for [mode]. *)
Definition adapted (mode : Mode) (last : Z) (plan : Plan) : Plan :=
  {| weeks := adaptWeeks mode last (weeks plan);
     phases := phases plan;
     weeksToRace := weeksToRace plan |}.

(** The lookahead condition of the hard run on the first day of the week,
    where no run and no hard run has been placed yet. *)
Definition lookahead (td : float) : bool :=
  (runDays td - of_int 0 <=? of_int (hardRuns td - 0 + (7 - 0)))%float.

(** The number of hard-run days of a week. *)
Definition hardRunDays (wk : WeekEntry) : nat :=
  List.length (filter (fun desc => desc = generateRunDesc true (phase wk))
                 (days wk)).

End Planner.


(** ** The window of [adaptPlan], day by day *)

Module Window.
Import JS Planner.

(** The statistics after the day [d], at offset [i] from the start date:
    one turn of the loop of [adaptPlan]. *)
Definition dayStats (logMap : gmap (list N) LogEntry) (d i : Z) (st : Stats)
  : Stats :=
  let weekIndex := i / 7 in
  let st' :=
    match logMap !! toIso d with
    | Some entry =>
      let rpeNum := parseFloat (rpe entry) in
      {| completedSessions := completedSessions st + 1;
         totalRPE := if negb (isNaN rpeNum)
                     then (totalRPE st + rpeNum)%float else totalRPE st;
         lastLoggedWeekIndex :=
           if lastLoggedWeekIndex st <? weekIndex then weekIndex
           else lastLoggedWeekIndex st;
         totalDaysPassed := totalDaysPassed st |}
    | None => st
    end in
  {| completedSessions := completedSessions st';
     totalRPE := totalRPE st';
     lastLoggedWeekIndex := lastLoggedWeekIndex st';
     totalDaysPassed := totalDaysPassed st' + 1 |}.

(** The statistics after the single day of the window of a Monday. *)
Definition mondayStats (found : option LogEntry) : Stats :=
  match found with
  | Some entry =>
    {| lastLoggedWeekIndex := 0; completedSessions := 1; totalDaysPassed := 1;
       totalRPE := if isNaN (parseFloat (rpe entry)) then 0%float
                   else (0 + parseFloat (rpe entry))%float |}
  | None =>
    {| lastLoggedWeekIndex := -1; completedSessions := 0; totalDaysPassed := 1;
       totalRPE := 0 |}
  end.

End Window.

(** ** The calendar export and the countdown *)

Module Calendar.
Import JS Planner.

(** *** formatICSDate, formatUTCStamp, escapeICSText *)

Definition formatICSDate (t : Z) : jsstring :=
  let '(year, month, day) := civil t in
  int_to_string year ++ pad2 (int_to_string month) ++ pad2 (int_to_string day).

Definition formatUTCStamp (t : Z) : jsstring :=
  let '(y, m, d) := civil t in
  let ms := t mod msPerDay in
  int_to_string y ++ pad2 (int_to_string m) ++ pad2 (int_to_string d)
    ++ 84%N :: pad2 (int_to_string (ms / 3600000))
    ++ pad2 (int_to_string (ms / 60000 mod 60))
    ++ pad2 (int_to_string (ms / 1000 mod 60)) ++ [90%N].

(** [s.replace(/c/g, r)] for a single code unit [c]. *)
Definition replaceAll (c : N) (r s : jsstring) : jsstring :=
  flat_map (fun x => if (x =? c)%N then r else [x]) s.

Definition backslash : N := 92.

Definition escapeICSText (text : jsstring) : jsstring :=
  replaceAll 59 [backslash; 59%N]
    (replaceAll 44 [backslash; 44%N]
       (replaceAll 13 []
          (replaceAll 10 [backslash; 110%N]
             (replaceAll backslash [backslash; backslash] text)))).

(** What the five passes of [escapeICSText] make of one code unit. *)
Definition escapeUnit (c : N) : jsstring :=
  if (c =? backslash)%N then [backslash; backslash]
  else if (c =? 10)%N then [backslash; 110%N]
  else if (c =? 13)%N then []
  else if (c =? 44)%N then [backslash; 44%N]
  else if (c =? 59)%N then [backslash; 59%N]
  else [c].

(** A text without a line break. *)
Definition oneLine (s : jsstring) : Prop := (10%N ∉ s) /\ (13%N ∉ s).

(** [s.slice(a, b)] for [0 <= a <= b]. *)
Definition slice (a b : nat) (s : jsstring) : jsstring := take (b - a) (drop a s).

(** *** downloadCalendar: the lines of the file *)

(** The key under which the log store is searched for an event: the start
    date cut into year, month and day. *)
Definition isoDateOf (dtStart : jsstring) : jsstring :=
  slice 0 4 dtStart ++ 45%N :: slice 4 6 dtStart ++ 45%N :: slice 6 8 dtStart.

Section Events.
Variable clock : Z -> Z.
Variable logsMap : gmap (list N) LogEntry.
Variable startDate : Z.

(** The eight lines of the event of day [dIndex] of week [wIndex]; [clock
    uidCounter] is the reading of the clock when the event is written. *)
Definition eventLines (uidCounter : Z) (wIndex dIndex : nat) (desc : jsstring)
  : list jsstring :=
  let eventDate := addDays startDate (Z.of_nat wIndex * 7 + Z.of_nat dIndex) in
  let dtStart := formatICSDate eventDate in
  let dtEnd := formatICSDate (addDays eventDate 1) in
  let summary := summaryOf desc in
  let isoDate := isoDateOf dtStart in
  let statusText :=
    match logsMap !! isoDate with
    | Some _ => lit "Status: completed"
    | None => lit "Status: not completed"
    end in
  let notesText :=
    match logsMap !! isoDate with
    | Some entry =>
      match notes entry with
      | [] => []
      | _ => lit "\nNotes: " ++ escapeICSText (notes entry)
      end
    | None => []
    end in
  [ lit "BEGIN:VEVENT";
    lit "UID:plan-" ++ int_to_string uidCounter ++ lit "@ocrplanner";
    lit "DTSTAMP:" ++ formatUTCStamp (clock uidCounter);
    lit "DTSTART;VALUE=DATE:" ++ dtStart;
    lit "DTEND;VALUE=DATE:" ++ dtEnd;
    lit "SUMMARY:" ++ escapeICSText summary;
    lit "DESCRIPTION:" ++ escapeICSText desc ++ lit "\n"
      ++ escapeICSText statusText ++ notesText;
    lit "END:VEVENT" ].

(** The loop over the days of a week: the lines and the counter after it. *)
Fixpoint daysEvents (wIndex dIndex : nat) (days : list jsstring)
    (st : list jsstring * Z) : list jsstring * Z :=
  match days with
  | [] => st
  | desc :: rest =>
    daysEvents wIndex (S dIndex) rest
      (st.1 ++ eventLines st.2 wIndex dIndex desc, st.2 + 1)
  end.

(** The loop over the weeks. *)
Fixpoint weeksEvents (wIndex : nat) (ws : list WeekEntry)
    (st : list jsstring * Z) : list jsstring * Z :=
  match ws with
  | [] => st
  | weekObj :: rest =>
    weeksEvents (S wIndex) rest (daysEvents wIndex 0 (days weekObj) st)
  end.
End Events.

(** The lines that [downloadCalendar(plan)] joins, for the clock reading
    [today] at its start and the readings [clock k] at the events. *)
Definition calendarLines (today : Z) (clock : Z -> Z) (logs : list LogEntry)
    (plan : Plan) : list jsstring :=
  (weeksEvents clock (logMapOf logs) (startDateOf today) 0 (weeks plan)
     ([lit "BEGIN:VCALENDAR"; lit "VERSION:2.0"; lit "PRODID:-//OCR Planner//EN"],
      1)).1
  ++ [lit "END:VCALENDAR"].

(** The layout of the lines written before the event numbered
    [uidCounter]: three lines of header, then eight lines for each event,
    which begin it, carry its number and end it. *)
Definition laidOut (lines : list jsstring) (uidCounter : Z) : Prop :=
  1 <= uidCounter
  /\ Z.of_nat (List.length lines) = 3 + 8 * (uidCounter - 1)
  /\ forall k : nat, Z.of_nat k < uidCounter - 1 ->
       lines !! (3 + 8 * k)%nat = Some (lit "BEGIN:VEVENT")
       /\ lines !! (4 + 8 * k)%nat
          = Some (lit "UID:plan-" ++ int_to_string (Z.of_nat k + 1)
                    ++ lit "@ocrplanner")
       /\ lines !! (10 + 8 * k)%nat = Some (lit "END:VEVENT").

(** The number of days of a plan, over all its weeks. *)
Definition dayCount (plan : Plan) : nat :=
  List.length (concat (map days (weeks plan))).

(** [lines.join('\r\n')]. *)
Fixpoint joinCRLF (lines : list jsstring) : jsstring :=
  match lines with
  | [] => []
  | [l] => l
  | l :: rest => l ++ 13%N :: 10%N :: joinCRLF rest
  end.

Definition calendarText (today : Z) (clock : Z -> Z) (logs : list LogEntry)
    (plan : Plan) : jsstring :=
  joinCRLF (calendarLines today clock logs plan).

(** The text of a TEXT value read back: a backslash before n or N stands
    for a line feed, before any other unit for that unit. *)
Fixpoint unescapeICSText (s : jsstring) : jsstring :=
  match s with
  | [] => []
  | c :: rest =>
    if (c =? backslash)%N then
      match rest with
      | [] => []
      | x :: rest' =>
        (if (x =? 110)%N || (x =? 78)%N then 10%N else x)
          :: unescapeICSText rest'
      end
    else c :: unescapeICSText rest
  end.

End Calendar.

Module Countdown.
Import JS Planner.

(** [Math.max(0, Math.ceil((raceDate - today) / msPerDay))]: the quotient is
    far below 2^53, where the binary64 quotient has the ceiling of the exact
    one. *)
Definition diffDays (today raceDate : Z) : Z :=
  Z.max 0 (- ((today - raceDate) / msPerDay)).

(** The four lists of milestone tasks. *)
Definition buildingTasks : list jsstring :=
  [lit "Continue building your base fitness and gradually increase mileage.";
   lit "Practice obstacle techniques to improve efficiency.";
   lit "Ensure strength and mobility work remain consistent."].

Definition sharpeningTasks : list jsstring :=
  [lit "Finalize your race gear and test it during long sessions.";
   lit "Begin mental rehearsal – visualise obstacles and race strategy.";
   lit "Increase specificity: include carries and technical terrain in your runs."].

Definition taperingTasks : list jsstring :=
  [lit "Taper your training volume to allow recovery.";
   lit "Prioritise sleep, nutrition and hydration.";
   lit "Refine obstacle technique with low‑intensity practice."].

Definition raceWeekTasks : list jsstring :=
  [lit "Maintain light activity to stay loose, avoid strenuous sessions.";
   lit "Prepare your race day logistics: travel, nutrition and gear.";
   lit "Stay positive – trust your training and visualise success."].

Definition tasks (diffDays : Z) : list jsstring :=
  if 28 <? diffDays then buildingTasks
  else if 14 <? diffDays then sharpeningTasks
  else if 7 <? diffDays then taperingTasks
  else raceWeekTasks.

(** The text that [updateCountdown] puts in the container. *)
Definition countdownHtml (today raceDate : Z) : jsstring :=
  let n := diffDays today raceDate in
  fold_left (fun html task => html ++ lit "<li>" ++ task ++ lit "</li>")
    (tasks n)
    (lit "<h3>Countdown to Race</h3>"
       ++ (lit "<p>" ++ int_to_string n ++ lit " day"
             ++ (if n =? 1 then [] else lit "s") ++ lit " remaining</p>")
       ++ lit "<ul>")
    ++ lit "</ul>".

End Countdown.

(** ** The tracker: [src/tracker.js] *)

Module Tracker.
Import JS Planner.

(** The submit handler of the log form, on the stored entries: the entry of
    the form is pushed at the end. The form has the five fields, so each
    value is a string, and [s || ''] is [s]. *)
Definition submitLog (logDate logType logValue logRPE logNotes : jsstring)
    (logs : list LogEntry) : list LogEntry :=
  logs ++ [ {| date := logDate; type := logType; value := logValue;
               rpe := logRPE; notes := logNotes |} ].

(** *** updateAchievements

    The tracker with achievements, whose text follows that of [script.js]
    in [src/script.js]. *)

Inductive Badge :=
  | firstWorkout | runnerInTheMaking | strengthFocused | consistencyChamp
  | allRounder.

(** What [updateAchievements] puts in the container: the prompt to log
    workouts, the prompt to keep training, or the badges. *)
Inductive Shown :=
  | logPrompt
  | keepTraining
  | badgesShown (badges : list Badge).

(** The loop over the sorted dates from the second on: [prev] is the time
    value before [rest]. *)
Fixpoint streakLoop (prev : float) (rest : list float)
    (currentStreak longestStreak : Z) : Z :=
  match rest with
  | [] => longestStreak
  | cur :: rest' =>
    let diffDays := Math_round ((cur - prev) / 86400000)%float in
    if (diffDays =? 1)%float then
      streakLoop cur rest' (currentStreak + 1)
        (if longestStreak <? currentStreak + 1 then currentStreak + 1
         else longestStreak)
    else if (diffDays =? 0)%float then
      streakLoop cur rest' currentStreak longestStreak
    else streakLoop cur rest' 1 longestStreak
  end.

Definition longestStreakOf (sortedDates : list float) : Z :=
  match sortedDates with
  | [] => 1
  | first :: rest => streakLoop first rest 1 1
  end.

Section Achievements.
(** The time value of [new Date(s)], NaN for a text that is no date, and
    the array that [sort] leaves for the comparison by date. *)
Variable dateValue : jsstring -> float.
Variable sortByDate : list (LogEntry * float) -> list (LogEntry * float).

Definition sortedLogs (logs : list LogEntry) : list (LogEntry * float) :=
  sortByDate (map (fun entry => (entry, dateValue (date entry))) logs).

Definition runCount (logs : list LogEntry) : Z :=
  Z.of_nat (List.length
              (List.filter (fun l => str_eqb (type l) (lit "run")) logs)).

Definition strengthCount (logs : list LogEntry) : Z :=
  Z.of_nat (List.length
              (List.filter (fun l => str_eqb (type l) (lit "strength")) logs)).

Definition badgesOf (logs : list LogEntry) : list Badge :=
  (if 1 <=? Z.of_nat (List.length logs) then [firstWorkout] else [])
  ++ (if 5 <=? runCount logs then [runnerInTheMaking] else [])
  ++ (if 5 <=? strengthCount logs then [strengthFocused] else [])
  ++ (if 7 <=? longestStreakOf (map snd (sortedLogs logs))
      then [consistencyChamp] else [])
  ++ (if (3 <=? runCount logs) && (3 <=? strengthCount logs)
      then [allRounder] else []).

(** [updateAchievements(logs)], with the container on the page. *)
Definition updateAchievements (logs : list LogEntry) : Shown :=
  match logs with
  | [] => logPrompt
  | _ =>
    match badgesOf logs with
    | [] => keepTraining
    | badges => badgesShown badges
    end
  end.
End Achievements.

End Tracker.

(** ** The review: [src/review.js] *)

Module Review.
Import JS Planner.

Record TypeCounts := {
  run : Z;
  strength : Z;
  other : Z;
  rest : Z
}.

Record Metrics := {
  totalDays : Z;
  completedDays : Z;
  totalRPE : float;
  rpeCount : Z;
  typeCounts : TypeCounts
}.

Definition metrics0 : Metrics :=
  {| totalDays := 0; completedDays := 0; totalRPE := 0; rpeCount := 0;
     typeCounts := {| run := 0; strength := 0; other := 0; rest := 0 |} |}.

(** [typeCounts.hasOwnProperty(type)] and the increment that follows. *)
Definition countType (type : jsstring) (c : TypeCounts) : TypeCounts :=
  if str_eqb type (lit "run") then
    {| run := run c + 1; strength := strength c; other := other c;
       rest := rest c |}
  else if str_eqb type (lit "strength") then
    {| run := run c; strength := strength c + 1; other := other c;
       rest := rest c |}
  else if str_eqb type (lit "other") then
    {| run := run c; strength := strength c; other := other c + 1;
       rest := rest c |}
  else if str_eqb type (lit "rest") then
    {| run := run c; strength := strength c; other := other c;
       rest := rest c + 1 |}
  else
    {| run := run c; strength := strength c; other := other c + 1;
       rest := rest c |}.

Section Metrics.
Variable toLowerCase : jsstring -> jsstring.
Variable logMap : gmap (list N) LogEntry.
Variable today endDate : Z.

(** One turn of the loop over the days. *)
Definition dayMetrics (d : Z) (m : Metrics) : Metrics :=
  match logMap !! toIso d with
  | Some entry =>
    let rpeNum := parseFloat (rpe entry) in
    {| totalDays := totalDays m + 1;
       completedDays := completedDays m + 1;
       totalRPE := if negb (isNaN rpeNum)
                   then (totalRPE m + rpeNum)%float else totalRPE m;
       rpeCount := if negb (isNaN rpeNum) then rpeCount m + 1 else rpeCount m;
       typeCounts := countType (toLowerCase (type entry)) (typeCounts m) |}
  | None =>
    {| totalDays := totalDays m + 1;
       completedDays := completedDays m;
       totalRPE := totalRPE m;
       rpeCount := rpeCount m;
       typeCounts := typeCounts m |}
  end.

(** The loop over the days from the start date; [n] bounds the iterations
    that remain. *)
Fixpoint reviewDays (n : nat) (d : Z) (m : Metrics) : Metrics :=
  match n with
  | O => m
  | S n' =>
    if (d <=? today) && (d <? endDate)
    then reviewDays n' (addDays d 1) (dayMetrics d m)
    else m
  end.
End Metrics.

(** The metrics of the review for the clock reading [today], the stored
    entries [logs] and a base plan of [weekCount] weeks. *)
Definition metrics (toLowerCase : jsstring -> jsstring) (today : Z)
    (logs : list LogEntry) (weekCount : nat) : Metrics :=
  let startDate := startDateOf today in
  let endDate := addDays startDate (Z.of_nat weekCount * 7) in
  reviewDays toLowerCase (logMapOf logs) today endDate (7 * weekCount)
    startDate metrics0.

Definition completionRatio (m : Metrics) : float :=
  if 0 <? totalDays m
  then (of_int (completedDays m) / of_int (totalDays m))%float
  else 0%float.

(** [None] is null. *)
Definition avgRPE (m : Metrics) : option float :=
  if 0 <? rpeCount m then Some (totalRPE m / of_int (rpeCount m))%float
  else None.

(** The paragraphs of the recommendations. *)
Inductive Paragraph :=
  | missingSessions | increaseChallenge | veryHard | onTrack
  | moreStrengthThanRuns | noStrength | mostlyOther.

Definition recommendations (m : Metrics) : list Paragraph :=
  let c := typeCounts m in
  [ if (completionRatio m <? 0.5)%float then missingSessions
    else if (0.8 <=? completionRatio m)%float
            && match avgRPE m with
               | None => true
               | Some a => (a <=? 4)%float
               end
    then increaseChallenge
    else if match avgRPE m with
            | None => false
            | Some a => (6 <? a)%float
            end
    then veryHard
    else onTrack ]
  ++ (if run c <? strength c then [moreStrengthThanRuns] else [])
  ++ (if strength c =? 0 then [noStrength] else [])
  ++ (if (0 <? other c) && (run c + strength c =? 0) then [mostlyOther]
      else []).

End Review.

(** ** The page of the plan: [renderPlan] and the listeners of [src/script.js] *)

Module Page.
Import JS Planner Calendar Countdown.

(** *** renderPlan: the body of the table *)

Record Cell := {
  completed : bool;
  textContent : jsstring
}.

Record Row := {
  weekCell : Z;
  phaseCell : Phase;
  mileageCell : jsstring;
  dayCells : list Cell
}.

Definition renderCell (logsMapRender : gmap (list N) LogEntry) (startDate : Z)
    (wIndex dIndex : nat) (cell : jsstring) : Cell :=
  let dayDate := addDays startDate (Z.of_nat wIndex * 7 + Z.of_nat dIndex) in
  let isoDate := toIso dayDate in
  match logsMapRender !! isoDate with
  | Some _ =>
    {| completed := true; textContent := 10004%N :: 160%N :: cell |}
  | None => {| completed := false; textContent := cell |}
  end.

(** The rows that [renderPlan(plan)] appends for the clock reading [today]
    and the stored entries [logs]. *)
Definition renderPlan (today : Z) (logs : list LogEntry) (plan : Plan)
  : list Row :=
  let startDate := startDateOf today in
  let logsMapRender := logMapOf logs in
  imap (fun wIndex weekObj =>
          {| weekCell := week weekObj;
             phaseCell := phase weekObj;
             mileageCell := mileage weekObj ++ lit " mi";
             dayCells :=
               imap (fun dIndex cell =>
                       renderCell logsMapRender startDate wIndex dIndex cell)
                 (days weekObj) |})
    (weeks plan).

(** *** The listeners *)

(** The variables that the listeners share, and what the page shows.
    [currentPlan] is the variable of the listener of the document,
    [windowCurrentPlan] the property of the window. *)
Record State := {
  windowBasePlan : option Plan;
  windowRaceDate : option Z;
  windowCurrentPlan : option Plan;
  currentPlan : option Plan;
  planOutputHidden : bool;
  planTable : list Row;
  countdownContainer : jsstring
}.

(** The readings of the clock in the course of one listener: by
    [generatePlan], twice by [adaptPlan], by [renderPlan] and by
    [updateCountdown]. *)
Record Readings := {
  atGenerate : Z;
  atAdapt : Z;
  atScan : Z;
  atRender : Z;
  atCountdown : Z
}.

Inductive Event :=
  | submit (data : FormData)
  | storage (key : jsstring)
  | back.

(** One listener, with the readings of the clock [r] and the stored entries
    [logs] at its time. A copy through JSON is the plan itself. *)
Definition step (s : State) (x : Readings * list LogEntry * Event) : State :=
  let '(r, logs, e) := x in
  match e with
  | submit data =>
    let plan := generatePlan (atGenerate r) data in
    let baseCopy := plan in
    let adaptiveCopy := adaptPlan (atAdapt r) (atScan r) logs baseCopy in
    {| windowBasePlan := Some baseCopy;
       windowRaceDate := Some (raceDate data);
       windowCurrentPlan := Some adaptiveCopy;
       currentPlan := Some adaptiveCopy;
       planOutputHidden := false;
       planTable := renderPlan (atRender r) logs adaptiveCopy;
       countdownContainer := countdownHtml (atCountdown r) (raceDate data) |}
  | storage key =>
    if str_eqb key (lit "ocrLogs") then
      match windowBasePlan s with
      | Some basePlan =>
        if negb (planOutputHidden s) then
          let newCopy := adaptPlan (atAdapt r) (atScan r) logs basePlan in
          {| windowBasePlan := windowBasePlan s;
             windowRaceDate := windowRaceDate s;
             windowCurrentPlan := Some newCopy;
             currentPlan := currentPlan s;
             planOutputHidden := planOutputHidden s;
             planTable := renderPlan (atRender r) logs newCopy;
             countdownContainer :=
               match windowRaceDate s with
               | Some raceDate => countdownHtml (atCountdown r) raceDate
               | None => countdownContainer s
               end |}
        else s
      | None => s
      end
    else s
  | back =>
    {| windowBasePlan := windowBasePlan s;
       windowRaceDate := windowRaceDate s;
       windowCurrentPlan := windowCurrentPlan s;
       currentPlan := currentPlan s;
       planOutputHidden := true;
       planTable := planTable s;
       countdownContainer := countdownContainer s |}
  end.

(** The page before any listener has run. *)
Definition initial : State :=
  {| windowBasePlan := None; windowRaceDate := None;
     windowCurrentPlan := None; currentPlan := None;
     planOutputHidden := true; planTable := []; countdownContainer := [] |}.

Definition run (s : State) (trace : list (Readings * list LogEntry * Event))
  : State :=
  fold_left step trace s.

(** The click on the calendar button: the lines of the file, when a plan
    was generated. *)
Definition calendarClick (today : Z) (clock : Z -> Z) (logs : list LogEntry)
    (s : State) : option (list jsstring) :=
  match currentPlan s with
  | Some plan => Some (calendarLines today clock logs plan)
  | None => None
  end.

Definition isSubmit (e : Event) : bool :=
  match e with submit _ => true | _ => false end.

End Page.

(** ** The search of coaches: the text of [coach.js] in [src/review.js] *)

Module Coaches.
Import JS.

Record Coach := {
  name : jsstring;
  format : jsstring;
  specialties : list jsstring;
  levels : list jsstring;
  bio : jsstring;
  locationText : jsstring;
  contact : jsstring
}.

Definition coaches : list Coach :=
  [ {| name := lit "Sarah Thompson";
       format := lit "remote";
       specialties := [lit "ocr"; lit "strength"];
       levels := [lit "beginner"; lit "intermediate"; lit "advanced"];
       bio := lit "Certified OCR specialist and strength coach offering virtual programs and video analysis.";
       locationText := lit "Remote";
       contact := lit "mailto:sarah@example.com" |};
    {| name := lit "John Ramirez";
       format := lit "in-person";
       specialties := [lit "running"; lit "ocr"];
       levels := [lit "beginner"; lit "intermediate"];
       bio := lit "Former collegiate runner and Spartan veteran based in Virginia. Offers trail and obstacle skills clinics.";
       locationText := lit "Purcellville, VA";
       contact := lit "mailto:john@example.com" |};
    {| name := lit "Emily Chen";
       format := lit "remote";
       specialties := [lit "nutrition"; lit "strength"];
       levels := [lit "beginner"; lit "intermediate"];
       bio := lit "Sports nutritionist and certified personal trainer helping OCR athletes fuel and build strength.";
       locationText := lit "Remote";
       contact := lit "mailto:emily@example.com" |};
    {| name := lit "Marcus Lee";
       format := lit "in-person";
       specialties := [lit "ocr"; lit "running"; lit "strength"];
       levels := [lit "advanced"];
       bio := lit "Elite OCR athlete offering personalised coaching and on‑course training sessions.";
       locationText := lit "New York, NY";
       contact := lit "mailto:marcus@example.com" |};
    {| name := lit "Ariana Gomez";
       format := lit "remote";
       specialties := [lit "running"];
       levels := [lit "beginner"; lit "intermediate"];
       bio := lit "Endurance running coach focusing on building aerobic capacity for OCR and trail events.";
       locationText := lit "Remote";
       contact := lit "mailto:ariana@example.com" |} ].

(** ToBoolean on a form value: null ([None]) and the empty string are
    falsy. *)
Definition given (v : option jsstring) : bool :=
  match v with
  | Some (_ :: _) => true
  | _ => false
  end.

(** [v !== s] for a form value [v] and a string [s]. *)
Definition differs (v : option jsstring) (s : jsstring) : bool :=
  match v with
  | Some t => negb (str_eqb s t)
  | None => true
  end.

(** [l.includes(s)] for a list of strings. *)
Definition includes (l : list jsstring) (s : jsstring) : bool :=
  existsb (fun x => str_eqb x s) l.

(** [l.includes(v)] for a form value [v]. *)
Definition includesValue (l : list jsstring) (v : option jsstring) : bool :=
  match v with
  | Some s => includes l s
  | None => false
  end.

(** The function that the listener passes to [coaches.filter]. *)
Definition keeps (selectedFormat experience : option jsstring)
    (specialtiesSelected : list jsstring) (coach : Coach) : bool :=
  if given selectedFormat && differs selectedFormat (format coach) then false
  else if given experience && negb (includesValue (levels coach) experience)
  then false
  else
    match specialtiesSelected with
    | [] => true
    | _ =>
      let matchSpecialty :=
        existsb (fun spec => includes (specialties coach) spec)
          specialtiesSelected in
      if negb matchSpecialty then false else true
    end.

Definition matches (selectedFormat experience : option jsstring)
    (specialtiesSelected : list jsstring) : list Coach :=
  List.filter (keeps selectedFormat experience specialtiesSelected) coaches.

End Coaches.

(** ** Sample inputs *)

Module Sample.
Import JS Planner.

(** Monday 2 November 2026, 00:00 UTC. *)
Definition monday : Z := 1793577600000.

(** The request of the scenario of the specification: ten weeks to the race,
    10k, intermediate, mileage 10, four training days, one strength day. *)
Definition request : FormData :=
  {| raceDate := monday + 10 * msPerWeek;
     raceDistance := Some (lit "10k");
     experience := Some (lit "intermediate");
     runningMileage := Some (lit "10");
     trainingDays := Some (lit "4");
     strengthFrequency := Some (lit "1") |}.

Definition basePlan : Plan := Eval vm_compute in generatePlan monday request.

(** A workout logged on the Monday with RPE 7, and one with RPE 3. *)
Definition hardLog : list LogEntry :=
  [ {| date := lit "2026-11-02"; type := lit "run"; value := lit "5 km";
       rpe := lit "7"; notes := [] |} ].

Definition easyLog : list LogEntry :=
  [ {| date := lit "2026-11-02"; type := lit "run"; value := lit "5 km";
       rpe := lit "3"; notes := [] |} ].

(** A request without usable numbers: the mileage is missing, the training
    days are a word and the strength frequency is empty. *)
Definition noNumbers : FormData :=
  {| raceDate := monday + 3 * msPerWeek;
     raceDistance := Some (lit "5k");
     experience := Some (lit "beginner");
     runningMileage := None;
     trainingDays := Some (lit "many");
     strengthFrequency := Some [] |}.

(** A request with zero training days and zero strength days. *)
Definition zeros : FormData :=
  {| raceDate := monday + 3 * msPerWeek;
     raceDistance := Some (lit "5k");
     experience := Some (lit "beginner");
     runningMileage := Some (lit "12.5");
     trainingDays := Some (lit "0");
     strengthFrequency := Some (lit "0") |}.

Definition firstWeek : WeekEntry :=
  Eval vm_compute in
    nth 0 (weeks basePlan)
      {| week := 0; phase := Base; mileage := []; days := [] |}.

Definition secondWeek : WeekEntry :=
  Eval vm_compute in
    nth 1 (weeks basePlan)
      {| week := 0; phase := Base; mileage := []; days := [] |}.

End Sample.

(** * Properties *)

Import JS Planner.

(** ** Binary64: order and rounding

    The comparisons of Numbers are those of their values, and a product by a
    factor of at least one is not below the Number multiplied. The facts are
    derived from the specification of the primitive operations. *)

Lemma digits2_size p : digits2_pos p = Pos.size p.
Proof. induction p; cbn; congruence. Qed.

Lemma digits2_bounds p :
  2 ^ (Zpos (digits2_pos p) - 1) <= Zpos p < 2 ^ Zpos (digits2_pos p).
Proof.
  rewrite digits2_size. split.
  - pose proof (Pos.size_le p) as H.
    apply Pos2Z.pos_le_pos in H. rewrite Pos2Z.inj_pow in H.
    replace (Zpos (Pos.size p)) with (Zpos (Pos.size p) - 1 + 1) in H by lia.
    rewrite Z.pow_add_r, Z.pow_1_r in H by lia. lia.
  - pose proof (Pos.size_gt p) as H.
    apply Pos2Z.pos_lt_pos in H. now rewrite Pos2Z.inj_pow in H.
Qed.

(** What validity says of a finite datum. *)
Lemma bounded_canonical m e :
  bounded prec emax m e = true ->
  -1074 <= e <= 971 /\ Zpos m < 2 ^ 53 /\ (-1074 < e -> 2 ^ 52 <= Zpos m).
Proof.
  unfold bounded, canonical_mantissa, fexp, SpecFloat.emin, prec, emax.
  intros [Hc He]%andb_true_iff.
  apply Z.eqb_eq in Hc. apply Z.leb_le in He.
  pose proof (digits2_bounds m) as [Hlo Hhi].
  assert (Hd : Zpos (digits2_pos m) <= 53) by lia.
  split; [lia|]. split.
  - eapply Z.lt_le_trans; [exact Hhi|]. apply Z.pow_le_mono_r; lia.
  - intros Hn. assert (Zpos (digits2_pos m) = 53) as Hd' by lia.
    now rewrite Hd' in Hlo.
Qed.

Lemma pow2_pos n : 0 < 2 ^ n \/ n < 0.
Proof. destruct (Z.le_gt_cases 0 n); [left; now apply Z.pow_pos_nonneg|now right]. Qed.

Lemma pow2_gap a b :
  0 <= a < b -> exists q, 2 <= q /\ 2 ^ b = q * 2 ^ a /\ 0 < 2 ^ a.
Proof.
  intros H. exists (2 ^ (b - a)). split; [|split].
  - change 2 with (2 ^ 1) at 1. apply Z.pow_le_mono_r; lia.
  - rewrite <- Z.pow_add_r by lia. f_equal. lia.
  - apply Z.pow_pos_nonneg; lia.
Qed.

(** On canonical data the order by exponent, then by mantissa, is the order
    of the values. *)
Lemma canonical_compare m1 e1 m2 e2 :
  bounded prec emax m1 e1 = true -> bounded prec emax m2 e2 = true ->
  match e1 ?= e2 with
  | Lt => Lt
  | Gt => Gt
  | Eq => Pos.compare_cont Eq m1 m2
  end = (Zpos m1 * 2 ^ (e1 + 1074) ?= Zpos m2 * 2 ^ (e2 + 1074)).
Proof.
  intros (He1 & Hm1 & Hn1)%bounded_canonical (He2 & Hm2 & Hn2)%bounded_canonical.
  destruct (Z.compare_spec e1 e2) as [->|Hlt|Hgt].
  - change (Pos.compare_cont Eq m1 m2) with (Zpos m1 ?= Zpos m2).
    assert (0 < 2 ^ (e2 + 1074)) by (apply Z.pow_pos_nonneg; lia).
    destruct (Z.compare_spec (Zpos m1) (Zpos m2)) as [Heq|Hlt|Hgt]; symmetry.
    + apply Z.compare_eq_iff. now rewrite Heq.
    + apply Z.compare_lt_iff. nia.
    + apply Z.compare_gt_iff. nia.
  - symmetry. apply Z.compare_lt_iff.
    destruct (pow2_gap (e1 + 1074) (e2 + 1074)) as (q & Hq & -> & Hp); [lia|].
    specialize (Hn2 ltac:(lia)).
    change (2 ^ 53) with (2 * 2 ^ 52) in Hm1.
    assert (Zpos m1 < Zpos m2 * q) by nia. nia.
  - symmetry. apply Z.compare_gt_iff.
    destruct (pow2_gap (e2 + 1074) (e1 + 1074)) as (q & Hq & -> & Hp); [lia|].
    specialize (Hn1 ltac:(lia)).
    change (2 ^ 53) with (2 * 2 ^ 52) in Hm2.
    assert (Zpos m2 < Zpos m1 * q) by nia. nia.
Qed.

Lemma huge_pos : 0 < huge.
Proof. now apply Z.pow_pos_nonneg. Qed.

Lemma finite_below_infinity m e :
  bounded prec emax m e = true -> 0 < Zpos m * 2 ^ (e + 1074) < huge.
Proof.
  unfold huge.
  intros (He & Hm & _)%bounded_canonical.
  assert (0 < 2 ^ (e + 1074)) by (apply Z.pow_pos_nonneg; lia).
  split; [lia|].
  assert (2 ^ (e + 1074) <= 2 ^ 2045) by (apply Z.pow_le_mono_r; lia).
  change (2 ^ 2100) with (2 ^ 55 * 2 ^ 2045).
  assert (0 < 2 ^ 2045) by (now apply Z.pow_pos_nonneg).
  assert (2 ^ 53 < 2 ^ 55) by (now apply Z.pow_lt_mono_r).
  nia.
Qed.

(** The comparison of two valid data that are numbers is the comparison of
    their values. *)
Ltac compare_goal :=
  lazymatch goal with
  | |- Some ?c = Some (?a ?= ?b) =>
    f_equal; symmetry;
    lazymatch c with
    | Eq => apply Z.compare_eq_iff
    | Lt => apply Z.compare_lt_iff
    | Gt => apply Z.compare_gt_iff
    end
  end.

Lemma SFcompare_ordZ x y :
  valid_binary x = true -> valid_binary y = true ->
  is_num x -> is_num y ->
  SFcompare x y = Some (ordZ x ?= ordZ y).
Proof.
  unfold is_num. pose proof huge_pos.
  destruct x as [sx|sx| |sx mx ex], y as [sy|sy| |sy my ey];
    cbn [valid_binary ordZ SFcompare]; intros Hx Hy Nx Ny; try congruence;
    try pose proof (finite_below_infinity _ _ Hx);
    try pose proof (finite_below_infinity _ _ Hy).
  - reflexivity.
  - destruct sy; compare_goal; lia.
  - destruct sy; compare_goal; lia.
  - destruct sx; compare_goal; lia.
  - destruct sx, sy; compare_goal; lia.
  - destruct sx, sy; compare_goal; lia.
  - destruct sx; compare_goal; lia.
  - destruct sx, sy; compare_goal; lia.
  - destruct sx, sy.
    + f_equal. rewrite Z.compare_opp.
      rewrite (Z.compare_antisym (Zpos mx * 2 ^ (ex + 1074))).
      rewrite <- (canonical_compare _ _ _ _ Hx Hy).
      now destruct (ex ?= ey).
    + compare_goal; lia.
    + compare_goal; lia.
    + f_equal. apply canonical_compare; assumption.
Qed.

(** *** Rounding after a multiplication *)

Lemma shr_1_m mrs : 0 <= shr_m mrs -> shr_m (shr_1 mrs) = shr_m mrs / 2.
Proof.
  destruct mrs as [m r s]. cbn [shr_m]. intros Hm.
  rewrite <- Z.div2_div.
  destruct m as [|[p|p|]|p]; try reflexivity. lia.
Qed.

Lemma pow2_double p : 2 ^ Zpos p~0 = 2 ^ Zpos p * 2 ^ Zpos p.
Proof. rewrite <- Z.pow_add_r by lia. f_equal. lia. Qed.

Lemma pow2_double_succ p : 2 ^ Zpos p~1 = 2 * (2 ^ Zpos p * 2 ^ Zpos p).
Proof.
  rewrite <- Z.pow_add_r by lia. rewrite <- Z.pow_succ_r by lia. f_equal. lia.
Qed.

Lemma iter_pos_shr_1 p mrs :
  0 <= shr_m mrs ->
  shr_m (SpecFloat.iter_pos shr_1 p mrs) = shr_m mrs / 2 ^ Zpos p.
Proof.
  revert mrs. induction p as [p IH|p IH|]; intros mrs Hm; cbn [SpecFloat.iter_pos].
  - assert (0 < 2 ^ Zpos p) by (apply Z.pow_pos_nonneg; lia).
    assert (H1 : 0 <= shr_m (shr_1 mrs)).
    { rewrite shr_1_m by assumption. apply Z.div_pos; lia. }
    assert (H2 : 0 <= shr_m (SpecFloat.iter_pos shr_1 p (shr_1 mrs))).
    { rewrite IH by assumption. apply Z.div_pos; lia. }
    rewrite IH, IH, shr_1_m by assumption.
    rewrite !Z.div_div by lia. now rewrite pow2_double_succ.
  - assert (0 < 2 ^ Zpos p) by (apply Z.pow_pos_nonneg; lia).
    assert (H2 : 0 <= shr_m (SpecFloat.iter_pos shr_1 p mrs)).
    { rewrite IH by assumption. apply Z.div_pos; lia. }
    rewrite IH, IH by assumption.
    rewrite !Z.div_div by lia. now rewrite pow2_double.
  - now rewrite shr_1_m.
Qed.

(** The mantissa and the exponent after [shr_fexp] on an exact datum. *)
Lemma shr_fexp_exact P E :
  0 <= P ->
  let e' := Z.max E (fexp prec emax (Zdigits2 P + E)) in
  shr_m (fst (shr_fexp prec emax P E loc_Exact)) = P / 2 ^ (e' - E)
  /\ snd (shr_fexp prec emax P E loc_Exact) = e'.
Proof.
  intros HP e'. subst e'. unfold shr_fexp, shr. cbn [shr_record_of_loc].
  destruct (fexp prec emax (Zdigits2 P + E) - E) as [|n|n] eqn:Hn; cbn [fst snd shr_m].
  - rewrite Z.max_l by lia. rewrite Z.sub_diag, Z.pow_0_r, Z.div_1_r. split; [reflexivity|lia].
  - rewrite iter_pos_shr_1 by exact HP. cbn [shr_m].
    rewrite Z.max_r by lia. rewrite Hn. split; [reflexivity|lia].
  - rewrite Z.max_l by lia. rewrite Z.sub_diag, Z.pow_0_r, Z.div_1_r. split; [reflexivity|lia].
Qed.

Lemma fexp_eq z : fexp prec emax z = Z.max (z - 53) (-1074).
Proof. reflexivity. Qed.

(** Rounding down to the format keeps a datum above every canonical datum
    below it. Values are in units of 2^-1126. *)
Lemma floor_ge mx ex P E :
  bounded prec emax mx ex = true ->
  0 < P -> -1126 <= E ->
  Zpos mx * 2 ^ (ex + 1126) <= P * 2 ^ (E + 1126) ->
  let e' := Z.max E (fexp prec emax (Zdigits2 P + E)) in
  Zpos mx * 2 ^ (ex + 1126) <= P / 2 ^ (e' - E) * 2 ^ (e' + 1126)
  /\ -1074 <= e'.
Proof.
  intros (Hex & Hmx & Hnx)%bounded_canonical HP HE Hle e'.
  destruct P as [|p|p]; try lia.
  pose proof (digits2_bounds p) as [Hlo Hhi].
  subst e'. rewrite fexp_eq. cbn [Zdigits2].
  set (d := Zpos (digits2_pos p)) in *.
  set (e' := Z.max E (Z.max (d + E - 53) (-1074))).
  split; [|lia].
  destruct (Z.eq_dec e' E) as [->|Hne].
  { now rewrite Z.sub_diag, Z.pow_0_r, Z.div_1_r. }
  assert (Hn : 0 < e' - E) by lia.
  assert (Hpn : 0 < 2 ^ (e' - E)) by (apply Z.pow_pos_nonneg; lia).
  assert (HpE : 0 < 2 ^ (E + 1126)) by (apply Z.pow_pos_nonneg; lia).
  assert (Hsplit : 2 ^ (e' + 1126) = 2 ^ (e' - E) * 2 ^ (E + 1126)).
  { rewrite <- Z.pow_add_r by lia. f_equal. lia. }
  destruct (Z.le_gt_cases e' ex) as [Hge|Hlt].
  - (* the datum is a multiple of the unit of the result *)
    assert (Hx : 2 ^ (ex + 1126) = 2 ^ (ex - e') * 2 ^ (e' + 1126)).
    { rewrite <- Z.pow_add_r by lia. f_equal. lia. }
    assert (0 <= 2 ^ (ex - e')) by (apply Z.pow_nonneg; lia).
    rewrite Hx, Z.mul_assoc.
    apply Z.mul_le_mono_nonneg_r; [apply Z.pow_nonneg; lia|].
    apply Z.div_le_lower_bound; [exact Hpn|].
    rewrite Hx, Hsplit in Hle.
    apply (Z.mul_le_mono_pos_r _ _ (2 ^ (E + 1126))); [exact HpE|].
    lia.
  - (* the result has a larger exponent and a full mantissa *)
    assert (He' : e' = d + E - 53) by lia.
    assert (Hfull : 2 ^ 52 <= Zpos p / 2 ^ (e' - E)).
    { apply Z.div_le_lower_bound; [exact Hpn|].
      rewrite <- Z.pow_add_r by lia.
      replace (e' - E + 52) with (d - 1) by lia. exact Hlo. }
    destruct (pow2_gap (ex + 1126) (e' + 1126)) as (q & Hq & -> & Hp); [lia|].
    change (2 ^ 53) with (2 * 2 ^ 52) in Hmx.
    assert (Zpos mx < Zpos p / 2 ^ (e' - E) * q) by nia. nia.
Qed.

Lemma round_nearest_even_ge m l : m <= round_nearest_even m l.
Proof. destruct l as [|[]]; cbn; try lia. destruct (Z.even m); lia. Qed.

(** The rounded product of positive data is not below a canonical datum
    that is not above the exact product. *)
Lemma binary_round_aux_ge mx ex P E :
  bounded prec emax mx ex = true ->
  0 < P -> -1126 <= E ->
  Zpos mx * 2 ^ (ex + 1126) <= P * 2 ^ (E + 1126) ->
  binary_round_aux prec emax false P E loc_Exact = S754_infinity false
  \/ exists m e,
      binary_round_aux prec emax false P E loc_Exact = S754_finite false m e
      /\ Zpos mx * 2 ^ (ex + 1074) <= Zpos m * 2 ^ (e + 1074).
Proof.
  intros Hb HP HE Hle.
  pose proof Hb as (Hex & _)%bounded_canonical.
  assert (Hx : 0 < Zpos mx * 2 ^ (ex + 1126)).
  { apply Z.mul_pos_pos; [lia|apply Z.pow_pos_nonneg; lia]. }
  unfold binary_round_aux.
  destruct (shr_fexp_exact P E ltac:(lia)) as [Hm1 He1].
  destruct (floor_ge mx ex P E Hb HP HE Hle) as [Hv1 Hlo1].
  destruct (shr_fexp prec emax P E loc_Exact) as [mrs1 e1].
  cbn [fst snd] in Hm1, He1. cbn zeta in Hm1, He1, Hv1, Hlo1.
  rewrite <- He1 in Hm1, Hv1, Hlo1. rewrite <- Hm1 in Hv1.
  set (m2 := round_nearest_even (shr_m mrs1) (loc_of_shr_record mrs1)).
  assert (Hm2 : shr_m mrs1 <= m2) by apply round_nearest_even_ge.
  assert (Hp1 : 0 < 2 ^ (e1 + 1126)) by (apply Z.pow_pos_nonneg; lia).
  assert (Hv2 : Zpos mx * 2 ^ (ex + 1126) <= m2 * 2 ^ (e1 + 1126)) by nia.
  assert (Hpos2 : 0 < m2) by nia.
  destruct (shr_fexp_exact m2 e1 ltac:(lia)) as [Hm3 He3].
  destruct (floor_ge mx ex m2 e1 Hb Hpos2 ltac:(lia) Hv2) as [Hv3 Hlo3].
  destruct (shr_fexp prec emax m2 e1 loc_Exact) as [mrs3 e3].
  cbn [fst snd] in Hm3, He3. cbn zeta in Hm3, He3, Hv3, Hlo3.
  rewrite <- He3 in Hm3, Hv3, Hlo3. rewrite <- Hm3 in Hv3.
  assert (Hp3 : 0 < 2 ^ (e3 + 1074)) by (apply Z.pow_pos_nonneg; lia).
  assert (Hs3 : 2 ^ (e3 + 1126) = 2 ^ (e3 + 1074) * 2 ^ 52).
  { rewrite <- Z.pow_add_r by lia. f_equal. lia. }
  assert (Hsx : 2 ^ (ex + 1126) = 2 ^ (ex + 1074) * 2 ^ 52).
  { rewrite <- Z.pow_add_r by lia. f_equal. lia. }
  destruct (shr_m mrs3) as [|m|m]; [nia| |nia].
  destruct (e3 <=? emax - prec); [right|now left].
  exists m, e3. split; [reflexivity|].
  rewrite Hs3, Hsx in Hv3. assert (0 < 2 ^ 52) by now apply Z.pow_pos_nonneg.
  nia.
Qed.


(** *** Comparisons of Numbers *)

Lemma SFcompare_nan_l y : SFcompare S754_nan y = None.
Proof. reflexivity. Qed.

Lemma SFcompare_nan_r x : SFcompare x S754_nan = None.
Proof. now destruct x. Qed.

Lemma number_is_num x : number x <-> is_num (Prim2SF x).
Proof.
  unfold number, is_num, is_nan. rewrite FloatAxioms.eqb_spec. unfold SFeqb.
  destruct (Prim2SF x) as [s|s| |s m e] eqn:Hx.
  4: { pose proof (Prim2SF_valid x) as Hv. rewrite Hx in Hv.
       rewrite (SFcompare_ordZ _ _ Hv Hv) by (unfold is_num; congruence).
       now rewrite Z.compare_refl. }
  - cbn. split; [discriminate|reflexivity].
  - destruct s; cbn; (split; [discriminate|reflexivity]).
  - cbn. split; [discriminate|congruence].
Qed.

Lemma compare_value x y :
  number x -> number y ->
  SFcompare (Prim2SF x) (Prim2SF y) = Some (num_value x ?= num_value y).
Proof.
  intros Hx%number_is_num Hy%number_is_num.
  apply SFcompare_ordZ; auto using Prim2SF_valid.
Qed.

Lemma not_number_compare x y :
  ~ (number x /\ number y) -> SFcompare (Prim2SF x) (Prim2SF y) = None.
Proof.
  rewrite !number_is_num. unfold is_num. intros H.
  destruct (Prim2SF x) eqn:Hx; try reflexivity;
    destruct (Prim2SF y) eqn:Hy; try reflexivity;
    exfalso; apply H; split; congruence.
Qed.

Lemma number_dec x : {number x} + {~ number x}.
Proof. unfold number. destruct (is_nan x); [right|left]; congruence. Qed.

Lemma leb_value x y :
  (x <=? y)%float = true <-> number x /\ number y /\ num_value x <= num_value y.
Proof.
  rewrite FloatAxioms.leb_spec. unfold SFleb.
  destruct (number_dec x) as [Hx|Hx]; [destruct (number_dec y) as [Hy|Hy]|].
  - rewrite (compare_value _ _ Hx Hy).
    destruct (Z.compare_spec (num_value x) (num_value y)); split; intros; try easy;
      try (repeat split; auto; lia).
    all: exfalso; lia.
  - rewrite not_number_compare by tauto. split; [easy|tauto].
  - rewrite not_number_compare by tauto. split; [easy|tauto].
Qed.

Lemma ltb_value x y :
  (x <? y)%float = true <-> number x /\ number y /\ num_value x < num_value y.
Proof.
  rewrite FloatAxioms.ltb_spec. unfold SFltb.
  destruct (number_dec x) as [Hx|Hx]; [destruct (number_dec y) as [Hy|Hy]|].
  - rewrite (compare_value _ _ Hx Hy).
    destruct (Z.compare_spec (num_value x) (num_value y)); split; intros; try easy;
      try (repeat split; auto; lia).
    all: exfalso; lia.
  - rewrite not_number_compare by tauto. split; [easy|tauto].
  - rewrite not_number_compare by tauto. split; [easy|tauto].
Qed.

Lemma ltb_false_value x y :
  number x -> number y -> (x <? y)%float = false -> num_value y <= num_value x.
Proof.
  intros Hx Hy H. destruct (Z.le_gt_cases (num_value y) (num_value x)); [assumption|].
  assert ((x <? y)%float = true) by (apply ltb_value; auto). congruence.
Qed.

(** [Math.max] and [Math.min] of two Numbers that are not NaN. *)
Lemma Math_max_value x y :
  number x -> number y ->
  number (Math_max x y) /\ num_value (Math_max x y) = Z.max (num_value x) (num_value y).
Proof.
  intros Hx Hy. unfold Math_max. rewrite Hx, Hy. cbn [orb].
  destruct (x <? y)%float eqn:H1.
  { apply ltb_value in H1. split; [assumption|lia]. }
  destruct (y <? x)%float eqn:H2.
  { apply ltb_value in H2. split; [assumption|lia]. }
  apply ltb_false_value in H1; [|assumption..].
  apply ltb_false_value in H2; [|assumption..].
  destruct (get_sign x); (split; [assumption|lia]).
Qed.

Lemma Math_min_value x y :
  number x -> number y ->
  number (Math_min x y) /\ num_value (Math_min x y) = Z.min (num_value x) (num_value y).
Proof.
  intros Hx Hy. unfold Math_min. rewrite Hx, Hy. cbn [orb].
  destruct (x <? y)%float eqn:H1.
  { apply ltb_value in H1. split; [assumption|lia]. }
  destruct (y <? x)%float eqn:H2.
  { apply ltb_value in H2. split; [assumption|lia]. }
  apply ltb_false_value in H1; [|assumption..].
  apply ltb_false_value in H2; [|assumption..].
  destruct (get_sign x); (split; [assumption|lia]).
Qed.

Lemma or_default_number x d : number d -> number (or_default x d).
Proof.
  intros Hd. unfold or_default, truthy, number.
  destruct (is_nan x) eqn:Hx; cbn [orb negb]; [exact Hd|].
  now destruct (is_zero x).
Qed.

(** A Number that is not negative has a product with a factor of at least
    one that is a Number and is not below it. *)
Lemma mul_at_least_one x c :
  number x -> 0 <= num_value x -> at_least_one c = true ->
  number (x * c)%float /\ num_value x <= num_value (x * c)%float.
Proof.
  intros Hx%number_is_num Hpos Hc. unfold at_least_one in Hc.
  rewrite number_is_num. unfold num_value in *. rewrite FloatAxioms.mul_spec.
  pose proof (Prim2SF_valid x) as Hv.
  pose proof (Prim2SF_valid (x * c)%float) as Hvr. rewrite FloatAxioms.mul_spec in Hvr.
  destruct (Prim2SF c) as [| | |[] mc ec]; try discriminate Hc.
  apply andb_true_iff in Hc as [[Hc1 Hc2]%andb_true_iff Hc3].
  apply Z.leb_le in Hc1, Hc2, Hc3.
  unfold is_num in *. unfold SF64mul, SFmul in *.
  destruct (Prim2SF x) as [s|s| |s mx ex]; try congruence.
  - split; [congruence|reflexivity].
  - cbn [ordZ] in *. pose proof huge_pos. destruct s; [lia|].
    split; [congruence|reflexivity].
  - cbn [ordZ valid_binary] in *.
    pose proof Hv as (Hex & _)%bounded_canonical.
    assert (0 < 2 ^ (ex + 1074)) by (apply Z.pow_pos_nonneg; lia).
    destruct s; [lia|]. cbn [xorb] in *.
    destruct (binary_round_aux_ge mx ex (Zpos (mx * mc)) (ex + ec) Hv)
      as [Hr|(m & e & Hr & Hle)]; try lia.
    + rewrite Pos2Z.inj_mul.
      assert (Hs : 2 ^ (ex + 1126) = 2 ^ (- ec) * 2 ^ (ex + ec + 1126)).
      { rewrite <- Z.pow_add_r by lia. f_equal. lia. }
      assert (0 < 2 ^ (ex + ec + 1126)) by (apply Z.pow_pos_nonneg; lia).
      rewrite Hs. nia.
    + rewrite Hr. split; [congruence|].
      cbn [ordZ]. pose proof (finite_below_infinity _ _ Hv). lia.
    + rewrite Hr. split; [congruence|exact Hle].
Qed.

(** ** Phase lengths *)

Lemma generatePlan_phases today data :
  phases (generatePlan today data)
  = phaseLengths (weeksBetween today (raceDate data)).
Proof. reflexivity. Qed.

Lemma generatePlan_weeksToRace today data :
  weeksToRace (generatePlan today data) = weeksBetween today (raceDate data).
Proof. reflexivity. Qed.

Lemma weeksBetween_ge_1 date1 date2 : 1 <= weeksBetween date1 date2.
Proof. unfold weeksBetween. lia. Qed.

(** C3: for every number of weeks to the race that is at least 1, the four
    phase counts of the generated plan add up to exactly that number; the
    build count is what remains after the three others and is kept as it
    is, which makes it zero or negative exactly for plans of at most four
    weeks. *)
Theorem phase_counts_sum (w : Z) (today : Z) (data : FormData) :
  1 <= w ->
  weeksBetween today (raceDate data) = w ->
  let p := phases (generatePlan today data) in
  baseWeeks p + buildWeeks p + specificWeeks p + taperWeeks p = w
  /\ buildWeeks p = w - baseWeeks p - specificWeeks p - taperWeeks p
  /\ (buildWeeks p <= 0 <-> w <= 4).
Proof.
  intros Hw Hweeks p. subst p.
  rewrite generatePlan_phases, Hweeks. unfold phaseLengths.
  destruct (Z.ltb_spec w 8); [|destruct (Z.ltb_spec w 12);
    [|destruct (Z.ltb_spec w 20)]]; cbn; lia.
Qed.

(** ** The weekly mileage *)

Lemma number_zero : number 0%float /\ num_value 0%float = 0.
Proof. split; reflexivity. Qed.

Lemma initialMiles_nonneg data :
  number (initialMiles data) /\ 0 <= num_value (initialMiles data).
Proof.
  unfold initialMiles.
  destruct (Math_max_value 0%float
              (or_default (parseFloat (to_string_opt (runningMileage data))) 0))
    as [Hn Hv].
  - apply number_zero.
  - apply or_default_number, number_zero.
  - split; [exact Hn|]. rewrite Hv, (proj2 number_zero). lia.
Qed.

Lemma peakMultiplier_at_least_one data :
  at_least_one (peakMultiplier data) = true.
Proof. unfold peakMultiplier. repeat case_match; vm_compute; reflexivity. Qed.

Lemma rate_at_least_one data : at_least_one (1 + inc data)%float = true.
Proof. unfold inc. repeat case_match; vm_compute; reflexivity. Qed.

Lemma targetPeak_bounds data :
  number (targetPeak data)
  /\ num_value (initialMiles data) <= num_value (targetPeak data).
Proof.
  destruct (initialMiles_nonneg data) as [Hn Hv].
  destruct (mul_at_least_one _ _ Hn Hv (peakMultiplier_at_least_one data))
    as [Hpn Hpv].
  unfold targetPeak.
  destruct (Math_max_value (initialMiles data * peakMultiplier data)%float 10%float
              Hpn eq_refl) as [Htn Htv].
  split; [exact Htn|]. rewrite Htv. lia.
Qed.

(** One step of the progression stays between the current mileage and the
    peak. *)
Lemma mileage_step peak rate cur :
  at_least_one (1 + rate)%float = true ->
  number peak -> number cur ->
  0 <= num_value cur <= num_value peak ->
  let next := Math_min peak (cur * (1 + rate))%float in
  number next /\ num_value cur <= num_value next <= num_value peak.
Proof.
  intros Hrate Hp Hc [H0 Hle] next.
  destruct (mul_at_least_one _ _ Hc H0 Hrate) as [Hmn Hmv].
  destruct (Math_min_value peak (cur * (1 + rate))%float Hp Hmn) as [Hn Hv].
  subst next. split; [exact Hn|]. rewrite Hv. lia.
Qed.

Lemma mileageLoop_length n peak rate cur :
  List.length (mileageLoop n peak rate cur) = n.
Proof.
  revert cur. induction n as [|n IH]; intros cur; cbn [mileageLoop List.length];
    [reflexivity|]. now rewrite IH.
Qed.

Lemma mileageLoop_bounds n peak rate cur :
  at_least_one (1 + rate)%float = true ->
  number peak -> number cur ->
  0 <= num_value cur <= num_value peak ->
  forall m, m ∈ mileageLoop n peak rate cur ->
    number m /\ num_value cur <= num_value m <= num_value peak.
Proof.
  intros Hrate Hp. revert cur.
  induction n as [|n IH]; intros cur Hc Hb m; cbn [mileageLoop].
  - intros []%elem_of_nil.
  - intros [->|Hm]%elem_of_cons.
    + split; [exact Hc|lia].
    + destruct (mileage_step peak rate cur Hrate Hp Hc Hb) as [Hn Hv].
      destruct (IH _ Hn ltac:(lia) m Hm) as [Hmn Hmv].
      split; [exact Hmn|lia].
Qed.

Lemma mileageLoop_monotone n peak rate cur :
  at_least_one (1 + rate)%float = true ->
  number peak -> number cur ->
  0 <= num_value cur <= num_value peak ->
  forall (i : nat) a b,
    mileageLoop n peak rate cur !! i = Some a ->
    mileageLoop n peak rate cur !! S i = Some b ->
    (a <=? b)%float = true.
Proof.
  intros Hrate Hp. revert cur.
  induction n as [|n IH]; intros cur Hc Hb i a b; cbn [mileageLoop].
  - intros [=].
  - destruct (mileage_step peak rate cur Hrate Hp Hc Hb) as [Hn Hv].
    destruct i as [|i]; cbn [lookup list_lookup].
    + intros [= <-] Hnext.
      apply list_elem_of_lookup_2 in Hnext.
      destruct (mileageLoop_bounds _ _ _ _ Hrate Hp Hn ltac:(lia) _ Hnext)
        as [Hbn Hbv].
      apply leb_value. split; [exact Hc|]. split; [exact Hbn|lia].
    + apply IH; [exact Hn|lia].
Qed.

Lemma generatePlan_mileage today data :
  map mileage (weeks (generatePlan today data))
  = map toFixed1
      (weeklyMiles data (weeksToRace (generatePlan today data))).
Proof.
  unfold generatePlan. cbn [weeks weeksToRace].
  set (w := weeksBetween today (raceDate data)).
  set (ms := weeklyMiles data w).
  assert (Hlen : List.length ms = Z.to_nat w) by apply mileageLoop_length.
  rewrite map_map. cbn [mileage].
  rewrite <- Hlen. clear Hlen. generalize ms. clear. intros ms.
  induction ms as [|m ms IH] using rev_ind; [reflexivity|].
  rewrite length_app, Nat.add_comm. cbn [List.length Nat.add].
  rewrite seq_S, !map_app. cbn [map Nat.add].
  rewrite nth_middle. f_equal.
  rewrite <- IH. apply map_ext_in. intros i Hi%in_seq.
  now rewrite app_nth1 by lia.
Qed.

Lemma tenths_mono a b : num_value a <= num_value b -> tenths a <= tenths b.
Proof.
  intros H. unfold tenths.
  assert (Hp : 0 < 2 ^ 1075) by (apply Z.pow_pos_nonneg; lia).
  set (P := 2 ^ 1075) in *. set (Q := 2 ^ 1074). clearbody P Q.
  apply Z.div_le_mono; lia.
Qed.

Lemma tenths_nonneg a : 0 <= num_value a -> 0 <= tenths a.
Proof.
  intros H. unfold tenths.
  assert (Hp : 0 < 2 ^ 1075) by (apply Z.pow_pos_nonneg; lia).
  assert (Hq : 0 < 2 ^ 1074) by (apply Z.pow_pos_nonneg; lia).
  set (P := 2 ^ 1075) in *. set (Q := 2 ^ 1074) in *. clearbody P Q.
  apply Z.div_pos; lia.
Qed.

Lemma value_1e21 : num_value 1e21 = 10 ^ 21 * 2 ^ 1074.
Proof. vm_compute. reflexivity. Qed.

Lemma tenths_finite (m : positive) (e : Z) :
  -1074 <= e ->
  (20 * (Zpos m * 2 ^ (e + 1074)) + 2 ^ 1074) / 2 ^ 1075
  = if 0 <=? e then 10 * Zpos m * 2 ^ e
    else (20 * Zpos m + 2 ^ (- e)) / 2 ^ (1 - e).
Proof.
  intros He.
  assert (Hq : 0 < 2 ^ 1074) by (apply Z.pow_pos_nonneg; lia).
  destruct (Z.leb_spec 0 e) as [H0|H0].
  - replace (2 ^ 1075) with (2 * 2 ^ 1074)
      by (change 1075 with (1 + 1074); rewrite Z.pow_add_r by lia; reflexivity).
    rewrite (Z.pow_add_r 2 e 1074) by lia.
    assert (He' : 0 < 2 ^ e) by (apply Z.pow_pos_nonneg; lia).
    set (Q := 2 ^ 1074) in *. set (E := 2 ^ e) in *. clearbody Q E.
    replace (20 * (Z.pos m * (E * Q)) + Q) with ((20 * Z.pos m * E + 1) * Q)
      by ring.
    rewrite Z.div_mul_cancel_r by lia.
    set (q := Z.pos m * E).
    replace (20 * Z.pos m * E + 1) with (1 + (10 * q) * 2) by (unfold q; ring).
    rewrite Z.div_add by lia. unfold q. change (1 / 2) with 0. ring.
  - replace (2 ^ 1075) with (2 ^ (1 - e) * 2 ^ (e + 1074))
      by (rewrite <- Z.pow_add_r by lia; f_equal; lia).
    replace (2 ^ 1074) with (2 ^ (- e) * 2 ^ (e + 1074))
      by (rewrite <- Z.pow_add_r by lia; f_equal; lia).
    assert (H1 : 0 < 2 ^ (1 - e)) by (apply Z.pow_pos_nonneg; lia).
    assert (H2 : 0 < 2 ^ (e + 1074)) by (apply Z.pow_pos_nonneg; lia).
    set (A := 2 ^ (1 - e)) in *. set (B := 2 ^ (e + 1074)) in *.
    set (C := 2 ^ (- e)). clearbody A B C.
    replace (20 * (Z.pos m * B) + C * B) with ((20 * Z.pos m + C) * B) by ring.
    apply Z.div_mul_cancel_r; lia.
Qed.

Lemma toFixed1_tenths x :
  number x -> 0 <= num_value x -> (x <? 1e21)%float = true ->
  toFixed1 x = printTenths (tenths x).
Proof.
  intros Hn Hv Hlt.
  apply ltb_value in Hlt as (_ & _ & Hlt). rewrite value_1e21 in Hlt.
  apply number_is_num in Hn.
  pose proof (Prim2SF_valid x) as Hvalid.
  unfold toFixed1, tenths, num_value in *.
  destruct (Prim2SF x) as [s|s| |s m e] eqn:Hx.
  - cbn [ordZ]. change (20 * 0 + 2 ^ 1074) with (2 ^ 1074).
    replace (2 ^ 1074 / 2 ^ 1075) with 0; [reflexivity|].
    symmetry. apply Z.div_small.
    split; [apply Z.pow_nonneg; lia|apply Z.pow_lt_mono_r; lia].
  - exfalso. cbn [ordZ] in Hv, Hlt. pose proof huge_pos.
    destruct s; [lia|].
    assert (10 ^ 21 * 2 ^ 1074 < huge); [|lia].
    unfold huge. change 2100 with (1026 + 1074).
    rewrite Z.pow_add_r by lia.
    apply Z.mul_lt_mono_pos_r; [apply Z.pow_pos_nonneg; lia|].
    vm_compute. reflexivity.
  - exfalso. apply Hn. reflexivity.
  - cbn [valid_binary] in Hvalid.
    destruct (bounded_canonical m e Hvalid) as (He & _).
    cbn [ordZ] in Hv, Hlt |- *.
    assert (Hpos : 0 < Zpos m * 2 ^ (e + 1074)).
    { apply Z.mul_pos_pos; [lia|apply Z.pow_pos_nonneg; lia]. }
    destruct s; [lia|]. cbn [app].
    rewrite tenths_finite by lia.
    assert (Hsmall : (0 <=? e) && (10 ^ 21 <=? Z.pos m * 2 ^ e) = false).
    { destruct (Z.leb_spec 0 e) as [H0|H0]; [|reflexivity]. cbn [andb].
      apply Z.leb_gt.
      rewrite (Z.pow_add_r 2 e 1074) in Hlt by lia.
      assert (Hq : 0 < 2 ^ 1074) by (apply Z.pow_pos_nonneg; lia).
      set (Q := 2 ^ 1074) in *. set (T := 10 ^ 21) in *.
      set (V := Z.pos m * 2 ^ e). fold V in Hlt.
      replace (Z.pos m * (2 ^ e * Q)) with (Z.pos m * 2 ^ e * Q) in Hlt by ring.
      fold V in Hlt. clearbody Q T V.
      apply (Z.mul_lt_mono_pos_r Q); assumption. }
    rewrite Hsmall. reflexivity.
Qed.

(** C2, corrected: the mileage values that the generator computes, the
    array [weeklyMiles], are one for each of the weeks to the race, never
    decrease from one week to the next, and none is above the target peak,
    the larger of 10 and the start mileage times the multiplier of the race
    distance: 1.5 for 5k, 1.8 for 10k, 2.2 for 21k, 3.0 for ultra. The
    sequence that the plan records is each value printed with one decimal.
    For a peak below 10^21 a recorded value is the nearest number of tenths,
    the larger one on a tie; the recorded values never decrease either, and
    none is above the peak rounded in the same way, which is above the peak
    itself when the rounding goes up. *)
Theorem weekly_mileage_monotone_bounded (today : Z) (data : FormData) :
  let plan := generatePlan today data in
  let miles := weeklyMiles data (weeksToRace plan) in
  Z.of_nat (List.length miles) = weeksToRace plan
  /\ map mileage (weeks plan) = map toFixed1 miles
  /\ (forall (i : nat) a b,
        miles !! i = Some a -> miles !! S i = Some b ->
        (a <=? b)%float = true)
  /\ (forall m, m ∈ miles -> (m <=? targetPeak data)%float = true)
  /\ targetPeak data
     = Math_max (initialMiles data * peakMultiplier data)%float 10
  /\ (raceDistance data = Some (lit "5k") -> peakMultiplier data = 1.5%float)
  /\ (raceDistance data = Some (lit "10k") -> peakMultiplier data = 1.8%float)
  /\ (raceDistance data = Some (lit "21k") -> peakMultiplier data = 2.2%float)
  /\ (raceDistance data = Some (lit "ultra") -> peakMultiplier data = 3.0%float)
  /\ ((targetPeak data <? 1e21)%float = true ->
      map mileage (weeks plan) = map (fun m => printTenths (tenths m)) miles
      /\ (forall (i : nat) a b,
            miles !! i = Some a -> miles !! S i = Some b ->
            tenths a <= tenths b)
      /\ (forall m, m ∈ miles -> 0 <= tenths m <= tenths (targetPeak data))).
Proof.
  intros plan miles.
  destruct (initialMiles_nonneg data) as [Hn Hv].
  destruct (targetPeak_bounds data) as [Hpn Hpv].
  pose proof (rate_at_least_one data) as Hrate.
  assert (Hmono : forall (i : nat) a b,
             miles !! i = Some a -> miles !! S i = Some b ->
             (a <=? b)%float = true).
  { apply mileageLoop_monotone; [exact Hrate|exact Hpn|exact Hn|lia]. }
  assert (Hbounds : forall m, m ∈ miles ->
             number m
             /\ num_value (initialMiles data) <= num_value m
                <= num_value (targetPeak data)).
  { intros m Hm.
    exact (mileageLoop_bounds _ _ _ _ Hrate Hpn Hn ltac:(lia) m Hm). }
  split.
  { subst miles. unfold weeklyMiles. rewrite mileageLoop_length.
    pose proof (weeksBetween_ge_1 today (raceDate data)).
    subst plan. rewrite generatePlan_weeksToRace. lia. }
  split; [apply generatePlan_mileage|].
  split; [exact Hmono|].
  split.
  { intros m Hm. destruct (Hbounds m Hm) as [Hmn Hmv].
    apply leb_value. split; [exact Hmn|]. split; [exact Hpn|lia]. }
  split; [reflexivity|].
  unfold peakMultiplier.
  split; [intros ->; vm_compute; reflexivity|].
  split; [intros ->; vm_compute; reflexivity|].
  split; [intros ->; vm_compute; reflexivity|].
  split; [intros ->; vm_compute; reflexivity|].
  intros Hbig. apply ltb_value in Hbig as (_ & H21 & Hbig).
  split; [|split].
  - unfold plan at 1. rewrite generatePlan_mileage. fold plan. fold miles.
    apply map_ext_in. intros m Hm. apply list_elem_of_In in Hm.
    destruct (Hbounds m Hm) as [Hmn Hmv].
    apply toFixed1_tenths; [exact Hmn|lia|].
    apply ltb_value. split; [exact Hmn|]. split; [exact H21|lia].
  - intros i a b Ha Hb.
    apply tenths_mono.
    exact (proj2 (proj2 (proj1 (leb_value a b) (Hmono i a b Ha Hb)))).
  - intros m Hm. destruct (Hbounds m Hm) as [Hmn Hmv].
    split; [apply tenths_nonneg; lia|apply tenths_mono; lia].
Qed.

(** C2, the claim as it was stated: the last recorded mileage of a plan for
    10k from a start mileage of 10.03 is 18.1, above the larger of 10 and
    the start mileage times 1.8, a Number below 18.06. *)
Lemma recorded_mileage_counterexample :
  let data := withRunningMileage (Some (lit "10.03")) Sample.request in
  let plan := generatePlan Sample.monday data in
  raceDistance data = Some (lit "10k")
  /\ peakMultiplier data = 1.8%float
  /\ initialMiles data = 10.03%float
  /\ targetPeak data
     = Math_max (initialMiles data * peakMultiplier data)%float 10
  /\ (targetPeak data <? 18.06)%float = true
  /\ last (map mileage (weeks plan)) = Some (lit "18.1")
  /\ parseFloat (lit "18.1") = 18.1%float
  /\ (targetPeak data <? parseFloat (lit "18.1"))%float = true.
Proof.
  cbn zeta.
  split; [reflexivity|]. split; [vm_compute; reflexivity|].
  split; [vm_compute; reflexivity|]. split; [reflexivity|].
  split; [vm_compute; reflexivity|]. split; [vm_compute; reflexivity|].
  split; vm_compute; reflexivity.
Qed.

(** ** The hard run of a week *)

Lemma other_texts_not_hard phase :
  easyRunText <> generateRunDesc true phase
  /\ generateStrengthDesc phase <> generateRunDesc true phase
  /\ recoveryText <> generateRunDesc true phase
  /\ restText <> generateRunDesc true phase.
Proof.
  destruct phase; repeat split; intros H; vm_compute in H; discriminate H.
Qed.

(** Once the hard run of the week is used, no later day is a hard run. *)
Lemma assignDays_no_more_hard phase td sf n d rc sc :
  filter (fun desc => desc = generateRunDesc true phase)
    (assignDays phase td sf n d rc sc (hardRuns td)) = [].
Proof.
  destruct (other_texts_not_hard phase) as (He & Hs & Hr & Hx).
  revert d rc sc. induction n as [|n IH]; intros d rc sc;
    cbn [assignDays]; [reflexivity|].
  rewrite Z.ltb_irrefl. cbn [andb].
  change (generateRunDesc false phase) with easyRunText.
  destruct (of_int rc <? runDays td)%float;
    [|destruct (of_int sc <? strengthDays td sf)%float;
      [|destruct (of_int d <? td)%float]];
    rewrite filter_cons.
  - rewrite (decide_False (P := _ = _)) by exact He. apply IH.
  - rewrite (decide_False (P := _ = _)) by exact Hs. apply IH.
  - rewrite (decide_False (P := _ = _)) by exact Hr. apply IH.
  - rewrite (decide_False (P := _ = _)) by exact Hx. apply IH.
Qed.

Lemma assignDays_step phase td sf n d rc sc hu :
  assignDays phase td sf (S n) d rc sc hu
  = if (of_int rc <? runDays td)%float then
      let isHard :=
        (hu <? hardRuns td)
        && (runDays td - of_int rc
            <=? of_int (hardRuns td - hu + (7 - d)))%float in
      generateRunDesc isHard phase ::
        assignDays phase td sf n (d + 1) (rc + 1) sc
          (if isHard then hu + 1 else hu)
    else if (of_int sc <? strengthDays td sf)%float then
      generateStrengthDesc phase ::
        assignDays phase td sf n (d + 1) rc (sc + 1) hu
    else if (of_int d <? td)%float then
      recoveryText :: assignDays phase td sf n (d + 1) rc sc hu
    else
      restText :: assignDays phase td sf n (d + 1) rc sc hu.
Proof. reflexivity. Qed.

(** The first day of the week, for one to seven training days: a run, hard
    from four training days on. *)
Lemma weekDays_first phase (td : Z) sf :
  1 <= td <= 7 ->
  weekDays phase (of_int td) sf
  = generateRunDesc (4 <=? td) phase
      :: assignDays phase (of_int td) sf 6 1 1 0 (hardRuns (of_int td)).
Proof.
  intros Htd.
  assert (Hcases : td = 1 \/ td = 2 \/ td = 3 \/ td = 4 \/ td = 5 \/ td = 6
                   \/ td = 7) by lia.
  unfold weekDays. rewrite assignDays_step. cbn zeta.
  fold (lookahead (of_int td)).
  assert (Hrun : (of_int 0 <? runDays (of_int td))%float = true
                 /\ lookahead (of_int td) = true
                 /\ hardRuns (of_int td) = (if 4 <=? td then 1 else 0)).
  { destruct Hcases as [->|[->|[->|[->|[->|[->| ->]]]]]];
      vm_compute; repeat split; reflexivity. }
  destruct Hrun as (-> & -> & Hh). rewrite Hh.
  destruct (4 <=? td); reflexivity.
Qed.

(** C7: for one to seven training days every generated week has exactly one
    hard-run day when the training days are at least four and none
    otherwise; the hard run is the first day of the week, a run day, on
    which the lookahead condition holds. *)
Theorem one_hard_run_on_monday (today : Z) (data : FormData) (td : Z) :
  1 <= td <= 7 ->
  parsedTrainingDays data = of_int td ->
  forall wk, wk ∈ weeks (generatePlan today data) ->
    hardRunDays wk = (if 4 <=? td then 1%nat else 0%nat)
    /\ days wk !! 0%nat = Some (generateRunDesc (4 <=? td) (phase wk))
    /\ lookahead (of_int td) = true.
Proof.
  intros Htd Hparsed wk Hwk.
  unfold generatePlan in Hwk. cbn [weeks] in Hwk.
  apply list_elem_of_fmap in Hwk as [w [-> _]].
  unfold hardRunDays. cbn [days phase]. rewrite Hparsed.
  set (ph := phaseOf _ _).
  rewrite (weekDays_first ph td _ Htd).
  destruct (other_texts_not_hard ph) as (He & _).
  split; [|split; [reflexivity|]].
  - rewrite filter_cons, assignDays_no_more_hard.
    destruct (4 <=? td).
    + now rewrite (decide_True (P := _ = _)) by reflexivity.
    + change (generateRunDesc false ph) with easyRunText.
      now rewrite (decide_False (P := _ = _)) by exact He.
  - assert (Hcases : td = 1 \/ td = 2 \/ td = 3 \/ td = 4 \/ td = 5
                     \/ td = 6 \/ td = 7) by lia.
    destruct Hcases as [->|[->|[->|[->|[->|[->| ->]]]]]];
      vm_compute; reflexivity.
Qed.

(** ** Coercion of the numeric form values *)

(** The plan depends on the three numeric form values through the numbers
    parsed from them only. *)
Lemma generatePlan_numeric today data data' :
  raceDate data = raceDate data' ->
  raceDistance data = raceDistance data' ->
  experience data = experience data' ->
  initialMiles data = initialMiles data' ->
  parsedTrainingDays data = parsedTrainingDays data' ->
  parsedStrengthFreq data = parsedStrengthFreq data' ->
  generatePlan today data = generatePlan today data'.
Proof.
  intros Hr Hd He Hm Ht Hs.
  unfold generatePlan, weeklyMiles, targetPeak, peakMultiplier, inc.
  now rewrite Hr, Hd, He, Hm, Ht, Hs.
Qed.

Lemma generatePlan_length today data :
  List.length (weeks (generatePlan today data))
  = Z.to_nat (weeksToRace (generatePlan today data)).
Proof.
  unfold generatePlan. cbn [weeks weeksToRace].
  rewrite length_map, length_seq. reflexivity.
Qed.

Lemma assignDays_length phase td sf n d rc sc hu :
  List.length (assignDays phase td sf n d rc sc hu) = n.
Proof.
  revert d rc sc hu.
  induction n as [|n IH]; intros d rc sc hu; cbn [assignDays]; [reflexivity|].
  repeat case_match; cbn [List.length]; now rewrite IH.
Qed.

Lemma generatePlan_seven_days today data wk :
  wk ∈ weeks (generatePlan today data) -> List.length (days wk) = 7%nat.
Proof.
  unfold generatePlan. cbn [weeks].
  intros [w [-> _]]%list_elem_of_fmap. cbn [days].
  apply assignDays_length.
Qed.

(** C8: a numeric form value that is missing or in which the parser finds no
    number is replaced by its default, 0 for the mileage, 3 for the training
    days and 1 for the strength frequency, and the generator returns the plan
    it returns for the default: one week for each of the at least one weeks
    to the race, of seven days each. *)
Theorem malformed_inputs_default (today : Z) (data : FormData) :
  (malformed parseFloat (runningMileage data) ->
     initialMiles data = 0%float
     /\ generatePlan today data
        = generatePlan today (withRunningMileage (Some (lit "0")) data))
  /\ (malformed parseInt10 (trainingDays data) ->
     parsedTrainingDays data = 3%float
     /\ generatePlan today data
        = generatePlan today (withTrainingDays (Some (lit "3")) data))
  /\ (malformed parseInt10 (strengthFrequency data) ->
     parsedStrengthFreq data = 1%float
     /\ generatePlan today data
        = generatePlan today (withStrengthFrequency (Some (lit "1")) data))
  /\ 1 <= weeksToRace (generatePlan today data)
  /\ List.length (weeks (generatePlan today data))
     = Z.to_nat (weeksToRace (generatePlan today data))
  /\ (forall wk, wk ∈ weeks (generatePlan today data) ->
        List.length (days wk) = 7%nat).
Proof.
  unfold malformed, isNaN.
  assert (Hm : is_nan (parseFloat (to_string_opt (runningMileage data))) = true
               -> initialMiles data = 0%float).
  { intros H. unfold initialMiles, or_default, truthy. now rewrite H. }
  assert (Ht : is_nan (parseInt10 (to_string_opt (trainingDays data))) = true
               -> parsedTrainingDays data = 3%float).
  { intros H. unfold parsedTrainingDays, or_default, truthy. now rewrite H. }
  assert (Hs : is_nan (parseInt10 (to_string_opt (strengthFrequency data))) = true
               -> parsedStrengthFreq data = 1%float).
  { intros H. unfold parsedStrengthFreq, or_default, truthy. now rewrite H. }
  split; [|split; [|split; [|split; [|split]]]].
  - intros H. split; [exact (Hm H)|].
    apply generatePlan_numeric; try reflexivity.
    rewrite (Hm H). vm_compute. reflexivity.
  - intros H. split; [exact (Ht H)|].
    apply generatePlan_numeric; try reflexivity.
    rewrite (Ht H). vm_compute. reflexivity.
  - intros H. split; [exact (Hs H)|].
    apply generatePlan_numeric; try reflexivity.
    rewrite (Hs H). vm_compute. reflexivity.
  - apply weeksBetween_ge_1.
  - apply generatePlan_length.
  - apply generatePlan_seven_days.
Qed.

(** C10: the value 0 for the training days or for the strength frequency
    gives the plan of the default, 3 training days or 1 strength day: the
    parsed zero is falsy, as the NaN of a malformed value is. *)
Theorem zero_is_default (today : Z) (data : FormData) :
  (trainingDays data = Some (lit "0") ->
     parsedTrainingDays data = 3%float
     /\ generatePlan today data
        = generatePlan today (withTrainingDays (Some (lit "3")) data))
  /\ (strengthFrequency data = Some (lit "0") ->
     parsedStrengthFreq data = 1%float
     /\ generatePlan today data
        = generatePlan today (withStrengthFrequency (Some (lit "1")) data)).
Proof.
  split; intros H.
  - assert (Ht : parsedTrainingDays data = 3%float).
    { unfold parsedTrainingDays. rewrite H. vm_compute. reflexivity. }
    split; [exact Ht|].
    apply generatePlan_numeric; try reflexivity.
    rewrite Ht. vm_compute. reflexivity.
  - assert (Hs : parsedStrengthFreq data = 1%float).
    { unfold parsedStrengthFreq. rewrite H. vm_compute. reflexivity. }
    split; [exact Hs|].
    apply generatePlan_numeric; try reflexivity.
    rewrite Hs. vm_compute. reflexivity.
Qed.

(** ** The summary of a calendar event *)

Lemma indexOf_unit_first (c : N) (pre post : jsstring) :
  c ∉ pre -> indexOf [c] (pre ++ c :: post) = Some (List.length pre).
Proof.
  induction pre as [|x pre IH]; intros Hpre; cbn.
  - now rewrite N.eqb_refl.
  - apply not_elem_of_cons in Hpre as [Hx Hpre].
    destruct (N.eqb_spec c x) as [->|_]; [done|].
    cbn. now rewrite (IH Hpre).
Qed.

Lemma indexOf_unit_none (c : N) (s : jsstring) :
  c ∉ s -> indexOf [c] s = None.
Proof.
  induction s as [|x s IH]; intros Hs; cbn; [done|].
  apply not_elem_of_cons in Hs as [Hx Hs].
  destruct (N.eqb_spec c x) as [->|_]; [done|].
  cbn. now rewrite (IH Hs).
Qed.

(** C9, as the code has it: the summary is the text before the first en dash
    (U+2013) with the white space around it removed; it is the whole
    description when that text is empty and when the description holds no
    en dash. *)
Theorem summary_trimmed_prefix (desc : jsstring) :
  (forall pre post : jsstring,
      enDash ∉ pre -> desc = pre ++ enDash :: post ->
      summaryOf desc = match trim pre with [] => desc | t => t end)
  /\ (enDash ∉ desc -> summaryOf desc = desc).
Proof.
  split.
  - intros pre post Hpre ->. unfold summaryOf.
    change (lit "–") with [enDash].
    rewrite (indexOf_unit_first _ _ _ Hpre).
    unfold substring0. rewrite take_app_length. now destruct (trim pre).
  - intros Hdesc. unfold summaryOf. change (lit "–") with [enDash].
    rewrite (indexOf_unit_none _ _ Hdesc). now destruct desc.
Qed.

Lemma summary_trimmed_prefix_witness :
  (enDash ∉ lit "Easy run ")
  /\ easyRunText
     = lit "Easy run " ++ enDash :: drop 10 easyRunText
  /\ summaryOf easyRunText = lit "Easy run"
  /\ (enDash ∉ restText)
  /\ summaryOf restText = restText.
Proof.
  assert (H1 : enDash ∉ lit "Easy run ").
  { apply (bool_decide_unpack _). vm_compute. exact I. }
  assert (H2 : enDash ∉ restText).
  { apply (bool_decide_unpack _). vm_compute. exact I. }
  split; [exact H1|]. split; [vm_compute; reflexivity|].
  split; [|split; [exact H2|]].
  - rewrite (proj1 (summary_trimmed_prefix easyRunText)
               (lit "Easy run ") (drop 10 easyRunText) H1);
      vm_compute; reflexivity.
  - exact (proj2 (summary_trimmed_prefix restText) H2).
Defined.

(** C9 as the specification words it fails on every generated run day: the
    text before the dash of the easy-run description ends with a space that
    the summary does not have; and the description holds no em dash
    (U+2014), yet the summary is not the whole description. *)
Lemma summary_prefix_counterexample :
  indexOf [enDash] easyRunText = Some 9%nat
  /\ substring0 9 easyRunText = lit "Easy run "
  /\ summaryOf easyRunText = lit "Easy run"
  /\ summaryOf easyRunText <> substring0 9 easyRunText
  /\ indexOf [emDash] easyRunText = None
  /\ summaryOf easyRunText <> easyRunText.
Proof. repeat split; try reflexivity; vm_compute; discriminate. Qed.

(** ** The statistics of the rescheduler *)

Lemma addDays_succ start i : addDays (addDays start i) 1 = addDays start (i + 1).
Proof. unfold addDays. lia. Qed.

Lemma addDays_0 start : addDays start 0 = start.
Proof. unfold addDays. lia. Qed.

Section ScanFacts.
Variable logMap : gmap (list N) LogEntry.
Variables now endDate start : Z.

(** No day of the window has an entry: nothing is counted as completed. *)
Lemma scanDays_no_entry n i st :
  (forall j, i <= j -> addDays start j <= now -> addDays start j < endDate ->
             logMap !! toIso (addDays start j) = None) ->
  completedSessions (scanDays logMap now endDate n (addDays start i) i st)
  = completedSessions st.
Proof.
  revert i st. induction n as [|n IH]; intros i st Hwin;
    cbn [scanDays]; [reflexivity|].
  destruct (Z.leb_spec (addDays start i) now) as [Hnow|]; [|reflexivity].
  destruct (Z.ltb_spec (addDays start i) endDate) as [Hend|]; [|reflexivity].
  cbn [andb]. rewrite (Hwin i) by lia. rewrite addDays_succ, IH.
  - reflexivity.
  - intros j Hj. apply Hwin. lia.
Qed.

(** The loop runs as long as the day is in the window: more iterations
    than the window has days change nothing. *)
Lemma scanDays_enough n k i st :
  endDate <= addDays start (i + Z.of_nat n) ->
  scanDays logMap now endDate (n + k) (addDays start i) i st
  = scanDays logMap now endDate n (addDays start i) i st.
Proof.
  revert i st. induction n as [|n IH]; intros i st Hend.
  - destruct k as [|k]; cbn [scanDays Nat.add]; [reflexivity|].
    rewrite Z.add_0_r in Hend.
    destruct (Z.ltb_spec (addDays start i) endDate); [lia|].
    now rewrite andb_false_r.
  - cbn [scanDays Nat.add]. case_match; [|reflexivity].
    rewrite addDays_succ. apply IH.
    replace (i + 1 + Z.of_nat n) with (i + Z.of_nat (S n)) by lia.
    exact Hend.
Qed.
End ScanFacts.

Lemma logMapOf_nil : logMapOf [] = ∅.
Proof. reflexivity. Qed.

(** The iteration bound of [statsOf] exhausts the window. *)
Lemma statsOf_enough today now logs weekCount k :
  scanDays (logMapOf logs) now
    (addDays (startDateOf today) (Z.of_nat weekCount * 7))
    (7 * weekCount + k) (startDateOf today) 0 stats0
  = statsOf today now logs weekCount.
Proof.
  unfold statsOf. cbn zeta.
  rewrite <- (addDays_0 (startDateOf today)) at 2 4.
  apply scanDays_enough. unfold addDays. lia.
Qed.

Lemma adaptPlan_unchanged today now logs plan :
  totalDaysPassed (statsOf today now logs (List.length (weeks plan))) = 0
  \/ completedSessions (statsOf today now logs (List.length (weeks plan))) = 0 ->
  adaptPlan today now logs plan = plan.
Proof.
  intros [H|H]; unfold adaptPlan; cbn zeta; rewrite H.
  - reflexivity.
  - now rewrite orb_true_r.
Qed.

(** C6: the plan is left as it is when the log store is empty, when no day
    of the window from the start date to now (and before the end of the
    plan) has a log entry, and when no day has elapsed because the start
    date lies after now. *)
Theorem no_log_no_change (today now : Z) (logs : list LogEntry) (plan : Plan) :
  logs = []
  \/ (forall i, 0 <= i ->
        inWindow today now (List.length (weeks plan))
          (addDays (startDateOf today) i) ->
        logMapOf logs !! toIso (addDays (startDateOf today) i) = None)
  \/ now < startDateOf today ->
  adaptPlan today now logs plan = plan.
Proof.
  intros H. apply adaptPlan_unchanged.
  assert (Hscan : (forall i, 0 <= i ->
        inWindow today now (List.length (weeks plan))
          (addDays (startDateOf today) i) ->
        logMapOf logs !! toIso (addDays (startDateOf today) i) = None) ->
      completedSessions (statsOf today now logs (List.length (weeks plan))) = 0).
  { intros Hwin. unfold statsOf. cbn zeta.
    rewrite <- (addDays_0 (startDateOf today)) at 2.
    rewrite scanDays_no_entry; [reflexivity|].
    intros j Hj H1 H2. apply Hwin; [exact Hj|]. now split. }
  destruct H as [->|[Hwin|Hlate]].
  - right. apply Hscan. intros i _ _. rewrite logMapOf_nil. apply lookup_empty.
  - right. now apply Hscan.
  - left. unfold statsOf. cbn zeta.
    destruct (7 * List.length (weeks plan))%nat; cbn [scanDays]; [reflexivity|].
    destruct (Z.leb_spec (startDateOf today) now); [lia|reflexivity].
Qed.

(** ** The mode of the rescheduler *)

Lemma adaptPlan_eq today now logs plan :
  adaptPlan today now logs plan
  = let st := statsOf today now logs (List.length (weeks plan)) in
    if nothingToAdapt st then plan
    else match selectMode st with
         | none => plan
         | mode => adapted mode (lastLoggedWeekIndex st) plan
         end.
Proof. unfold adaptPlan, nothingToAdapt, adapted. cbn zeta. now repeat case_match. Qed.

(** C4: with at least one day passed and one session completed, the mode is
    lighten exactly when the completion ratio is below 0.5 or the average
    RPE is at least 6; failing that it is intensify exactly when the ratio
    is at least 0.8 and the average RPE at most 4; failing both the plan is
    not changed. *)
Theorem mode_selection (today now : Z) (logs : list LogEntry) (plan : Plan) :
  let st := statsOf today now logs (List.length (weeks plan)) in
  0 < totalDaysPassed st ->
  0 < completedSessions st ->
  let lightenCond :=
    (completionRatio st <? 0.5)%float = true
    \/ (6 <=? avgRPE st)%float = true in
  let intensifyCond :=
    (0.8 <=? completionRatio st)%float = true
    /\ (avgRPE st <=? 4)%float = true in
  (selectMode st = lighten <-> lightenCond)
  /\ (selectMode st = intensify <-> ~ lightenCond /\ intensifyCond)
  /\ (selectMode st = none <-> ~ lightenCond /\ ~ intensifyCond)
  /\ (lightenCond ->
      adaptPlan today now logs plan
      = adapted lighten (lastLoggedWeekIndex st) plan)
  /\ (~ lightenCond -> intensifyCond ->
      adaptPlan today now logs plan
      = adapted intensify (lastLoggedWeekIndex st) plan)
  /\ (~ lightenCond -> ~ intensifyCond ->
      adaptPlan today now logs plan = plan).
Proof.
  intros st Hdays Hdone lightenCond intensifyCond.
  assert (Hguard : nothingToAdapt st = false).
  { unfold nothingToAdapt.
    destruct (Z.eqb_spec (totalDaysPassed st) 0); [lia|].
    destruct (Z.eqb_spec (completedSessions st) 0); [lia|done]. }
  assert (Hplan := adaptPlan_eq today now logs plan).
  cbn zeta in Hplan. fold st in Hplan. rewrite Hguard in Hplan.
  subst lightenCond intensifyCond. revert Hplan. unfold selectMode.
  destruct (completionRatio st <? 0.5)%float;
    destruct (6 <=? avgRPE st)%float;
    destruct (0.8 <=? completionRatio st)%float;
    destruct (avgRPE st <=? 4)%float; cbn; intros ->;
    repeat split; intros; try done; try tauto; try (exfalso; tauto);
    intuition discriminate.
Qed.

(** ** The adaptation of the weeks *)

Lemma modifyDays_modified mode ds : modifyDays mode ds true = ds.
Proof.
  induction ds as [|desc ds IH]; cbn [modifyDays]; [reflexivity|].
  destruct mode; rewrite ?andb_false_r, IH; reflexivity.
Qed.

Lemma modifyDays_length mode ds modified :
  List.length (modifyDays mode ds modified) = List.length ds.
Proof.
  revert modified.
  induction ds as [|desc ds IH]; intros modified; cbn [modifyDays];
    [reflexivity|].
  destruct mode; repeat case_match; cbn [List.length]; now rewrite IH.
Qed.

(** The first day that matches the pattern of the mode is replaced, and no
    other day. *)
Lemma modifyDays_first mode ds :
  mode <> none ->
  modifyDays mode ds false
  = match list_find (matchesMode mode) ds with
    | Some (i, _) => <[i := replacementOf mode]> ds
    | None => ds
    end.
Proof.
  intros Hmode. induction ds as [|desc ds IH]; [reflexivity|].
  cbn [list_find]. unfold matchesMode at 1.
  destruct (decide (test_ci (patternOf mode) desc = true)) as [Hd|Hd].
  - destruct mode; [congruence| |]; cbn [modifyDays patternOf] in *;
      rewrite Hd; cbn [andb negb replacementOf];
      now rewrite modifyDays_modified.
  - apply not_true_is_false in Hd.
    assert (Hstep : modifyDays mode (desc :: ds) false
                    = desc :: modifyDays mode ds false).
    { destruct mode; [reflexivity| |]; cbn [modifyDays patternOf] in *;
        now rewrite Hd. }
    rewrite Hstep, IH.
    destruct (list_find (matchesMode mode) ds) as [[i x]|]; reflexivity.
Qed.

Lemma adaptWeeks_length mode last ws :
  List.length (adaptWeeks mode last ws) = List.length ws.
Proof. apply length_imap. Qed.

Lemma adaptWeeks_lookup mode last ws (w : nat) :
  adaptWeeks mode last ws !! w
  = (fun wk => if last <? Z.of_nat w then adaptWeek mode wk else wk)
      <$> ws !! w.
Proof. unfold adaptWeeks. now rewrite list_lookup_imap. Qed.

(** C5: when the rescheduler adapts a plan, a week at an index up to
    [lastLoggedWeekIndex] is left as it is; a week at a later index keeps
    its number and phase, has its mileage, when that is a number, multiplied
    by 0.9 (lighten) or 1.1 (intensify) and printed with one decimal, and
    has the first of its days that matches the pattern of the mode replaced
    by the text of the mode, every other day being kept, so that at most one
    day changes and none when no day matches. *)
Theorem adaptation_of_weeks
    (today now : Z) (logs : list LogEntry) (plan : Plan) (mode : Mode) :
  let st := statsOf today now logs (List.length (weeks plan)) in
  nothingToAdapt st = false ->
  selectMode st = mode ->
  mode <> none ->
  let plan' := adaptPlan today now logs plan in
  List.length (weeks plan') = List.length (weeks plan)
  /\ forall (w : nat) (wk : WeekEntry),
      weeks plan !! w = Some wk ->
      exists wk', weeks plan' !! w = Some wk'
        /\ (Z.of_nat w <= lastLoggedWeekIndex st -> wk' = wk)
        /\ (lastLoggedWeekIndex st < Z.of_nat w ->
            week wk' = week wk
            /\ phase wk' = phase wk
            /\ (isNaN (parseFloat (mileage wk)) = false ->
                mileage wk'
                = toFixed1 (parseFloat (mileage wk)
                            * match mode with
                              | lighten => 0.9
                              | _ => 1.1
                              end)%float)
            /\ List.length (days wk') = List.length (days wk)
            /\ match list_find (matchesMode mode) (days wk) with
               | Some (i, _) =>
                 days wk' = <[i := replacementOf mode]> (days wk)
               | None => days wk' = days wk
               end
            /\ (forall j k : nat,
                   days wk' !! j <> days wk !! j ->
                   days wk' !! k <> days wk !! k -> j = k)).
Proof.
  intros st Hguard Hsel Hmode plan'.
  assert (Hplan : plan' = adapted mode (lastLoggedWeekIndex st) plan).
  { subst plan'. rewrite adaptPlan_eq. cbn zeta. fold st.
    rewrite Hguard, Hsel. now destruct mode. }
  rewrite Hplan. cbn [adapted weeks]. split; [apply adaptWeeks_length|].
  intros w wk Hwk. rewrite adaptWeeks_lookup, Hwk. cbn [fmap option_fmap option_map].
  eexists; split; [reflexivity|]. split.
  - intros Hle.
    destruct (Z.ltb_spec (lastLoggedWeekIndex st) (Z.of_nat w));
      [lia|reflexivity].
  - intros Hlt.
    destruct (Z.ltb_spec (lastLoggedWeekIndex st) (Z.of_nat w)); [|lia].
    cbn [adaptWeek week phase mileage days].
    split; [reflexivity|]. split; [reflexivity|]. split; [|split; [|split]].
    + intros Hnum. unfold scaleMileage. rewrite Hnum. cbn [negb].
      now destruct mode.
    + apply modifyDays_length.
    + rewrite (modifyDays_first _ _ Hmode).
      now destruct (list_find _ _) as [[i x]|].
    + rewrite (modifyDays_first _ _ Hmode).
      destruct (list_find _ _) as [[i x]|]; [|congruence].
      intros j k Hj Hk.
      destruct (decide (i = j)) as [<-|Hij];
        [|now rewrite list_lookup_insert_ne in Hj].
      destruct (decide (i = k)) as [<-|Hik];
        [done|now rewrite list_lookup_insert_ne in Hk].
Qed.

(** ** Running the rescheduler again *)

(** The statistics depend on the plan through its number of weeks only,
    which the adaptation keeps. *)
Lemma adaptPlan_length today now logs plan :
  List.length (weeks (adaptPlan today now logs plan)) = List.length (weeks plan).
Proof.
  rewrite adaptPlan_eq. cbn zeta.
  destruct (nothingToAdapt _); [reflexivity|].
  destruct (selectMode _); [reflexivity| |]; apply adaptWeeks_length.
Qed.

(** C1, as the code has it: a second run on the adapted copy computes the
    same statistics, and so takes the same decisions, as the first; it
    leaves the copy as it is when the first run adapted nothing, and
    otherwise applies the adaptation of the first run a second time. *)
Theorem rerun_repeats_adaptation
    (today now : Z) (logs : list LogEntry) (plan : Plan) :
  let st := statsOf today now logs (List.length (weeks plan)) in
  let once := adaptPlan today now logs plan in
  let twice := adaptPlan today now logs once in
  statsOf today now logs (List.length (weeks once)) = st
  /\ (nothingToAdapt st = true \/ selectMode st = none ->
      once = plan /\ twice = once)
  /\ (nothingToAdapt st = false -> selectMode st <> none ->
      once = adapted (selectMode st) (lastLoggedWeekIndex st) plan
      /\ twice = adapted (selectMode st) (lastLoggedWeekIndex st) once).
Proof.
  intros st once twice.
  assert (Hst : statsOf today now logs (List.length (weeks once)) = st).
  { subst once st. now rewrite adaptPlan_length. }
  assert (Htwice : twice
    = if nothingToAdapt st then once
      else match selectMode st with
           | none => once
           | mode => adapted mode (lastLoggedWeekIndex st) once
           end).
  { subst twice. rewrite adaptPlan_eq. cbn zeta. now rewrite Hst. }
  assert (Honce : once
    = if nothingToAdapt st then plan
      else match selectMode st with
           | none => plan
           | mode => adapted mode (lastLoggedWeekIndex st) plan
           end).
  { subst once. now rewrite adaptPlan_eq. }
  split; [exact Hst|]. split.
  - intros [H|H]; rewrite Htwice, Honce, H; [split; reflexivity|].
    now destruct (nothingToAdapt st).
  - intros Hg Hm. rewrite Htwice, Honce at 1. rewrite Hg.
    now destruct (selectMode st).
Qed.

(** C1 as the specification words it fails: on the plan of the sample
    request, on the Monday on which a workout of RPE 7 is logged, the first
    run lightens the weeks after the first and the second run lightens them
    again. *)
Lemma rerun_counterexample :
  let once := adaptPlan Sample.monday Sample.monday Sample.hardLog
                (generatePlan Sample.monday Sample.request) in
  let twice := adaptPlan Sample.monday Sample.monday Sample.hardLog once in
  map mileage (weeks once)
  = map lit ["10.0"; "9.9"; "10.9"; "12.0"; "13.1"; "14.5"; "15.9"; "16.2";
             "16.2"; "16.2"]%string
  /\ map mileage (weeks twice)
     = map lit ["10.0"; "8.9"; "9.8"; "10.8"; "11.8"; "13.1"; "14.3"; "14.6";
                "14.6"; "14.6"]%string
  /\ twice <> once.
Proof.
  cbn zeta. split; [vm_compute; reflexivity|]. split; [vm_compute; reflexivity|].
  intros H. apply (f_equal (fun p => map mileage (weeks p))) in H.
  vm_compute in H. discriminate H.
Qed.

(** ** Remarks on the printed mileage *)

(** The product is rounded as a binary64 value before it is printed: the
    product of 3.5 and 0.9 lies just below 3.15 and prints as 3.1. A mileage
    that is not a number is kept. *)
Remark scaleMileage_binary_rounding :
  scaleMileage lighten (lit "3.5") = lit "3.1"
  /\ scaleMileage intensify (lit "10.0") = lit "11.0"
  /\ scaleMileage lighten (lit "n/a") = lit "n/a".
Proof. repeat split; vm_compute; reflexivity. Qed.

(** The bound of C2 is on the values before they are printed: a start
    mileage of 10.03 for 10k has a peak just above 18.054, which the last
    weeks reach and which prints as 18.1. *)
Remark printed_mileage_rounds :
  let data := withRunningMileage (Some (lit "10.03")) Sample.request in
  (targetPeak data <? 18.06)%float = true
  /\ last (weeklyMiles data 10) = Some (targetPeak data)
  /\ last (map mileage (weeks (generatePlan Sample.monday data)))
     = Some (lit "18.1").
Proof. repeat split; vm_compute; reflexivity. Qed.

(** ** Instances on the sample inputs *)

Lemma phase_counts_sum_witness :
  1 <= 10
  /\ weeksBetween Sample.monday (raceDate Sample.request) = 10
  /\ (let p := phases (generatePlan Sample.monday Sample.request) in
      baseWeeks p + buildWeeks p + specificWeeks p + taperWeeks p = 10
      /\ buildWeeks p = 10 - baseWeeks p - specificWeeks p - taperWeeks p
      /\ (buildWeeks p <= 0 <-> 10 <= 4)).
Proof.
  split; [lia|]. split; [reflexivity|].
  apply (phase_counts_sum 10 Sample.monday Sample.request); [lia|reflexivity].
Defined.

Lemma malformed_inputs_default_witness :
  malformed parseFloat (runningMileage Sample.noNumbers)
  /\ malformed parseInt10 (trainingDays Sample.noNumbers)
  /\ malformed parseInt10 (strengthFrequency Sample.noNumbers)
  /\ initialMiles Sample.noNumbers = 0%float
  /\ parsedTrainingDays Sample.noNumbers = 3%float
  /\ parsedStrengthFreq Sample.noNumbers = 1%float
  /\ generatePlan Sample.monday Sample.noNumbers
     = generatePlan Sample.monday
         (withRunningMileage (Some (lit "0")) Sample.noNumbers)
  /\ List.length (weeks (generatePlan Sample.monday Sample.noNumbers)) = 3%nat.
Proof.
  assert (H1 : malformed parseFloat (runningMileage Sample.noNumbers))
    by (vm_compute; reflexivity).
  assert (H2 : malformed parseInt10 (trainingDays Sample.noNumbers))
    by (vm_compute; reflexivity).
  assert (H3 : malformed parseInt10 (strengthFrequency Sample.noNumbers))
    by (vm_compute; reflexivity).
  destruct (malformed_inputs_default Sample.monday Sample.noNumbers)
    as (Hm & Ht & Hs & _ & Hlen & _).
  split; [exact H1|]. split; [exact H2|]. split; [exact H3|].
  split; [exact (proj1 (Hm H1))|]. split; [exact (proj1 (Ht H2))|].
  split; [exact (proj1 (Hs H3))|]. split; [exact (proj2 (Hm H1))|].
  rewrite Hlen. vm_compute. reflexivity.
Defined.

Lemma zero_is_default_witness :
  trainingDays Sample.zeros = Some (lit "0")
  /\ strengthFrequency Sample.zeros = Some (lit "0")
  /\ parsedTrainingDays Sample.zeros = 3%float
  /\ parsedStrengthFreq Sample.zeros = 1%float
  /\ generatePlan Sample.monday Sample.zeros
     = generatePlan Sample.monday
         (withTrainingDays (Some (lit "3")) Sample.zeros)
  /\ generatePlan Sample.monday Sample.zeros
     = generatePlan Sample.monday
         (withStrengthFrequency (Some (lit "1")) Sample.zeros).
Proof.
  destruct (zero_is_default Sample.monday Sample.zeros) as [Ht Hs].
  split; [reflexivity|]. split; [reflexivity|].
  split; [exact (proj1 (Ht eq_refl))|]. split; [exact (proj1 (Hs eq_refl))|].
  split; [exact (proj2 (Ht eq_refl))|exact (proj2 (Hs eq_refl))].
Defined.

Lemma no_log_no_change_witness :
  adaptPlan Sample.monday Sample.monday [] Sample.basePlan = Sample.basePlan
  /\ (forall i, 0 <= i ->
        inWindow (Sample.monday + msPerWeek) (Sample.monday + msPerWeek)
          (List.length (weeks Sample.basePlan))
          (addDays (startDateOf (Sample.monday + msPerWeek)) i) ->
        logMapOf Sample.hardLog
          !! toIso (addDays (startDateOf (Sample.monday + msPerWeek)) i) = None)
  /\ adaptPlan (Sample.monday + msPerWeek) (Sample.monday + msPerWeek)
       Sample.hardLog Sample.basePlan = Sample.basePlan
  /\ Sample.monday + msPerDay < startDateOf (Sample.monday + msPerDay)
  /\ adaptPlan (Sample.monday + msPerDay) (Sample.monday + msPerDay)
       Sample.hardLog Sample.basePlan = Sample.basePlan.
Proof.
  assert (Hwin : forall i, 0 <= i ->
        inWindow (Sample.monday + msPerWeek) (Sample.monday + msPerWeek)
          (List.length (weeks Sample.basePlan))
          (addDays (startDateOf (Sample.monday + msPerWeek)) i) ->
        logMapOf Sample.hardLog
          !! toIso (addDays (startDateOf (Sample.monday + msPerWeek)) i) = None).
  { intros i Hi [Hnow _].
    change (startDateOf (Sample.monday + msPerWeek))
      with (Sample.monday + msPerWeek) in *.
    unfold addDays, msPerDay in *.
    assert (i = 0) as -> by lia. vm_compute. reflexivity. }
  assert (Hlate : Sample.monday + msPerDay
                  < startDateOf (Sample.monday + msPerDay))
    by (vm_compute; reflexivity).
  split; [apply no_log_no_change; left; reflexivity|].
  split; [exact Hwin|].
  split; [apply no_log_no_change; right; left; exact Hwin|].
  split; [exact Hlate|].
  apply no_log_no_change; right; right; exact Hlate.
Defined.

Lemma mode_selection_witness :
  let st := statsOf Sample.monday Sample.monday Sample.hardLog
              (List.length (weeks Sample.basePlan)) in
  0 < totalDaysPassed st
  /\ 0 < completedSessions st
  /\ (6 <=? avgRPE st)%float = true
  /\ selectMode st = lighten
  /\ adaptPlan Sample.monday Sample.monday Sample.hardLog Sample.basePlan
     = adapted lighten (lastLoggedWeekIndex st) Sample.basePlan.
Proof.
  intros st.
  assert (H1 : 0 < totalDaysPassed st) by (vm_compute; reflexivity).
  assert (H2 : 0 < completedSessions st) by (vm_compute; reflexivity).
  assert (H3 : (6 <=? avgRPE st)%float = true) by (vm_compute; reflexivity).
  destruct (mode_selection Sample.monday Sample.monday Sample.hardLog
              Sample.basePlan H1 H2) as (Hl & _ & _ & Hplan & _).
  split; [exact H1|]. split; [exact H2|]. split; [exact H3|].
  split; [apply Hl; right; exact H3|apply Hplan; right; exact H3].
Defined.

Lemma adaptation_of_weeks_witness :
  let st := statsOf Sample.monday Sample.monday Sample.hardLog
              (List.length (weeks Sample.basePlan)) in
  let plan' := adaptPlan Sample.monday Sample.monday Sample.hardLog
                 Sample.basePlan in
  nothingToAdapt st = false
  /\ selectMode st = lighten
  /\ lighten <> none
  /\ weeks Sample.basePlan !! 1%nat = Some Sample.secondWeek
  /\ lastLoggedWeekIndex st < Z.of_nat 1
  /\ List.length (weeks plan') = List.length (weeks Sample.basePlan)
  /\ exists wk', weeks plan' !! 1%nat = Some wk'
       /\ mileage wk' = lit "9.9"
       /\ days wk' = <[0%nat := replacementOf lighten]> (days Sample.secondWeek).
Proof.
  intros st plan'.
  assert (H1 : nothingToAdapt st = false) by (vm_compute; reflexivity).
  assert (H2 : selectMode st = lighten) by (vm_compute; reflexivity).
  assert (H3 : lighten <> none) by discriminate.
  assert (H4 : weeks Sample.basePlan !! 1%nat = Some Sample.secondWeek)
    by reflexivity.
  assert (H5 : lastLoggedWeekIndex st < Z.of_nat 1) by (vm_compute; reflexivity).
  destruct (adaptation_of_weeks Sample.monday Sample.monday Sample.hardLog
              Sample.basePlan lighten H1 H2 H3) as [Hlen Hweeks].
  destruct (Hweeks 1%nat Sample.secondWeek H4)
    as (wk' & Hwk' & _ & Hafter).
  destruct (Hafter H5) as (_ & _ & Hmil & _ & Hdays & _).
  split; [exact H1|]. split; [exact H2|]. split; [exact H3|].
  split; [exact H4|]. split; [exact H5|]. split; [exact Hlen|].
  exists wk'. split; [exact Hwk'|]. split.
  - rewrite Hmil; vm_compute; reflexivity.
  - assert (Hfind : list_find (matchesMode lighten) (days Sample.secondWeek)
                    = Some (0%nat, generateRunDesc true Base))
      by (vm_compute; reflexivity).
    rewrite Hfind in Hdays. exact Hdays.
Defined.

Lemma rerun_repeats_adaptation_witness :
  let st := statsOf Sample.monday Sample.monday Sample.hardLog
              (List.length (weeks Sample.basePlan)) in
  let once := adaptPlan Sample.monday Sample.monday Sample.hardLog
                Sample.basePlan in
  let twice := adaptPlan Sample.monday Sample.monday Sample.hardLog once in
  nothingToAdapt st = false
  /\ selectMode st <> none
  /\ once = adapted (selectMode st) (lastLoggedWeekIndex st) Sample.basePlan
  /\ twice = adapted (selectMode st) (lastLoggedWeekIndex st) once
  /\ adaptPlan Sample.monday Sample.monday []
       (adaptPlan Sample.monday Sample.monday [] Sample.basePlan)
     = adaptPlan Sample.monday Sample.monday [] Sample.basePlan.
Proof.
  intros st once twice.
  assert (H1 : nothingToAdapt st = false) by (vm_compute; reflexivity).
  assert (H2 : selectMode st <> none) by (vm_compute; discriminate).
  destruct (rerun_repeats_adaptation Sample.monday Sample.monday
              Sample.hardLog Sample.basePlan) as (_ & _ & Hadapt).
  destruct (Hadapt H1 H2) as [Honce Htwice].
  destruct (rerun_repeats_adaptation Sample.monday Sample.monday
              [] Sample.basePlan) as (_ & Hsame & _).
  split; [exact H1|]. split; [exact H2|]. split; [exact Honce|].
  split; [exact Htwice|].
  apply Hsame. left. vm_compute. reflexivity.
Defined.

Lemma weekly_mileage_monotone_bounded_witness :
  let miles := weeklyMiles Sample.request 10 in
  raceDistance Sample.request = Some (lit "10k")
  /\ peakMultiplier Sample.request = 1.8%float
  /\ targetPeak Sample.request = 18%float
  /\ miles !! 6%nat = Some 17.715610000000005%float
  /\ miles !! 7%nat = Some 18%float
  /\ (17.715610000000005 <=? 18)%float = true
  /\ (18 <=? targetPeak Sample.request)%float = true
  /\ (targetPeak Sample.request <? 1e21)%float = true
  /\ tenths 17.715610000000005 <= tenths 18
  /\ 0 <= tenths 18 <= tenths (targetPeak Sample.request).
Proof.
  intros miles.
  destruct (weekly_mileage_monotone_bounded Sample.monday Sample.request)
    as (_ & _ & Hmono & Hpeak & _ & _ & H10 & _ & _ & Hrec).
  assert (H6 : miles !! 6%nat = Some 17.715610000000005%float)
    by (vm_compute; reflexivity).
  assert (H7 : miles !! 7%nat = Some 18%float) by (vm_compute; reflexivity).
  assert (Hin : 18%float ∈ miles)
    by (apply (list_elem_of_lookup_2 _ 7%nat); exact H7).
  assert (Hbig : (targetPeak Sample.request <? 1e21)%float = true)
    by (vm_compute; reflexivity).
  destruct (Hrec Hbig) as (_ & Hsteps & Htenths).
  split; [reflexivity|]. split; [exact (H10 eq_refl)|].
  split; [vm_compute; reflexivity|].
  split; [exact H6|]. split; [exact H7|].
  split; [exact (Hmono 6%nat _ _ H6 H7)|].
  split; [exact (Hpeak _ Hin)|].
  split; [exact Hbig|].
  split; [exact (Hsteps 6%nat _ _ H6 H7)|exact (Htenths _ Hin)].
Defined.

Lemma one_hard_run_on_monday_witness :
  1 <= 4 <= 7
  /\ parsedTrainingDays Sample.request = of_int 4
  /\ Sample.firstWeek ∈ weeks (generatePlan Sample.monday Sample.request)
  /\ hardRunDays Sample.firstWeek = 1%nat
  /\ days Sample.firstWeek !! 0%nat
     = Some (generateRunDesc true (phase Sample.firstWeek))
  /\ lookahead (of_int 4) = true.
Proof.
  assert (H1 : 1 <= 4 <= 7) by lia.
  assert (H2 : parsedTrainingDays Sample.request = of_int 4)
    by (vm_compute; reflexivity).
  assert (H3 : Sample.firstWeek
               ∈ weeks (generatePlan Sample.monday Sample.request)).
  { apply (list_elem_of_lookup_2 _ 0%nat). vm_compute. reflexivity. }
  destruct (one_hard_run_on_monday Sample.monday Sample.request 4 H1 H2
              Sample.firstWeek H3) as (Hcount & Hfirst & Hlook).
  split; [exact H1|]. split; [exact H2|]. split; [exact H3|].
  split; [exact Hcount|]. split; [exact Hfirst|exact Hlook].
Defined.


(** * Further properties of the code *)

Import Window Calendar Countdown Tracker.

(** ** The start date *)

Lemma getDay_range t : 0 <= getDay t < 7.
Proof. unfold getDay. apply Z.mod_pos_bound. lia. Qed.

Lemma getDay_addDays t k : getDay (addDays t k) = (getDay t + k) mod 7.
Proof.
  unfold getDay, addDays, msPerDay.
  rewrite Z.div_add by lia.
  rewrite <- Z.add_assoc, (Z.add_comm k 4), Z.add_assoc.
  now rewrite Zplus_mod_idemp_l.
Qed.

Lemma startDateOf_monday today : getDay today = 1 -> startDateOf today = today.
Proof.
  intros Hday. unfold startDateOf. cbn zeta. rewrite Hday.
  unfold addDays. cbn [Z.eqb Pos.eqb]. lia.
Qed.

Lemma startDateOf_later today : getDay today <> 1 -> today < startDateOf today.
Proof.
  intros Hday. pose proof (getDay_range today) as Hr.
  unfold startDateOf. cbn zeta. unfold addDays, msPerDay.
  destruct (Z.eqb_spec (getDay today) 1); [contradiction|].
  destruct (Z.eqb_spec (getDay today) 0); lia.
Qed.

(** X1: the start date that [adaptPlan], [renderPlan] and [downloadCalendar]
    compute is a Monday, not before the clock reading and less than seven
    days after it; it is the reading itself exactly on a Monday. *)
Theorem startDate_next_monday (today : Z) :
  getDay (startDateOf today) = 1
  /\ today <= startDateOf today < addDays today 7
  /\ (startDateOf today = today <-> getDay today = 1).
Proof.
  pose proof (getDay_range today) as Hr.
  unfold startDateOf. cbn zeta. rewrite getDay_addDays.
  destruct (Z.eqb_spec (getDay today) 1) as [->|H1];
    [|destruct (Z.eqb_spec (getDay today) 0) as [->|H0]].
  - unfold addDays, msPerDay. repeat split; try reflexivity; lia.
  - unfold addDays, msPerDay. repeat split; try reflexivity; lia.
  - replace (getDay today + (8 - getDay today)) with 8 by lia.
    unfold addDays, msPerDay. repeat split; try reflexivity; lia.
Qed.

(** ** The window of the rescheduler *)

Lemma statsOf_before_start today now logs weekCount :
  now < startDateOf today -> statsOf today now logs weekCount = stats0.
Proof.
  intros Hlate. unfold statsOf. cbn zeta.
  destruct (7 * weekCount)%nat; cbn [scanDays]; [reflexivity|].
  destruct (Z.leb_spec (startDateOf today) now); [lia|reflexivity].
Qed.

(** X2: on a day that is not a Monday, with the second clock reading less
    than a day after the first, [adaptPlan] changes nothing, whatever the
    log store holds: the start date is the Monday to come. *)
Theorem not_monday_no_change
    (today now : Z) (logs : list LogEntry) (plan : Plan) :
  getDay today <> 1 ->
  now < addDays today 1 ->
  adaptPlan today now logs plan = plan.
Proof.
  intros Hday Hnow. apply adaptPlan_unchanged. left.
  rewrite statsOf_before_start; [reflexivity|].
  pose proof (getDay_range today) as Hr.
  unfold startDateOf. cbn zeta. unfold addDays, msPerDay in *.
  destruct (Z.eqb_spec (getDay today) 1); [contradiction|].
  destruct (Z.eqb_spec (getDay today) 0); lia.
Qed.

Lemma scanDays_step logMap now endDate n d i st :
  scanDays logMap now endDate (S n) d i st
  = if (d <=? now) && (d <? endDate) then
      scanDays logMap now endDate n (addDays d 1) (i + 1)
        (dayStats logMap d i st)
    else st.
Proof. reflexivity. Qed.

Lemma dayStats_first logMap d :
  dayStats logMap d 0 stats0 = mondayStats (logMap !! toIso d).
Proof.
  unfold dayStats, mondayStats.
  destruct (logMap !! toIso d) as [entry|]; [|reflexivity].
  cbn [completedSessions totalRPE lastLoggedWeekIndex totalDaysPassed stats0].
  destruct (isNaN (parseFloat (rpe entry))); reflexivity.
Qed.

Lemma statsOf_monday today now logs (weekCount : nat) :
  getDay today = 1 ->
  today <= now < addDays today 1 ->
  (0 < weekCount)%nat ->
  statsOf today now logs weekCount
  = mondayStats (logMapOf logs !! toIso today).
Proof.
  intros Hday [Hlo Hhi] Hweeks.
  assert (Hstart : startDateOf today = today).
  { unfold startDateOf. cbn zeta. rewrite Hday.
    change (addDays today 0 = today). apply addDays_0. }
  unfold statsOf. cbn zeta. rewrite Hstart.
  destruct weekCount as [|n]; [lia|].
  replace (7 * S n)%nat with (S (S (5 + 7 * n))) by lia.
  rewrite scanDays_step.
  assert (H1 : (today <=? now) && (today <? addDays today (Z.of_nat (S n) * 7))
               = true).
  { apply andb_true_iff. split; [apply Z.leb_le; lia|].
    apply Z.ltb_lt. unfold addDays, msPerDay. lia. }
  assert (H2 : (addDays today 1 <=? now) = false) by (apply Z.leb_gt; lia).
  rewrite H1, scanDays_step, H2. cbn [andb].
  apply dayStats_first.
Qed.

(** X3: on a Monday, with the second clock reading less than a day after
    the first and a plan of at least one week, the window is the Monday
    alone: one day has passed, a session is completed exactly when the log
    store has an entry dated that Monday, and then the completion ratio is 1
    and the last logged week is the first. *)
Theorem monday_window
    (today now : Z) (logs : list LogEntry) (plan : Plan) :
  getDay today = 1 ->
  today <= now < addDays today 1 ->
  weeks plan <> [] ->
  let st := statsOf today now logs (List.length (weeks plan)) in
  totalDaysPassed st = 1
  /\ (logMapOf logs !! toIso today = None ->
      completedSessions st = 0
      /\ adaptPlan today now logs plan = plan)
  /\ (forall entry, logMapOf logs !! toIso today = Some entry ->
      completedSessions st = 1
      /\ lastLoggedWeekIndex st = 0
      /\ completionRatio st = 1%float
      /\ totalRPE st = if isNaN (parseFloat (rpe entry)) then 0%float
                       else (0 + parseFloat (rpe entry))%float).
Proof.
  intros Hday Hnow Hweeks st.
  assert (Hst : st = mondayStats (logMapOf logs !! toIso today)).
  { apply statsOf_monday; [exact Hday|exact Hnow|].
    destruct (weeks plan); [contradiction|cbn; lia]. }
  split; [|split].
  - rewrite Hst. destruct (logMapOf logs !! toIso today); reflexivity.
  - intros Hnone. split.
    + rewrite Hst, Hnone. reflexivity.
    + apply adaptPlan_unchanged. right. fold st. rewrite Hst, Hnone. reflexivity.
  - intros entry Hsome. rewrite Hst, Hsome. cbn [mondayStats].
    split; [reflexivity|]. split; [reflexivity|]. split; [|reflexivity].
    unfold completionRatio. cbn [completedSessions totalDaysPassed].
    vm_compute. reflexivity.
Qed.

(** X4: on such a Monday an entry whose RPE is not a number counts as an
    effort of 0: the plan is intensified in every week after the first. *)
Theorem monday_entry_without_rpe_intensifies
    (today now : Z) (logs : list LogEntry) (plan : Plan) (entry : LogEntry) :
  getDay today = 1 ->
  today <= now < addDays today 1 ->
  weeks plan <> [] ->
  logMapOf logs !! toIso today = Some entry ->
  isNaN (parseFloat (rpe entry)) = true ->
  adaptPlan today now logs plan = adapted intensify 0 plan.
Proof.
  intros Hday Hnow Hweeks Hsome Hrpe.
  rewrite adaptPlan_eq. cbn zeta.
  rewrite statsOf_monday; [|exact Hday|exact Hnow|].
  - rewrite Hsome. cbn [mondayStats]. rewrite Hrpe.
    assert (Hguard : nothingToAdapt
              {| lastLoggedWeekIndex := 0; completedSessions := 1;
                 totalDaysPassed := 1; totalRPE := 0 |} = false)
      by (vm_compute; reflexivity).
    assert (Hmode : selectMode
              {| lastLoggedWeekIndex := 0; completedSessions := 1;
                 totalDaysPassed := 1; totalRPE := 0 |} = intensify)
      by (vm_compute; reflexivity).
    rewrite Hguard, Hmode. reflexivity.
  - destruct (weeks plan); [contradiction|cbn; lia].
Qed.

(** ** The log store *)

Lemma logMapOf_snoc logs entry :
  logMapOf (logs ++ [entry])
  = match date entry with
    | [] => logMapOf logs
    | _ => <[date entry := entry]> (logMapOf logs)
    end.
Proof. unfold logMapOf. rewrite fold_left_app. reflexivity. Qed.

(** X5: what [adaptPlan], [downloadCalendar] and the review find in the map
    of the logs under a date is the last stored entry with that date; an
    entry with an empty date is never found. *)
Theorem logMapOf_lookup (logs : list LogEntry) (k : jsstring) :
  logMapOf logs !! k
  = match k with
    | [] => None
    | _ => last (filter (fun entry => date entry = k) logs)
    end.
Proof.
  induction logs as [|entry logs IH] using rev_ind.
  - rewrite logMapOf_nil, lookup_empty. destruct k; reflexivity.
  - rewrite logMapOf_snoc, filter_app, filter_cons, filter_nil.
    destruct (decide (date entry = k)) as [->|Hne].
    + rewrite last_snoc. destruct k as [|c k]; [exact IH|].
      apply lookup_insert_eq.
    + rewrite app_nil_r, <- IH.
      destruct (date entry) as [|c s] eqn:Hd; [reflexivity|].
      apply lookup_insert_ne. exact Hne.
Qed.

(** X6: a submission of the log form with a date replaces, for the readers
    that search the log store by date ([adaptPlan], [renderPlan],
    [downloadCalendar] and the review), what was stored under that date, and
    changes nothing under another date. The list itself, which [loadLogs]
    and [updateAchievements] read, keeps every earlier entry in its place
    and has the new entry at its end. *)
Theorem submitLog_latest_wins
    (logDate logType logValue logRPE logNotes : jsstring)
    (logs : list LogEntry) :
  logDate <> [] ->
  let entry := {| date := logDate; type := logType; value := logValue;
                  rpe := logRPE; notes := logNotes |} in
  let logs' := submitLog logDate logType logValue logRPE logNotes logs in
  logMapOf logs' !! logDate = Some entry
  /\ (forall k, k <> logDate -> logMapOf logs' !! k = logMapOf logs !! k)
  /\ (forall (i : nat) earlier,
        logs !! i = Some earlier -> logs' !! i = Some earlier)
  /\ logs' !! List.length logs = Some entry
  /\ List.length logs' = S (List.length logs).
Proof.
  intros Hdate entry logs'. unfold logs', submitLog. fold entry.
  rewrite logMapOf_snoc.
  assert (Hd : date entry = logDate) by reflexivity. rewrite Hd.
  destruct logDate as [|c s]; [contradiction|].
  split; [apply lookup_insert_eq|].
  split; [intros k Hk; apply lookup_insert_ne; congruence|].
  split; [intros i earlier Hi; apply lookup_app_l_Some; exact Hi|].
  split; [apply list_lookup_middle; reflexivity|].
  rewrite length_app. cbn [length]. lia.
Qed.

Lemma submitLog_latest_wins_witness :
  let entry := {| date := lit "2026-11-02"; type := lit "run";
                  value := lit "8 km"; rpe := lit "3"; notes := [] |} in
  let logs' := submitLog (lit "2026-11-02") (lit "run") (lit "8 km")
                 (lit "3") [] Sample.hardLog in
  logMapOf logs' !! lit "2026-11-02" = Some entry
  /\ (forall k, k <> lit "2026-11-02" ->
       logMapOf logs' !! k = logMapOf Sample.hardLog !! k)
  /\ (forall (i : nat) earlier,
        Sample.hardLog !! i = Some earlier -> logs' !! i = Some earlier)
  /\ logs' !! List.length Sample.hardLog = Some entry
  /\ List.length logs' = S (List.length Sample.hardLog).
Proof.
  apply (submitLog_latest_wins (lit "2026-11-02") (lit "run") (lit "8 km")
           (lit "3") [] Sample.hardLog).
  vm_compute. discriminate.
Defined.

(** ** The escaping of calendar text *)

Lemma replaceAll_flat_map c r (f : N -> jsstring) s :
  replaceAll c r (flat_map f s) = flat_map (fun x => replaceAll c r (f x)) s.
Proof.
  unfold replaceAll. induction s as [|x s IH]; [reflexivity|].
  cbn [flat_map]. rewrite flat_map_app, IH. reflexivity.
Qed.

Lemma replaceAll_unit c r x :
  replaceAll c r [x] = if (x =? c)%N then r else [x].
Proof. unfold replaceAll. cbn [flat_map]. apply app_nil_r. Qed.

Lemma escapeUnit_passes x :
  replaceAll 59 [backslash; 59%N]
    (replaceAll 44 [backslash; 44%N]
       (replaceAll 13 []
          (replaceAll 10 [backslash; 110%N]
             (if (x =? backslash)%N then [backslash; backslash] else [x]))))
  = escapeUnit x.
Proof.
  unfold escapeUnit.
  destruct (N.eqb_spec x backslash) as [->|H92]; [reflexivity|].
  rewrite replaceAll_unit.
  destruct (N.eqb_spec x 10) as [->|H10]; [reflexivity|].
  rewrite replaceAll_unit.
  destruct (N.eqb_spec x 13) as [->|H13]; [reflexivity|].
  rewrite replaceAll_unit.
  destruct (N.eqb_spec x 44) as [->|H44]; [reflexivity|].
  rewrite replaceAll_unit.
  destruct (N.eqb_spec x 59) as [->|H59]; reflexivity.
Qed.

Lemma escapeICSText_flat s : escapeICSText s = flat_map escapeUnit s.
Proof.
  unfold escapeICSText.
  unfold replaceAll at 5. rewrite !replaceAll_flat_map.
  apply flat_map_ext. intros x. apply escapeUnit_passes.
Qed.

(** X7: the five successive replacements of [escapeICSText] act as one
    pass over the text, unit by unit: no replacement touches what an earlier
    one wrote. So the escaping of a concatenation is the concatenation of
    the escapings. *)
Theorem escapeICSText_unitwise (text rest : jsstring) :
  escapeICSText text = flat_map escapeUnit text
  /\ escapeICSText (text ++ rest) = escapeICSText text ++ escapeICSText rest.
Proof.
  split; [apply escapeICSText_flat|].
  rewrite !escapeICSText_flat. apply flat_map_app.
Qed.

Lemma escapeUnit_oneLine x : oneLine (escapeUnit x).
Proof.
  unfold escapeUnit, oneLine, backslash.
  destruct (N.eqb_spec x 92) as [->|H92];
    [split; intros H; repeat (apply elem_of_cons in H as [H|H]; [discriminate|]);
       inversion H|].
  destruct (N.eqb_spec x 10) as [->|H10];
    [split; intros H; repeat (apply elem_of_cons in H as [H|H]; [discriminate|]);
       inversion H|].
  destruct (N.eqb_spec x 13) as [->|H13];
    [split; intros H; inversion H|].
  destruct (N.eqb_spec x 44) as [->|H44];
    [split; intros H; repeat (apply elem_of_cons in H as [H|H]; [discriminate|]);
       inversion H|].
  destruct (N.eqb_spec x 59) as [->|H59];
    [split; intros H; repeat (apply elem_of_cons in H as [H|H]; [discriminate|]);
       inversion H|].
  split; intros H; apply list_elem_of_singleton in H; congruence.
Qed.

Lemma oneLine_app a b : oneLine a -> oneLine b -> oneLine (a ++ b).
Proof.
  unfold oneLine. intros [Ha1 Ha2] [Hb1 Hb2].
  split; intros H; apply elem_of_app in H as [H|H]; contradiction.
Qed.

Lemma oneLine_nil : oneLine [].
Proof. split; intros H; inversion H. Qed.

Lemma escaped_oneLine text : oneLine (escapeICSText text).
Proof.
  rewrite escapeICSText_flat.
  induction text as [|x text IH]; [apply oneLine_nil|].
  cbn [flat_map]. apply oneLine_app; [apply escapeUnit_oneLine|exact IH].
Qed.

(** X8: the escaped text has no line feed and no carriage return, whatever
    the text: a line break of a description or of a note never breaks a
    line of the calendar file. *)
Theorem escapeICSText_oneLine (text : jsstring) : oneLine (escapeICSText text).
Proof.
  rewrite escapeICSText_flat. unfold oneLine.
  induction text as [|x text [IH10 IH13]]; cbn [flat_map].
  - split; intros H; inversion H.
  - destruct (escapeUnit_oneLine x) as [Hx10 Hx13].
    split; intros H; apply elem_of_app in H as [H|H]; contradiction.
Qed.

Lemma unescape_escapeUnit x s :
  unescapeICSText (escapeUnit x ++ s)
  = if (x =? 13)%N then unescapeICSText s else x :: unescapeICSText s.
Proof.
  unfold escapeUnit, backslash.
  destruct (N.eqb_spec x 92) as [->|H92]; [reflexivity|].
  destruct (N.eqb_spec x 10) as [->|H10]; [reflexivity|].
  destruct (N.eqb_spec x 13) as [->|H13]; [reflexivity|].
  destruct (N.eqb_spec x 44) as [->|H44]; [reflexivity|].
  destruct (N.eqb_spec x 59) as [->|H59]; [reflexivity|].
  cbn [app unescapeICSText]. unfold backslash.
  destruct (N.eqb_spec x 92); [contradiction|reflexivity].
Qed.

Lemma unescape_escape s :
  unescapeICSText (escapeICSText s) = filter (fun c => c <> 13%N) s.
Proof.
  rewrite escapeICSText_flat.
  induction s as [|x s IH]; [reflexivity|].
  cbn [flat_map]. rewrite unescape_escapeUnit. unfold jsstring in *.
  rewrite filter_cons, IH.
  destruct (N.eqb_spec x 13) as [->|H13].
  - rewrite decide_False by (intros H; apply H; reflexivity). reflexivity.
  - rewrite decide_True by exact H13. reflexivity.
Qed.

(** X9: the escaping loses nothing but carriage returns: two texts with
    the same escaped text are the same once their carriage returns are
    removed. *)
Theorem escapeICSText_injective (s t : jsstring) :
  escapeICSText s = escapeICSText t ->
  filter (fun c => c <> 13%N) s = filter (fun c => c <> 13%N) t.
Proof.
  intros H. rewrite <- !unescape_escape, H. reflexivity.
Qed.

Lemma escapeICSText_injective_witness :
  filter (fun c => c <> 13%N) (lit "a,b" ++ [13%N; 10%N] ++ lit "c")
  = filter (fun c => c <> 13%N) (lit "a,b" ++ [10%N] ++ lit "c").
Proof.
  apply (escapeICSText_injective (lit "a,b" ++ [13%N; 10%N] ++ lit "c")
           (lit "a,b" ++ [10%N] ++ lit "c")).
  vm_compute. reflexivity.
Defined.

(** ** Dates as text *)

Lemma civil_range t :
  let '(y, m, d) := civil t in 1 <= m <= 12 /\ 1 <= d <= 31.
Proof.
  unfold civil. cbn zeta.
  set (z := t / msPerDay + 719468).
  set (era := z / 146097).
  set (doe := z - era * 146097).
  assert (Hdoe : 0 <= doe < 146097).
  { unfold doe, era. pose proof (Z.mod_pos_bound z 146097 ltac:(lia)) as H.
    rewrite Z.mod_eq in H by lia. lia. }
  clearbody doe. clear z era.
  set (yoe := (doe - doe / 1460 + doe / 36524 - doe / 146096) / 365).
  set (doy := doe - (365 * yoe + yoe / 4 - yoe / 100)).
  assert (Hdoy : 0 <= doy <= 365).
  { unfold doy, yoe. Z.to_euclidean_division_equations. lia. }
  clearbody doy. clear yoe.
  set (mp := (5 * doy + 2) / 153).
  assert (Hmp : 0 <= mp <= 11)
    by (unfold mp; Z.to_euclidean_division_equations; lia).
  assert (Hd : 1 <= doy - (153 * mp + 2) / 5 + 1 <= 31)
    by (unfold mp; Z.to_euclidean_division_equations; lia).
  destruct (Z.ltb_spec mp 10); lia.
Qed.

Lemma digits_fuel_small f n acc :
  (n < 10)%N -> digits_fuel f n acc = (48 + n)%N :: acc.
Proof.
  intros Hn. destruct f as [|f]; cbn [digits_fuel].
  - rewrite N.mod_small by exact Hn. reflexivity.
  - destruct (N.ltb_spec n 10); [reflexivity|lia].
Qed.

Lemma digits_fuel_step f n acc :
  (10 <= n)%N ->
  digits_fuel (S f) n acc = digits_fuel f (n / 10)%N ((48 + n mod 10)%N :: acc).
Proof.
  intros Hn. cbn [digits_fuel]. destruct (N.ltb_spec n 10); [lia|reflexivity].
Qed.

Lemma digits_length_1 n : (n < 10)%N -> List.length (digits n) = 1%nat.
Proof. intros Hn. unfold digits. rewrite digits_fuel_small by exact Hn. reflexivity. Qed.

Lemma log2_fuel n k :
  (2 ^ N.of_nat k <= n)%N -> exists f, N.to_nat (N.log2 n) = (k + f)%nat.
Proof.
  intros Hn. exists (N.to_nat (N.log2 n) - k)%nat.
  assert (N.of_nat k <= N.log2 n)%N; [|lia].
  rewrite <- (N.log2_pow2 (N.of_nat k)) by lia.
  apply N.log2_le_mono. exact Hn.
Qed.

Lemma digits_length_2 n : (10 <= n < 100)%N -> List.length (digits n) = 2%nat.
Proof.
  intros Hn. unfold digits.
  destruct (log2_fuel n 1) as [f ->]; [cbn; lia|].
  cbn [Nat.add]. rewrite digits_fuel_step by lia.
  rewrite digits_fuel_small; [reflexivity|].
  apply N.Div0.div_lt_upper_bound. lia.
Qed.

Lemma digits_length_4 n :
  (1000 <= n < 10000)%N -> List.length (digits n) = 4%nat.
Proof.
  intros Hn. unfold digits.
  destruct (log2_fuel n 3) as [f ->]; [cbn; lia|].
  cbn [Nat.add].
  assert (H1 : (100 <= n / 10 < 1000)%N).
  { split; [apply N.div_le_lower_bound; lia
           |apply N.Div0.div_lt_upper_bound; lia]. }
  assert (H2 : (10 <= n / 10 / 10 < 100)%N).
  { split; [apply N.div_le_lower_bound; lia
           |apply N.Div0.div_lt_upper_bound; lia]. }
  rewrite digits_fuel_step by lia.
  rewrite digits_fuel_step by lia.
  rewrite digits_fuel_step by lia.
  rewrite digits_fuel_small; [reflexivity|].
  apply N.Div0.div_lt_upper_bound. lia.
Qed.

Lemma pad2_length z :
  0 <= z < 100 -> List.length (pad2 (int_to_string z)) = 2%nat.
Proof.
  intros Hz. unfold int_to_string.
  destruct (Z.ltb_spec z 0); [lia|].
  destruct (N.lt_ge_cases (Z.to_N z) 10) as [Hs|Hs].
  - pose proof (digits_length_1 _ Hs) as Hl.
    destruct (digits (Z.to_N z)) as [|a [|b l]]; try discriminate Hl.
    reflexivity.
  - assert (Hl : List.length (digits (Z.to_N z)) = 2%nat)
      by (apply digits_length_2; lia).
    destruct (digits (Z.to_N z)) as [|a [|b [|c l]]]; try discriminate Hl.
    reflexivity.
Qed.

Lemma year_length y :
  1000 <= y <= 9999 -> List.length (int_to_string y) = 4%nat.
Proof.
  intros Hy. unfold int_to_string.
  destruct (Z.ltb_spec y 0); [lia|].
  apply digits_length_4. lia.
Qed.

Lemma slices_of_date (y m d : jsstring) :
  List.length y = 4%nat -> List.length m = 2%nat -> List.length d = 2%nat ->
  isoDateOf (y ++ m ++ d) = y ++ 45%N :: m ++ 45%N :: d.
Proof.
  intros Hy Hm Hd.
  destruct y as [|y1 [|y2 [|y3 [|y4 [|? ?]]]]]; try discriminate Hy.
  destruct m as [|m1 [|m2 [|? ?]]]; try discriminate Hm.
  destruct d as [|d1 [|d2 [|? ?]]]; try discriminate Hd.
  reflexivity.
Qed.

Lemma isoDateOf_toIso t :
  1000 <= (civil t).1.1 <= 9999 -> isoDateOf (formatICSDate t) = toIso t.
Proof.
  intros Hy. pose proof (civil_range t) as Hr.
  unfold formatICSDate, toIso.
  destruct (civil t) as [[y m] d]. cbn [fst] in Hy.
  apply slices_of_date.
  - apply year_length. exact Hy.
  - apply pad2_length. lia.
  - apply pad2_length. lia.
Qed.

(** X10: for a day of a year with four digits, the key under which
    [downloadCalendar] searches the log store, cut out of the start date of
    the event, is the date text under which [adaptPlan] and the review
    search it. *)
Theorem calendar_date_key (t : Z) :
  1000 <= (civil t).1.1 <= 9999 ->
  isoDateOf (formatICSDate t) = toIso t.
Proof.
  intros Hy. pose proof (civil_range t) as Hr.
  unfold formatICSDate, toIso.
  destruct (civil t) as [[y m] d]. cbn [fst] in Hy.
  destruct Hr as [Hm Hd].
  apply slices_of_date;
    [apply year_length; exact Hy|apply pad2_length; lia|apply pad2_length; lia].
Qed.

Lemma calendar_date_key_witness :
  isoDateOf (formatICSDate Sample.monday) = toIso Sample.monday.
Proof.
  apply (calendar_date_key Sample.monday).
  vm_compute. split; discriminate.
Defined.

Lemma status_unescaped :
  escapeICSText (lit "Status: completed") = lit "Status: completed"
  /\ escapeICSText (lit "Status: not completed") = lit "Status: not completed".
Proof. split; vm_compute; reflexivity. Qed.

(** X11: the description line of an event, for a day of a year with four
    digits: the event is marked completed exactly when the map of the logs
    has an entry under the date text of its day, the text that [adaptPlan]
    searches too; the notes follow when that entry has any. *)
Theorem event_status
    (clock : Z -> Z) (logs : list LogEntry) (startDate uidCounter : Z)
    (wIndex dIndex : nat) (desc : jsstring) :
  let eventDate := addDays startDate (Z.of_nat wIndex * 7 + Z.of_nat dIndex) in
  1000 <= (civil eventDate).1.1 <= 9999 ->
  eventLines clock (logMapOf logs) startDate uidCounter wIndex dIndex desc
    !! 6%nat
  = Some (lit "DESCRIPTION:" ++ escapeICSText desc ++ lit "\n"
            ++ match logMapOf logs !! toIso eventDate with
               | Some entry =>
                 lit "Status: completed"
                   ++ match notes entry with
                      | [] => []
                      | _ => lit "\nNotes: " ++ escapeICSText (notes entry)
                      end
               | None => lit "Status: not completed"
               end).
Proof.
  intros eventDate Hy. unfold eventLines. cbn zeta. fold eventDate.
  rewrite (isoDateOf_toIso eventDate Hy).
  cbn [lookup list_lookup].
  destruct status_unescaped as [Hc Hn].
  destruct (logMapOf logs !! toIso eventDate) as [entry|].
  - rewrite Hc. reflexivity.
  - rewrite Hn, app_nil_r. reflexivity.
Qed.

(** ** The lines of the calendar file *)

Lemma eventLines_length clock lm startDate u w d desc :
  List.length (eventLines clock lm startDate u w d desc) = 8%nat.
Proof. reflexivity. Qed.

Ltac zlia := unfold jsstring in *; lia.

Lemma laidOut_event clock lm startDate acc u w d desc :
  laidOut acc u ->
  laidOut (acc ++ eventLines clock lm startDate u w d desc) (u + 1).
Proof.
  intros (Hu & Hlen & Hk).
  split; [lia|]. split.
  - rewrite length_app, eventLines_length. lia.
  - intros k Hlt.
    destruct (Z.eq_dec (Z.of_nat k) (u - 1)) as [Heq|Hne].
    + assert (Hu' : u = Z.of_nat k + 1) by zlia.
      assert (Hl : List.length acc = (3 + 8 * k)%nat) by zlia.
      split; [|split].
      * rewrite lookup_app_r by zlia.
        match goal with |- _ !! ?i = _ => replace i with 0%nat by zlia end.
        reflexivity.
      * rewrite lookup_app_r by zlia.
        match goal with |- _ !! ?i = _ => replace i with 1%nat by zlia end.
        rewrite Hu'. reflexivity.
      * rewrite lookup_app_r by zlia.
        match goal with |- _ !! ?i = _ => replace i with 7%nat by zlia end.
        reflexivity.
    + destruct (Hk k ltac:(zlia)) as (H1 & H2 & H3).
      split; [|split]; (rewrite lookup_app_l by zlia); assumption.
Qed.

Lemma daysEvents_laidOut clock lm startDate w ds :
  forall d st,
    laidOut st.1 st.2 ->
    let st' := daysEvents clock lm startDate w d ds st in
    laidOut st'.1 st'.2 /\ st'.2 = st.2 + Z.of_nat (List.length ds).
Proof.
  induction ds as [|desc ds IH]; intros d st Hst; cbn [daysEvents].
  - split; [exact Hst|cbn; lia].
  - destruct (IH (S d)
                (st.1 ++ eventLines clock lm startDate st.2 w d desc, st.2 + 1))
      as [H1 H2].
    + cbn [fst snd]. apply laidOut_event. exact Hst.
    + split; [exact H1|]. rewrite H2. cbn [fst snd length]. lia.
Qed.

Lemma weeksEvents_laidOut clock lm startDate ws :
  forall w st,
    laidOut st.1 st.2 ->
    let st' := weeksEvents clock lm startDate w ws st in
    laidOut st'.1 st'.2
    /\ st'.2 = st.2 + Z.of_nat (List.length (concat (map days ws))).
Proof.
  induction ws as [|wk ws IH]; intros w st Hst; cbn [weeksEvents].
  - split; [exact Hst|cbn; lia].
  - destruct (daysEvents_laidOut clock lm startDate w (days wk) 0%nat st Hst)
      as [H1 H2].
    destruct (IH (S w) _ H1) as [H3 H4].
    split; [exact H3|]. rewrite H4, H2.
    cbn [map concat]. rewrite length_app. lia.
Qed.

Lemma header_laidOut :
  laidOut [lit "BEGIN:VCALENDAR"; lit "VERSION:2.0";
           lit "PRODID:-//OCR Planner//EN"] 1.
Proof.
  split; [lia|]. split; [reflexivity|]. intros k Hk. lia.
Qed.

Lemma daysEvents_prefix clock lm startDate w ds :
  forall d st, exists rest,
    (daysEvents clock lm startDate w d ds st).1 = st.1 ++ rest.
Proof.
  induction ds as [|desc ds IH]; intros d st; cbn [daysEvents].
  - exists []. symmetry. apply app_nil_r.
  - destruct (IH (S d)
                (st.1 ++ eventLines clock lm startDate st.2 w d desc, st.2 + 1))
      as [rest Hrest].
    rewrite Hrest. cbn [fst]. rewrite <- app_assoc. eexists. reflexivity.
Qed.

Lemma weeksEvents_prefix clock lm startDate ws :
  forall w st, exists rest,
    (weeksEvents clock lm startDate w ws st).1 = st.1 ++ rest.
Proof.
  induction ws as [|wk ws IH]; intros w st; cbn [weeksEvents].
  - exists []. symmetry. apply app_nil_r.
  - destruct (IH (S w) (daysEvents clock lm startDate w 0 (days wk) st))
      as [rest Hrest].
    destruct (daysEvents_prefix clock lm startDate w (days wk) 0%nat st)
      as [rest' Hrest'].
    rewrite Hrest, Hrest', <- app_assoc. eexists. reflexivity.
Qed.

(** X12: the calendar file of a plan has three lines of header, eight lines
    for each day of the plan and one closing line; the events are numbered
    from 1 in the order of the plan, week after week, whatever the plan and
    the logs. *)
Theorem calendar_layout
    (today : Z) (clock : Z -> Z) (logs : list LogEntry) (plan : Plan) :
  let lines := calendarLines today clock logs plan in
  List.length lines = (4 + 8 * dayCount plan)%nat
  /\ take 3 lines
     = [lit "BEGIN:VCALENDAR"; lit "VERSION:2.0";
        lit "PRODID:-//OCR Planner//EN"]
  /\ last lines = Some (lit "END:VCALENDAR")
  /\ forall k : nat, (k < dayCount plan)%nat ->
       lines !! (3 + 8 * k)%nat = Some (lit "BEGIN:VEVENT")
       /\ lines !! (4 + 8 * k)%nat
          = Some (lit "UID:plan-" ++ int_to_string (Z.of_nat k + 1)
                    ++ lit "@ocrplanner")
       /\ lines !! (10 + 8 * k)%nat = Some (lit "END:VEVENT").
Proof.
  intros lines. unfold lines, calendarLines.
  destruct (weeksEvents_laidOut clock (logMapOf logs) (startDateOf today)
              (weeks plan) 0%nat
              ([lit "BEGIN:VCALENDAR"; lit "VERSION:2.0";
                lit "PRODID:-//OCR Planner//EN"], 1) header_laidOut)
    as [(Hu & Hlen & Hk) Hcount].
  destruct (weeksEvents_prefix clock (logMapOf logs) (startDateOf today)
              (weeks plan) 0%nat
              ([lit "BEGIN:VCALENDAR"; lit "VERSION:2.0";
                lit "PRODID:-//OCR Planner//EN"], 1)) as [rest Hrest].
  cbn [fst snd] in Hu, Hlen, Hk, Hcount, Hrest.
  fold (dayCount plan) in Hcount.
  rewrite Hcount in Hlen, Hk.
  split; [rewrite length_app; cbn [length]; zlia|].
  split; [|split; [apply last_snoc|]].
  - rewrite Hrest, <- app_assoc. reflexivity.
  - intros k Hlt. destruct (Hk k ltac:(lia)) as (H1 & H2 & H3).
    split; [|split]; (rewrite lookup_app_l by zlia); assumption.
Qed.

Lemma oneLine_cons c s : c <> 10%N -> c <> 13%N -> oneLine s -> oneLine (c :: s).
Proof.
  intros H10 H13 [Hs1 Hs2].
  split; intros H; apply elem_of_cons in H as [H|H];
    [congruence|contradiction|congruence|contradiction].
Qed.

Lemma oneLine_check s :
  forallb (fun c => negb (c =? 10)%N && negb (c =? 13)%N) s = true -> oneLine s.
Proof.
  induction s as [|c s IH]; cbn [forallb]; intros H; [apply oneLine_nil|].
  apply andb_true_iff in H as [Hc Hs].
  apply andb_true_iff in Hc as [H10 H13].
  apply oneLine_cons; [| |exact (IH Hs)].
  - destruct (N.eqb_spec c 10); [discriminate|assumption].
  - destruct (N.eqb_spec c 13); [discriminate|assumption].
Qed.

Ltac closed_line := apply oneLine_check; vm_compute; reflexivity.

Lemma digit_oneLine (m : N) acc :
  oneLine acc -> oneLine ((48 + m)%N :: acc).
Proof. intros Hacc. apply oneLine_cons; [lia|lia|exact Hacc]. Qed.

Lemma digits_fuel_oneLine f :
  forall n acc, oneLine acc -> oneLine (digits_fuel f n acc).
Proof.
  induction f as [|f IH]; intros n acc Hacc; cbn [digits_fuel].
  - apply digit_oneLine, Hacc.
  - destruct (n <? 10)%N; [apply digit_oneLine, Hacc|].
    apply IH, digit_oneLine, Hacc.
Qed.

Lemma int_to_string_oneLine z : oneLine (int_to_string z).
Proof.
  unfold int_to_string, digits.
  destruct (z <? 0);
    [apply oneLine_cons; [lia|lia|]|]; apply digits_fuel_oneLine, oneLine_nil.
Qed.

Lemma pad2_oneLine s : oneLine s -> oneLine (pad2 s).
Proof.
  intros Hs. destruct s as [|a [|b s]]; cbn [pad2]; [closed_line| |exact Hs].
  apply oneLine_cons; [lia|lia|exact Hs].
Qed.

Lemma formatICSDate_oneLine t : oneLine (formatICSDate t).
Proof.
  unfold formatICSDate. destruct (civil t) as [[y m] d].
  repeat apply oneLine_app;
    try apply pad2_oneLine; apply int_to_string_oneLine.
Qed.

Lemma formatUTCStamp_oneLine t : oneLine (formatUTCStamp t).
Proof.
  unfold formatUTCStamp. destruct (civil t) as [[y m] d]. cbn zeta.
  apply oneLine_app; [apply int_to_string_oneLine|].
  apply oneLine_app; [apply pad2_oneLine, int_to_string_oneLine|].
  apply oneLine_app; [apply pad2_oneLine, int_to_string_oneLine|].
  apply oneLine_cons; [lia|lia|].
  apply oneLine_app; [apply pad2_oneLine, int_to_string_oneLine|].
  apply oneLine_app; [apply pad2_oneLine, int_to_string_oneLine|].
  apply oneLine_app; [apply pad2_oneLine, int_to_string_oneLine|].
  closed_line.
Qed.

Lemma eventLines_oneLine clock lm startDate u w d desc :
  Forall oneLine (eventLines clock lm startDate u w d desc).
Proof.
  unfold eventLines. cbn zeta.
  repeat apply Forall_cons_2; try apply Forall_nil_2.
  - closed_line.
  - apply oneLine_app; [closed_line|].
    apply oneLine_app; [apply int_to_string_oneLine|closed_line].
  - apply oneLine_app; [closed_line|apply formatUTCStamp_oneLine].
  - apply oneLine_app; [closed_line|apply formatICSDate_oneLine].
  - apply oneLine_app; [closed_line|apply formatICSDate_oneLine].
  - apply oneLine_app; [closed_line|apply escaped_oneLine].
  - apply oneLine_app; [closed_line|].
    apply oneLine_app; [apply escaped_oneLine|].
    apply oneLine_app; [closed_line|].
    apply oneLine_app; [apply escaped_oneLine|].
    destruct (lm !! _) as [entry|]; [|apply oneLine_nil].
    destruct (notes entry) as [|c s] eqn:Hnotes; [apply oneLine_nil|].
    apply oneLine_app; [closed_line|apply escaped_oneLine].
  - closed_line.
Qed.

Lemma daysEvents_oneLine clock lm startDate w ds :
  forall d st,
    Forall oneLine st.1 ->
    Forall oneLine (daysEvents clock lm startDate w d ds st).1.
Proof.
  induction ds as [|desc ds IH]; intros d st Hst; cbn [daysEvents];
    [exact Hst|].
  apply IH. cbn [fst]. apply Forall_app_2; [exact Hst|].
  apply eventLines_oneLine.
Qed.

Lemma weeksEvents_oneLine clock lm startDate ws :
  forall w st,
    Forall oneLine st.1 ->
    Forall oneLine (weeksEvents clock lm startDate w ws st).1.
Proof.
  induction ws as [|wk ws IH]; intros w st Hst; cbn [weeksEvents];
    [exact Hst|].
  apply IH, daysEvents_oneLine. exact Hst.
Qed.

(** X13: no line of the calendar file holds a line feed or a carriage
    return, whatever the descriptions of the plan and the notes of the logs
    hold: the file has exactly the lines that [downloadCalendar] pushed. *)
Theorem calendar_lines_unbroken
    (today : Z) (clock : Z -> Z) (logs : list LogEntry) (plan : Plan) :
  Forall oneLine (calendarLines today clock logs plan).
Proof.
  unfold calendarLines. apply Forall_app_2.
  - apply weeksEvents_oneLine. cbn [fst].
    repeat apply Forall_cons_2; try apply Forall_nil_2; closed_line.
  - apply Forall_cons_2; [closed_line|apply Forall_nil_2].
Qed.

Lemma count_oneLine c s :
  c = 10%N \/ c = 13%N -> oneLine s -> count_occ N.eq_dec s c = 0%nat.
Proof.
  intros Hc [H10 H13]. apply count_occ_not_In. rewrite <- list_elem_of_In.
  destruct Hc as [-> | ->]; assumption.
Qed.

Lemma joinCRLF_count c lines :
  c = 10%N \/ c = 13%N ->
  Forall oneLine lines ->
  count_occ N.eq_dec (joinCRLF lines) c = (List.length lines - 1)%nat.
Proof.
  intros Hc Hlines.
  induction Hlines as [|l lines Hl Hlines IH]; [reflexivity|].
  destruct lines as [|l2 lines].
  - cbn [joinCRLF length]. apply count_oneLine; assumption.
  - change (joinCRLF (l :: l2 :: lines))
      with (l ++ 13%N :: 10%N :: joinCRLF (l2 :: lines)).
    rewrite count_occ_app, (count_oneLine c l Hc Hl).
    cbn [count_occ]. rewrite IH. cbn [length].
    destruct Hc as [-> | ->];
      destruct (N.eq_dec 13%N 10%N), (N.eq_dec 10%N 10%N),
        (N.eq_dec 13%N 13%N), (N.eq_dec 10%N 13%N);
      try discriminate; try contradiction; lia.
Qed.

(** X27: the text of the calendar file has as many line feeds, and as many
    carriage returns, as it has lines but one: three for the header and
    eight for each day of the plan, none of them from a description or a
    note. *)
Theorem calendar_text_line_breaks
    (today : Z) (clock : Z -> Z) (logs : list LogEntry) (plan : Plan) :
  let text := calendarText today clock logs plan in
  count_occ N.eq_dec text 10%N = (3 + 8 * dayCount plan)%nat
  /\ count_occ N.eq_dec text 13%N = (3 + 8 * dayCount plan)%nat.
Proof.
  cbn zeta. unfold calendarText.
  assert (Hlines : Forall oneLine (calendarLines today clock logs plan)).
  { unfold calendarLines. apply Forall_app_2.
    - apply weeksEvents_oneLine. cbn [fst].
      repeat apply Forall_cons_2; try apply Forall_nil_2; closed_line.
    - apply Forall_cons_2; [closed_line|apply Forall_nil_2]. }
  assert (Hlen : List.length (calendarLines today clock logs plan)
                 = (4 + 8 * dayCount plan)%nat).
  { unfold calendarLines.
    destruct (weeksEvents_laidOut clock (logMapOf logs) (startDateOf today)
                (weeks plan) 0%nat
                ([lit "BEGIN:VCALENDAR"; lit "VERSION:2.0";
                  lit "PRODID:-//OCR Planner//EN"], 1) header_laidOut)
      as [(Hu & Hlen & _) Hcount].
    cbn [fst snd] in Hlen, Hcount. fold (dayCount plan) in Hcount.
    rewrite Hcount in Hlen.
    rewrite length_app. cbn [length]. zlia. }
  rewrite !joinCRLF_count by (try exact Hlines; auto).
  rewrite Hlen. split; lia.
Qed.

(** ** The countdown *)

(** X14: the days that the countdown shows are the time to the race in
    days, rounded up, and 0 once the race date is reached: the last day
    before the race shows 1 day from its first millisecond to its last. *)
Theorem countdown_days (today raceDate : Z) :
  let n := diffDays today raceDate in
  0 <= n
  /\ (n = 0 <-> raceDate <= today)
  /\ (today < raceDate ->
      (n - 1) * msPerDay < raceDate - today <= n * msPerDay).
Proof.
  unfold diffDays, msPerDay. cbn zeta.
  pose proof (Z.div_mod (today - raceDate) 86400000 ltac:(lia)) as Hdm.
  pose proof (Z.mod_pos_bound (today - raceDate) 86400000 ltac:(lia)) as Hm.
  split; [lia|]. split; [split; lia|lia].
Qed.

(** X15: the list of tasks of the countdown follows the time to the race:
    the tasks of the race week up to 7 days, of the taper up to 14 days, of
    the sharpening up to 28 days, and of the building beyond. *)
Theorem countdown_tasks (today raceDate : Z) :
  let left := raceDate - today in
  let shown := tasks (diffDays today raceDate) in
  (left <= 7 * msPerDay -> shown = raceWeekTasks)
  /\ (7 * msPerDay < left <= 14 * msPerDay -> shown = taperingTasks)
  /\ (14 * msPerDay < left <= 28 * msPerDay -> shown = sharpeningTasks)
  /\ (28 * msPerDay < left -> shown = buildingTasks).
Proof.
  cbn zeta. unfold tasks, diffDays, msPerDay.
  pose proof (Z.div_mod (today - raceDate) 86400000 ltac:(lia)) as Hdm.
  pose proof (Z.mod_pos_bound (today - raceDate) 86400000 ltac:(lia)) as Hm.
  set (n := Z.max 0 (- ((today - raceDate) / 86400000))).
  assert (Hn : n = Z.max 0 (- ((today - raceDate) / 86400000))) by reflexivity.
  clearbody n.
  split; [|split; [|split]]; intros Hleft.
  - destruct (Z.ltb_spec 28 n); [lia|].
    destruct (Z.ltb_spec 14 n); [lia|].
    destruct (Z.ltb_spec 7 n); [lia|reflexivity].
  - destruct (Z.ltb_spec 28 n); [lia|].
    destruct (Z.ltb_spec 14 n); [lia|].
    destruct (Z.ltb_spec 7 n); [reflexivity|lia].
  - destruct (Z.ltb_spec 28 n); [lia|].
    destruct (Z.ltb_spec 14 n); [reflexivity|lia].
  - destruct (Z.ltb_spec 28 n); [reflexivity|lia].
Qed.

(** ** The phases of the weeks of a plan *)

Lemma generatePlan_phase_list today data :
  map phase (weeks (generatePlan today data))
  = map (fun i : nat =>
           phaseOf (phaseLengths (weeksBetween today (raceDate data)))
             (Z.of_nat i))
      (seq 0 (Z.to_nat (weeksBetween today (raceDate data)))).
Proof.
  unfold generatePlan. cbn [weeks]. rewrite map_map. reflexivity.
Qed.

Lemma map_seq_const {A} (f : nat -> A) (c : A) k :
  forall a, (forall i, (a <= i < a + k)%nat -> f i = c) ->
            map f (seq a k) = replicate k c.
Proof.
  induction k as [|k IH]; intros a Hf; [reflexivity|].
  cbn [seq map replicate]. rewrite (Hf a) by lia.
  rewrite IH; [reflexivity|]. intros i Hi. apply Hf. lia.
Qed.

Lemma phaseOf_blocks p (b bu s t : nat) :
  baseWeeks p = Z.of_nat b -> buildWeeks p = Z.of_nat bu ->
  specificWeeks p = Z.of_nat s ->
  map (fun i : nat => phaseOf p (Z.of_nat i)) (seq 0 (b + bu + s + t))
  = replicate b Base ++ replicate bu Build ++ replicate s Specific
      ++ replicate t Taper.
Proof.
  intros Hb Hbu Hs.
  rewrite !seq_app, !map_app, <- !app_assoc.
  f_equal; [|f_equal; [|f_equal]]; apply map_seq_const; intros i Hi;
    unfold phaseOf; rewrite Hb, Hbu, Hs;
    repeat match goal with
           | |- context [(?x <? ?y)] => destruct (Z.ltb_spec x y)
           end; try reflexivity; lia.
Qed.

(** X16: in a generated plan of four weeks or more the phases come as
    blocks in the order base, build, specific, taper, each of as many weeks
    as the plan reports for it. *)
Theorem phase_blocks (today : Z) (data : FormData) :
  let plan := generatePlan today data in
  let p := phases plan in
  4 <= weeksToRace plan ->
  map phase (weeks plan)
  = replicate (Z.to_nat (baseWeeks p)) Base
      ++ replicate (Z.to_nat (buildWeeks p)) Build
      ++ replicate (Z.to_nat (specificWeeks p)) Specific
      ++ replicate (Z.to_nat (taperWeeks p)) Taper.
Proof.
  cbn zeta. rewrite generatePlan_weeksToRace, generatePlan_phases,
    generatePlan_phase_list.
  set (w := weeksBetween today (raceDate data)). intros Hw.
  set (p := phaseLengths w).
  assert (Hp : 0 <= baseWeeks p /\ 0 <= buildWeeks p /\ 0 <= specificWeeks p
               /\ 0 <= taperWeeks p
               /\ baseWeeks p + buildWeeks p + specificWeeks p + taperWeeks p
                  = w).
  { unfold p, phaseLengths.
    destruct (Z.ltb_spec w 8); [cbn; lia|].
    destruct (Z.ltb_spec w 12); [cbn; lia|].
    destruct (Z.ltb_spec w 20); cbn; lia. }
  destruct Hp as (Hb & Hbu & Hs & Ht & Hsum).
  replace (Z.to_nat w)
    with (Z.to_nat (baseWeeks p) + Z.to_nat (buildWeeks p)
          + Z.to_nat (specificWeeks p) + Z.to_nat (taperWeeks p))%nat by lia.
  apply phaseOf_blocks; lia.
Qed.

Lemma phase_blocks_witness :
  4 <= weeksToRace (generatePlan Sample.monday Sample.request)
  /\ map phase (weeks (generatePlan Sample.monday Sample.request))
     = replicate 3 Base ++ replicate 4 Build ++ replicate 2 Specific
         ++ replicate 1 Taper.
Proof.
  split; [vm_compute; discriminate|].
  apply (phase_blocks Sample.monday Sample.request).
  vm_compute. discriminate.
Defined.

(** X17: a generated plan of one or two weeks has base weeks only, and one
    of three weeks has two base weeks and a taper week, although the plan
    reports two base weeks, a specific week and a taper week for each of
    them: the plan ends before the phases do. *)
Theorem short_plan_phases (today : Z) (data : FormData) :
  let plan := generatePlan today data in
  weeksToRace plan <= 3 ->
  map phase (weeks plan)
  = (if weeksToRace plan =? 3 then [Base; Base; Taper]
     else replicate (Z.to_nat (weeksToRace plan)) Base)
  /\ baseWeeks (phases plan) = 2
  /\ specificWeeks (phases plan) = 1
  /\ taperWeeks (phases plan) = 1
  /\ buildWeeks (phases plan) = weeksToRace plan - 4.
Proof.
  cbn zeta. rewrite generatePlan_weeksToRace, generatePlan_phases,
    generatePlan_phase_list.
  pose proof (weeksBetween_ge_1 today (raceDate data)) as H1.
  set (w := weeksBetween today (raceDate data)) in *. intros Hw.
  assert (Hcases : w = 1 \/ w = 2 \/ w = 3) by lia.
  destruct Hcases as [->|[->| ->]]; vm_compute; repeat split; reflexivity.
Qed.

Lemma short_plan_phases_witness :
  let plan := generatePlan Sample.monday Sample.noNumbers in
  weeksToRace plan <= 3
  /\ map phase (weeks plan) = [Base; Base; Taper]
  /\ taperWeeks (phases plan) = 1.
Proof.
  cbn zeta. split; [vm_compute; discriminate|].
  destruct (short_plan_phases Sample.monday Sample.noNumbers)
    as (H1 & _ & _ & H4 & _).
  - vm_compute. discriminate.
  - split; [exact H1|exact H4].
Defined.

(** ** The rest days of a week *)

Lemma ltb_min_r x a b :
  (x <? Math_min a b)%float = true -> (x <? b)%float = true.
Proof.
  intros H. apply ltb_value in H as (Hx & Hm & Hlt).
  destruct (number_dec a) as [Ha|Ha]; [destruct (number_dec b) as [Hb|Hb]|].
  - destruct (Math_min_value a b Ha Hb) as [_ Hv].
    apply ltb_value. split; [exact Hx|]. split; [exact Hb|]. lia.
  - exfalso. unfold Math_min, number in *.
    destruct (is_nan b); [|congruence].
    rewrite orb_true_r in Hm. vm_compute in Hm. discriminate.
  - exfalso. unfold Math_min, number in *.
    destruct (is_nan a); [|congruence].
    cbn [orb] in Hm. vm_compute in Hm. discriminate.
Qed.

Lemma workout_texts_not_rest phase isHard :
  generateRunDesc isHard phase <> restText
  /\ generateStrengthDesc phase <> restText
  /\ recoveryText <> restText.
Proof.
  destruct phase, isHard; repeat split; intros H; vm_compute in H;
    discriminate H.
Qed.

Section RestDays.
Variable phase : Phase.
Variable td sf : float.
Variables k R : Z.
Hypothesis Hk : 0 <= R <= k.
Hypothesis Hrun :
  forall rc, 0 <= rc <= 7 -> (of_int rc <? runDays td)%float = (rc <? R).
Hypothesis Hday :
  forall d, 0 <= d <= 7 -> (of_int d <? td)%float = (d <? k).
Hypothesis Hstrength :
  forall sc, 0 <= sc <= 7 -> k - R <= sc ->
    (of_int sc <? strengthDays td sf)%float = false.

Lemma assignDays_rest n :
  forall d rc sc hu,
    0 <= d -> d + Z.of_nat n <= 7 ->
    rc = Z.min d R ->
    0 <= sc <= Z.max 0 (d - R) ->
    (sc < d - R -> (of_int sc <? strengthDays td sf)%float = false) ->
    forall (i : nat) desc,
      assignDays phase td sf n d rc sc hu !! i = Some desc ->
      (desc = restText <-> k <= d + Z.of_nat i).
Proof.
  induction n as [|n IH]; intros d rc sc hu Hd Hn Hrc Hsc Hdone i desc Hi;
    [discriminate Hi|].
  rewrite assignDays_step in Hi. cbn zeta in Hi.
  rewrite (Hrun rc) in Hi by lia.
  rewrite (Hday d) in Hi by lia.
  destruct (Z.ltb_spec rc R) as [Hlt|Hge].
  - (* a run day *)
    destruct i as [|i]; cbn [lookup list_lookup] in Hi.
    + injection Hi as <-.
      destruct (workout_texts_not_rest phase
                  ((hu <? hardRuns td)
                   && (runDays td - of_int rc
                       <=? of_int (hardRuns td - hu + (7 - d)))%float))
        as (Hr & _ & _).
      split; [intros H; contradiction|lia].
    + replace (d + Z.of_nat (S i)) with (d + 1 + Z.of_nat i) by lia.
      refine (IH (d + 1) (rc + 1) sc _ _ _ _ _ _ i desc Hi);
        [lia|lia|lia|lia|intros; lia].
  - destruct (of_int sc <? strengthDays td sf)%float eqn:Hs.
    + (* a strength day *)
      assert (Hfit : sc < k - R).
      { destruct (Z.lt_ge_cases sc (k - R)) as [H|H]; [exact H|].
        rewrite Hstrength in Hs by lia. discriminate Hs. }
      assert (Hsc' : sc = d - R).
      { destruct (Z.lt_ge_cases sc (d - R)) as [H|H]; [|lia].
        discriminate (Hdone H). }
      destruct i as [|i]; cbn [lookup list_lookup] in Hi.
      * injection Hi as <-.
        destruct (workout_texts_not_rest phase false) as (_ & Hr & _).
        split; [intros H; contradiction|lia].
      * replace (d + Z.of_nat (S i)) with (d + 1 + Z.of_nat i) by lia.
        apply (IH (d + 1) rc (sc + 1) hu) with (i := i);
          [lia|lia|lia|lia|intros; lia|exact Hi].
    + destruct (Z.ltb_spec d k) as [Hdk|Hdk].
      * (* a recovery day *)
        destruct i as [|i]; cbn [lookup list_lookup] in Hi.
        -- injection Hi as <-.
           destruct (workout_texts_not_rest phase false) as (_ & _ & Hr).
           split; [intros H; contradiction|lia].
        -- replace (d + Z.of_nat (S i)) with (d + 1 + Z.of_nat i) by lia.
           apply (IH (d + 1) rc sc hu) with (i := i);
             [lia|lia|lia|lia|intros _; exact Hs|exact Hi].
      * (* a rest day *)
        destruct i as [|i]; cbn [lookup list_lookup] in Hi.
        -- injection Hi as <-. split; [lia|reflexivity].
        -- replace (d + Z.of_nat (S i)) with (d + 1 + Z.of_nat i) by lia.
           apply (IH (d + 1) rc sc hu) with (i := i);
             [lia|lia|lia|lia|intros _; exact Hs|exact Hi].
Qed.
End RestDays.

Lemma small_cases n : 0 <= n <= 7 ->
  n = 0 \/ n = 1 \/ n = 2 \/ n = 3 \/ n = 4 \/ n = 5 \/ n = 6 \/ n = 7.
Proof. lia. Qed.

Ltac each_small H :=
  destruct (small_cases _ H) as [->|[->|[->|[->|[->|[->|[->| ->]]]]]]].

Lemma weekDays_rest phase (td : Z) sf :
  1 <= td <= 7 ->
  forall (i : nat) desc,
    weekDays phase (of_int td) sf !! i = Some desc ->
    (desc = restText <-> td <= Z.of_nat i).
Proof.
  intros Htd i desc Hi.
  assert (HR : exists R, 0 <= R <= td
             /\ (forall rc, 0 <= rc <= 7 ->
                   (of_int rc <? runDays (of_int td))%float = (rc <? R))
             /\ (forall d, 0 <= d <= 7 ->
                   (of_int d <? of_int td)%float = (d <? td))
             /\ (forall sc, 0 <= sc <= 7 -> td - R <= sc ->
                   (of_int sc
                    <? (of_int td - runDays (of_int td)))%float = false)).
  { assert (Hcases : td = 1 \/ td = 2 \/ td = 3 \/ td = 4 \/ td = 5
                     \/ td = 6 \/ td = 7) by lia.
    destruct Hcases as [->|[->|[->|[->|[->|[->| ->]]]]]];
      [exists 1|exists 1|exists 2|exists 2|exists 3|exists 4|exists 4];
      (split; [lia|]);
      (split; [intros n Hn; each_small Hn; vm_compute; reflexivity|]);
      (split; [intros n Hn; each_small Hn; vm_compute; reflexivity|]);
      intros n Hn Hc; each_small Hn; try lia; vm_compute; reflexivity. }
  destruct HR as (R & HRk & Hrun & Hday & Hstr).
  unfold weekDays in Hi.
  replace (Z.of_nat i) with (0 + Z.of_nat i) by lia.
  apply (assignDays_rest phase (of_int td) sf td R HRk Hrun Hday) with
    (n := 7%nat) (rc := 0) (sc := 0) (hu := 0).
  - intros sc Hsc Hc.
    destruct (of_int sc <? strengthDays (of_int td) sf)%float eqn:Hs;
      [|reflexivity].
    unfold strengthDays in Hs. apply ltb_min_r in Hs.
    rewrite (Hstr sc Hsc Hc) in Hs. discriminate Hs.
  - lia.
  - lia.
  - lia.
  - lia.
  - lia.
  - exact Hi.
Qed.

(** X18: for one to seven training days, the first days of every generated
    week, as many as the training days, are workouts (a run, a strength
    session or an active recovery) and the others are rest days, whatever
    the strength frequency. *)
Theorem rest_days_after_training_days
    (today : Z) (data : FormData) (td : Z) :
  1 <= td <= 7 ->
  parsedTrainingDays data = of_int td ->
  forall wk, wk ∈ weeks (generatePlan today data) ->
    forall (i : nat) desc,
      days wk !! i = Some desc ->
      (desc = restText <-> td <= Z.of_nat i).
Proof.
  intros Htd Hparsed wk Hwk.
  unfold generatePlan in Hwk. cbn [weeks] in Hwk.
  apply list_elem_of_fmap in Hwk as [w [-> _]].
  cbn [days]. rewrite Hparsed.
  apply weekDays_rest. exact Htd.
Qed.

Lemma rest_days_after_training_days_witness :
  1 <= 4 <= 7
  /\ parsedTrainingDays Sample.request = of_int 4
  /\ Sample.firstWeek ∈ weeks (generatePlan Sample.monday Sample.request)
  /\ days Sample.firstWeek !! 4%nat = Some restText
  /\ (restText = restText <-> 4 <= Z.of_nat 4).
Proof.
  assert (H1 : 1 <= 4 <= 7) by lia.
  assert (H2 : parsedTrainingDays Sample.request = of_int 4)
    by (vm_compute; reflexivity).
  assert (H3 : Sample.firstWeek
               ∈ weeks (generatePlan Sample.monday Sample.request)).
  { apply (list_elem_of_lookup_2 _ 0%nat). vm_compute. reflexivity. }
  assert (H4 : days Sample.firstWeek !! 4%nat = Some restText)
    by (vm_compute; reflexivity).
  split; [exact H1|]. split; [exact H2|]. split; [exact H3|].
  split; [exact H4|].
  exact (rest_days_after_training_days Sample.monday Sample.request 4 H1 H2
           Sample.firstWeek H3 4%nat restText H4).
Defined.

(** ** The review *)

Lemma reviewDays_step lower logMap today endDate n d m :
  Review.reviewDays lower logMap today endDate (S n) d m
  = if (d <=? today) && (d <? endDate)
    then Review.reviewDays lower logMap today endDate n (addDays d 1)
           (Review.dayMetrics lower logMap d m)
    else m.
Proof. reflexivity. Qed.

(** The review reads the clock once: its window is empty, or the Monday of
    the reading alone. *)
Lemma metrics_eq lower today logs (weekCount : nat) :
  Review.metrics lower today logs weekCount
  = if (getDay today =? 1) && (0 <? Z.of_nat weekCount)
    then Review.dayMetrics lower (logMapOf logs) today Review.metrics0
    else Review.metrics0.
Proof.
  unfold Review.metrics. cbn zeta.
  destruct weekCount as [|n].
  { rewrite andb_false_r. reflexivity. }
  replace (7 * S n)%nat with (S (S (5 + 7 * n))) by lia.
  rewrite reviewDays_step.
  destruct (Z.eqb_spec (getDay today) 1) as [Hday|Hday].
  - rewrite (startDateOf_monday today Hday).
    assert (H1 : (today <=? today)
                 && (today <? addDays today (Z.of_nat (S n) * 7)) = true).
    { apply andb_true_iff. split; [apply Z.leb_le; lia|].
      apply Z.ltb_lt. unfold addDays, msPerDay. lia. }
    assert (H2 : (addDays today 1 <=? today) = false)
      by (apply Z.leb_gt; unfold addDays, msPerDay; lia).
    rewrite H1, reviewDays_step, H2. reflexivity.
  - pose proof (startDateOf_later today Hday) as Hlater.
    assert (H1 : (startDateOf today <=? today) = false)
      by (apply Z.leb_gt; exact Hlater).
    rewrite H1. reflexivity.
Qed.

Lemma statsOf_once today logs (weekCount : nat) :
  statsOf today today logs weekCount
  = if (getDay today =? 1) && (0 <? Z.of_nat weekCount)
    then mondayStats (logMapOf logs !! toIso today)
    else stats0.
Proof.
  destruct weekCount as [|n].
  { rewrite andb_false_r. reflexivity. }
  destruct (Z.eqb_spec (getDay today) 1) as [Hday|Hday].
  - apply statsOf_monday; [exact Hday| |lia].
    unfold addDays, msPerDay. lia.
  - apply statsOf_before_start, startDateOf_later, Hday.
Qed.

Lemma countType_sum type c :
  Review.run (Review.countType type c) + Review.strength (Review.countType type c)
  + Review.other (Review.countType type c) + Review.rest (Review.countType type c)
  = Review.run c + Review.strength c + Review.other c + Review.rest c + 1.
Proof.
  unfold Review.countType.
  destruct (str_eqb type (lit "run")); [cbn; lia|].
  destruct (str_eqb type (lit "strength")); [cbn; lia|].
  destruct (str_eqb type (lit "other")); [cbn; lia|].
  destruct (str_eqb type (lit "rest")); cbn; lia.
Qed.

(** X19: the review and [adaptPlan], when both read the clock at the same
    instant, count the same days and the same completed days; the review
    evaluates one day at most, the Monday of the reading; its counts by type
    add up to the completed days, and the entries with a numeric RPE are
    among them. *)
Theorem review_counts
    (toLowerCase : jsstring -> jsstring) (today : Z) (logs : list LogEntry)
    (weekCount : nat) :
  let m := Review.metrics toLowerCase today logs weekCount in
  let st := statsOf today today logs weekCount in
  let c := Review.typeCounts m in
  Review.totalDays m = totalDaysPassed st
  /\ Review.completedDays m = completedSessions st
  /\ Review.run c + Review.strength c + Review.other c + Review.rest c
     = Review.completedDays m
  /\ 0 <= Review.rpeCount m <= Review.completedDays m
  /\ Review.completedDays m <= Review.totalDays m <= 1.
Proof.
  cbn zeta. rewrite metrics_eq, statsOf_once.
  destruct ((getDay today =? 1) && (0 <? Z.of_nat weekCount)).
  - unfold Review.dayMetrics, mondayStats.
    destruct (logMapOf logs !! toIso today) as [entry|].
    + cbn [Review.totalDays Review.completedDays Review.rpeCount
           Review.typeCounts totalDaysPassed completedSessions].
      rewrite countType_sum.
      destruct (negb (isNaN (parseFloat (rpe entry)))); cbn; lia.
    + cbn. lia.
  - cbn. lia.
Qed.

(** X20: when the clock is not read on a Monday, or the log store has no
    entry dated with the day of the reading, or the base plan has no week,
    the review counts no completed day and recommends the same two
    paragraphs, whatever else was logged: sessions are being missed, and no
    strength session was logged. *)
Theorem review_without_today
    (toLowerCase : jsstring -> jsstring) (today : Z) (logs : list LogEntry)
    (weekCount : nat) :
  getDay today <> 1 \/ logMapOf logs !! toIso today = None \/ weekCount = 0%nat ->
  let m := Review.metrics toLowerCase today logs weekCount in
  Review.completedDays m = 0
  /\ Review.avgRPE m = None
  /\ Review.recommendations m = [Review.missingSessions; Review.noStrength].
Proof.
  intros H. cbn zeta. rewrite metrics_eq.
  assert (Hcases :
    (if (getDay today =? 1) && (0 <? Z.of_nat weekCount)
     then Review.dayMetrics toLowerCase (logMapOf logs) today Review.metrics0
     else Review.metrics0) = Review.metrics0
    \/ (if (getDay today =? 1) && (0 <? Z.of_nat weekCount)
        then Review.dayMetrics toLowerCase (logMapOf logs) today Review.metrics0
        else Review.metrics0)
       = {| Review.totalDays := 0 + 1; Review.completedDays := 0;
            Review.totalRPE := 0; Review.rpeCount := 0;
            Review.typeCounts :=
              {| Review.run := 0; Review.strength := 0; Review.other := 0;
                 Review.rest := 0 |} |}).
  { destruct (Z.eqb_spec (getDay today) 1) as [Hday|Hday]; [|left; reflexivity].
    destruct (Z.ltb_spec 0 (Z.of_nat weekCount)) as [Hw|Hw];
      [|left; reflexivity].
    destruct H as [H|[H|H]]; [contradiction| |lia].
    right. cbn [andb]. unfold Review.dayMetrics. rewrite H. reflexivity. }
  destruct Hcases as [-> | ->]; vm_compute; repeat split; reflexivity.
Qed.

Lemma review_without_today_witness :
  let m := Review.metrics (fun s => s) (addDays Sample.monday 1) Sample.hardLog 10 in
  Review.completedDays m = 0
  /\ Review.avgRPE m = None
  /\ Review.recommendations m = [Review.missingSessions; Review.noStrength].
Proof.
  apply (review_without_today (fun s => s) (addDays Sample.monday 1)
           Sample.hardLog 10).
  left. vm_compute. discriminate.
Defined.

Lemma leb_4_not_6 a : (a <=? 4)%float = true -> (6 <=? a)%float = false.
Proof.
  intros H4. destruct (6 <=? a)%float eqn:H6; [|reflexivity].
  apply leb_value in H4 as (_ & _ & H4).
  apply leb_value in H6 as (_ & _ & H6).
  assert (Hlt : num_value 4 < num_value 6) by (vm_compute; reflexivity).
  lia.
Qed.

(** X21: on a Monday for which the log store has an entry, the one day that
    the review and [adaptPlan] both evaluate, the review recommends a greater
    challenge exactly when [adaptPlan] intensifies the plan. *)
Theorem review_agrees_with_rescheduler
    (toLowerCase : jsstring -> jsstring) (today : Z) (logs : list LogEntry)
    (weekCount : nat) (entry : LogEntry) :
  getDay today = 1 ->
  (0 < weekCount)%nat ->
  logMapOf logs !! toIso today = Some entry ->
  head (Review.recommendations
          (Review.metrics toLowerCase today logs weekCount))
  = Some Review.increaseChallenge
  <-> selectMode (statsOf today today logs weekCount) = intensify.
Proof.
  intros Hday Hweeks Hentry.
  rewrite metrics_eq, statsOf_once, Hday.
  assert (Hw : (0 <? Z.of_nat weekCount) = true) by (apply Z.ltb_lt; lia).
  rewrite Hw. cbn [Z.eqb Pos.eqb andb].
  unfold Review.dayMetrics. rewrite Hentry. cbn zeta. cbn [mondayStats].
  unfold Review.recommendations, Review.completionRatio, Review.avgRPE,
    selectMode, completionRatio, avgRPE.
  cbn [Review.totalDays Review.completedDays Review.rpeCount Review.totalRPE
       Review.typeCounts Review.metrics0
       totalDaysPassed completedSessions totalRPE].
  change (0 + 1) with 1. cbn [Z.ltb Z.compare].
  assert (Hhalf : (of_int 1 / of_int 1 <? 0.5)%float = false)
    by (vm_compute; reflexivity).
  assert (Hmost : (0.8 <=? of_int 1 / of_int 1)%float = true)
    by (vm_compute; reflexivity).
  rewrite Hhalf, Hmost. cbn [orb andb].
  destruct (isNaN (parseFloat (rpe entry))); cbn [negb].
  - cbn [Z.ltb Z.compare].
    assert (H6 : (6 <=? 0 / of_int 1)%float = false) by (vm_compute; reflexivity).
    assert (H4 : (0 / of_int 1 <=? 4)%float = true) by (vm_compute; reflexivity).
    rewrite H6, H4. cbn [head app]. split; reflexivity.
  - change (0 + 1) with 1. cbn [Z.ltb Z.compare].
    set (a := ((0 + parseFloat (rpe entry)) / of_int 1)%float).
    destruct (a <=? 4)%float eqn:H4.
    + rewrite (leb_4_not_6 a H4). cbn [head app]. split; reflexivity.
    + destruct (6 <=? a)%float, (6 <? a)%float; cbn [head app];
        split; intros H; discriminate H.
Qed.

(** ** The achievements *)

Lemma streakLoop_bounds rest :
  forall prev c l,
    1 <= c <= l ->
    l <= streakLoop prev rest c l
    /\ streakLoop prev rest c l <= Z.max l (c + Z.of_nat (List.length rest)).
Proof.
  induction rest as [|cur rest IH]; intros prev c l Hc; cbn [streakLoop].
  - cbn [length]. lia.
  - cbn zeta. cbn [length].
    destruct (Math_round ((cur - prev) / 86400000) =? 1)%float;
      [|destruct (Math_round ((cur - prev) / 86400000) =? 0)%float].
    + destruct (Z.ltb_spec l (c + 1)).
      * destruct (IH cur (c + 1) (c + 1) ltac:(lia)). lia.
      * destruct (IH cur (c + 1) l ltac:(lia)). lia.
    + destruct (IH cur c l ltac:(lia)). lia.
    + destruct (IH cur 1 l ltac:(lia)). lia.
Qed.

Lemma longestStreakOf_bounds dates :
  1 <= longestStreakOf dates <= Z.max 1 (Z.of_nat (List.length dates)).
Proof.
  destruct dates as [|first rest]; cbn [longestStreakOf length]; [lia|].
  destruct (streakLoop_bounds rest first 1 1 ltac:(lia)). lia.
Qed.

(** X22: with at least one stored entry the achievements show badges, the
    first of them the badge of the first workout; the prompt to keep
    training is never shown. With both the badge of five runs and the badge
    of five strength sessions comes the badge of the all-rounder. *)
Theorem achievements_shown
    (dateValue : jsstring -> float)
    (sortByDate : list (LogEntry * float) -> list (LogEntry * float))
    (logs : list LogEntry) :
  let shown := updateAchievements dateValue sortByDate logs in
  (logs = [] -> shown = logPrompt)
  /\ (logs <> [] ->
      exists rest, shown = badgesShown (firstWorkout :: rest)
        /\ badgesOf dateValue sortByDate logs = firstWorkout :: rest
        /\ (runnerInTheMaking ∈ rest -> strengthFocused ∈ rest ->
            allRounder ∈ rest)).
Proof.
  cbn zeta. split; [intros ->; reflexivity|].
  intros Hlogs. destruct logs as [|entry logs]; [contradiction|].
  unfold updateAchievements, badgesOf.
  set (all := entry :: logs).
  assert (Hfirst : (1 <=? Z.of_nat (List.length all)) = true)
    by (apply Z.leb_le; cbn [all length]; lia).
  rewrite Hfirst. cbn [app]. eexists. split; [reflexivity|].
  split; [reflexivity|].
  intros Hrun Hstrength.
  assert (H5r : 5 <= runCount all).
  { destruct (Z.leb_spec 5 (runCount all)) as [H|H]; [exact H|].
    exfalso. cbn [app] in Hrun.
    repeat match type of Hrun with
           | _ ∈ (if ?b then _ else _) ++ _ => destruct b
           | _ ∈ if ?b then _ else _ => destruct b
           | _ ∈ [] ++ _ => cbn [app] in Hrun
           | _ ∈ [_] ++ _ => cbn [app] in Hrun
           | _ ∈ _ :: _ => apply elem_of_cons in Hrun as [Hrun|Hrun];
                             [discriminate Hrun|]
           | _ ∈ [] => inversion Hrun
           end. }
  assert (H5s : 5 <= strengthCount all).
  { destruct (Z.leb_spec 5 (strengthCount all)) as [H|H]; [exact H|].
    exfalso.
    destruct (5 <=? runCount all); cbn [app] in Hstrength.
    - apply elem_of_cons in Hstrength as [Hs|Hstrength]; [discriminate Hs|].
      repeat match type of Hstrength with
             | _ ∈ (if ?b then _ else _) ++ _ => destruct b
             | _ ∈ if ?b then _ else _ => destruct b
             | _ ∈ [] ++ _ => cbn [app] in Hstrength
             | _ ∈ [_] ++ _ => cbn [app] in Hstrength
             | _ ∈ _ :: _ => apply elem_of_cons in Hstrength as [Hs|Hstrength];
                               [discriminate Hs|]
             | _ ∈ [] => inversion Hstrength
             end.
    - repeat match type of Hstrength with
             | _ ∈ (if ?b then _ else _) ++ _ => destruct b
             | _ ∈ if ?b then _ else _ => destruct b
             | _ ∈ [] ++ _ => cbn [app] in Hstrength
             | _ ∈ [_] ++ _ => cbn [app] in Hstrength
             | _ ∈ _ :: _ => apply elem_of_cons in Hstrength as [Hs|Hstrength];
                               [discriminate Hs|]
             | _ ∈ [] => inversion Hstrength
             end. }
  assert (H3 : (3 <=? runCount all) && (3 <=? strengthCount all) = true).
  { apply andb_true_iff. split; apply Z.leb_le; lia. }
  rewrite H3. rewrite !elem_of_app. right. right. right.
  apply list_elem_of_singleton. reflexivity.
Qed.

(** X23: the badge of the seven-day streak needs seven stored entries at
    least: the longest streak is between 1 and the number of entries, for
    every reading of the dates and every order in which the sort leaves
    them. *)
Theorem streak_needs_seven_entries
    (dateValue : jsstring -> float)
    (sortByDate : list (LogEntry * float) -> list (LogEntry * float))
    (logs : list LogEntry) :
  (forall l, List.length (sortByDate l) = List.length l) ->
  let streak :=
    longestStreakOf (map snd (sortedLogs dateValue sortByDate logs)) in
  1 <= streak <= Z.max 1 (Z.of_nat (List.length logs))
  /\ (consistencyChamp ∈ badgesOf dateValue sortByDate logs ->
      7 <= Z.of_nat (List.length logs)).
Proof.
  intros Hsort. cbn zeta.
  pose proof (longestStreakOf_bounds
                (map snd (sortedLogs dateValue sortByDate logs))) as Hb.
  rewrite length_map in Hb. unfold sortedLogs in Hb at 3.
  rewrite Hsort, length_map in Hb.
  split; [exact Hb|].
  unfold badgesOf. intros Hin.
  destruct (Z.leb_spec 7
              (longestStreakOf (map snd (sortedLogs dateValue sortByDate logs))))
    as [H7|H7]; [lia|].
  exfalso.
  repeat match type of Hin with
         | _ ∈ (if ?b then _ else _) ++ _ => destruct b
         | _ ∈ if ?b then _ else _ => destruct b
         | _ ∈ [] ++ _ => cbn [app] in Hin
         | _ ∈ [_] ++ _ => cbn [app] in Hin
         | _ ∈ _ :: _ => apply elem_of_cons in Hin as [Hin|Hin];
                           [discriminate Hin|]
         | _ ∈ [] => inversion Hin
         end.
Qed.

Lemma streak_needs_seven_entries_witness :
  let streak :=
    longestStreakOf
      (map snd (sortedLogs (fun _ => 0%float) (fun l => l) Sample.hardLog)) in
  1 <= streak <= Z.max 1 (Z.of_nat (List.length Sample.hardLog))
  /\ (consistencyChamp ∈ badgesOf (fun _ => 0%float) (fun l => l) Sample.hardLog ->
      7 <= Z.of_nat (List.length Sample.hardLog)).
Proof.
  apply (streak_needs_seven_entries (fun _ => 0%float) (fun l => l)
           Sample.hardLog).
  intros l. reflexivity.
Defined.

(** ** A submission without a date *)

(** X24: an entry submitted with an empty date is stored, and the readers
    that search the log store by date never find it: the result of
    [adaptPlan], the table of [renderPlan], the calendar file and the
    metrics of the review are what they were before the submission. The
    readers of the list do read it: for [updateAchievements] it is a logged
    workout, and after the submission the badge of the first workout is
    shown. *)
Theorem undated_submission_not_found_by_date
    (logType logValue logRPE logNotes : jsstring) (logs : list LogEntry)
    (today now : Z) (clock : Z -> Z) (toLowerCase : jsstring -> jsstring)
    (dateValue : jsstring -> float)
    (sortByDate : list (LogEntry * float) -> list (LogEntry * float))
    (plan : Plan) :
  let logs' := submitLog [] logType logValue logRPE logNotes logs in
  adaptPlan today now logs' plan = adaptPlan today now logs plan
  /\ Page.renderPlan today logs' plan = Page.renderPlan today logs plan
  /\ calendarLines today clock logs' plan = calendarLines today clock logs plan
  /\ Review.metrics toLowerCase today logs' (List.length (weeks plan))
     = Review.metrics toLowerCase today logs (List.length (weeks plan))
  /\ List.length logs' = S (List.length logs)
  /\ exists rest,
      updateAchievements dateValue sortByDate logs'
      = badgesShown (firstWorkout :: rest).
Proof.
  cbn zeta.
  assert (Hmap : logMapOf (submitLog [] logType logValue logRPE logNotes logs)
                 = logMapOf logs).
  { unfold submitLog. rewrite logMapOf_snoc. reflexivity. }
  assert (Hlen : List.length (submitLog [] logType logValue logRPE logNotes logs)
                 = S (List.length logs)).
  { unfold submitLog. rewrite length_app. cbn [length]. lia. }
  split; [unfold adaptPlan, statsOf; rewrite Hmap; reflexivity|].
  split; [unfold Page.renderPlan; rewrite Hmap; reflexivity|].
  split; [unfold calendarLines; rewrite Hmap; reflexivity|].
  split; [unfold Review.metrics; rewrite Hmap; reflexivity|].
  split; [exact Hlen|].
  unfold updateAchievements, badgesOf.
  destruct (submitLog [] logType logValue logRPE logNotes logs)
    as [|first others] eqn:Hlogs; [discriminate Hlen|].
  assert (Hfirst : (1 <=? Z.of_nat (List.length (first :: others))) = true)
    by (apply Z.leb_le; cbn [length]; lia).
  rewrite Hfirst. cbn [app]. eexists. reflexivity.
Qed.

(** ** Instances *)

Lemma not_monday_no_change_witness :
  adaptPlan (addDays Sample.monday 1) (addDays Sample.monday 1) Sample.hardLog
    Sample.basePlan
  = Sample.basePlan.
Proof.
  apply (not_monday_no_change (addDays Sample.monday 1)
           (addDays Sample.monday 1) Sample.hardLog Sample.basePlan).
  - vm_compute. discriminate.
  - vm_compute. reflexivity.
Defined.

Lemma monday_window_witness :
  getDay Sample.monday = 1
  /\ totalDaysPassed
       (statsOf Sample.monday Sample.monday Sample.hardLog
          (List.length (weeks Sample.basePlan))) = 1.
Proof.
  assert (Hday : getDay Sample.monday = 1) by (vm_compute; reflexivity).
  assert (Hnow : Sample.monday <= Sample.monday < addDays Sample.monday 1)
    by (unfold addDays, msPerDay; lia).
  assert (Hweeks : weeks Sample.basePlan <> []) by discriminate.
  split; [exact Hday|].
  exact (proj1 (monday_window Sample.monday Sample.monday Sample.hardLog
                  Sample.basePlan Hday Hnow Hweeks)).
Defined.

Lemma monday_entry_without_rpe_intensifies_witness :
  let entry := {| date := lit "2026-11-02"; type := lit "run";
                  value := lit "5 km"; rpe := []; notes := [] |} in
  adaptPlan Sample.monday Sample.monday [entry] Sample.basePlan
  = adapted intensify 0 Sample.basePlan.
Proof.
  cbn zeta.
  assert (Hday : getDay Sample.monday = 1) by (vm_compute; reflexivity).
  assert (Hnow : Sample.monday <= Sample.monday < addDays Sample.monday 1)
    by (unfold addDays, msPerDay; lia).
  assert (Hweeks : weeks Sample.basePlan <> []) by discriminate.
  apply (monday_entry_without_rpe_intensifies Sample.monday Sample.monday
           [ {| date := lit "2026-11-02"; type := lit "run";
                value := lit "5 km"; rpe := []; notes := [] |} ]
           Sample.basePlan
           {| date := lit "2026-11-02"; type := lit "run";
              value := lit "5 km"; rpe := []; notes := [] |}
           Hday Hnow Hweeks).
  - vm_compute. reflexivity.
  - vm_compute. reflexivity.
Defined.

Lemma event_status_witness :
  eventLines (fun _ => Sample.monday) (logMapOf Sample.hardLog) Sample.monday
    1 0 0 restText !! 6%nat
  = Some (lit "DESCRIPTION:" ++ escapeICSText restText ++ lit "\n"
            ++ match logMapOf Sample.hardLog
                     !! toIso (addDays Sample.monday
                                 (Z.of_nat 0 * 7 + Z.of_nat 0)) with
               | Some entry =>
                 lit "Status: completed"
                   ++ match notes entry with
                      | [] => []
                      | _ => lit "\nNotes: " ++ escapeICSText (notes entry)
                      end
               | None => lit "Status: not completed"
               end).
Proof.
  apply (event_status (fun _ => Sample.monday) Sample.hardLog Sample.monday
           1 0 0 restText).
  vm_compute. split; discriminate.
Defined.

Lemma review_agrees_with_rescheduler_witness :
  head (Review.recommendations
          (Review.metrics (fun s => s) Sample.monday Sample.easyLog 10))
  = Some Review.increaseChallenge
  <-> selectMode (statsOf Sample.monday Sample.monday Sample.easyLog 10)
      = intensify.
Proof.
  apply (review_agrees_with_rescheduler (fun s => s) Sample.monday
           Sample.easyLog 10
           {| date := lit "2026-11-02"; type := lit "run";
              value := lit "5 km"; rpe := lit "3"; notes := [] |}).
  - vm_compute. reflexivity.
  - lia.
  - vm_compute. reflexivity.
Defined.

(** ** The page of the plan *)

Lemma step_not_submit s r logs e base adaptive :
  Page.isSubmit e = false ->
  Page.windowBasePlan s = Some base ->
  Page.currentPlan s = Some adaptive ->
  (exists r' logs',
      Page.windowCurrentPlan s
      = Some (adaptPlan (Page.atAdapt r') (Page.atScan r') logs' base)
      /\ Page.planTable s
         = Page.renderPlan (Page.atRender r') logs'
             (adaptPlan (Page.atAdapt r') (Page.atScan r') logs' base)) ->
  let s' := Page.step s (r, logs, e) in
  Page.windowBasePlan s' = Some base
  /\ Page.currentPlan s' = Some adaptive
  /\ exists r' logs',
      Page.windowCurrentPlan s'
      = Some (adaptPlan (Page.atAdapt r') (Page.atScan r') logs' base)
      /\ Page.planTable s'
         = Page.renderPlan (Page.atRender r') logs'
             (adaptPlan (Page.atAdapt r') (Page.atScan r') logs' base).
Proof.
  intros He Hbase Hcur Hshown. cbn zeta.
  destruct e as [data|key|]; [discriminate He| |].
  - unfold Page.step. destruct (str_eqb key (lit "ocrLogs"));
      [|split; [exact Hbase|split; [exact Hcur|exact Hshown]]].
    rewrite Hbase.
    destruct (negb (Page.planOutputHidden s));
      [|split; [exact Hbase|split; [exact Hcur|exact Hshown]]].
    clear Hshown.
    cbn [Page.windowBasePlan Page.currentPlan Page.windowCurrentPlan
         Page.planTable].
    split; [reflexivity|]. split; [exact Hcur|].
    exists r, logs. split; reflexivity.
  - unfold Page.step.
    cbn [Page.windowBasePlan Page.currentPlan Page.windowCurrentPlan
         Page.planTable].
    split; [exact Hbase|]. split; [exact Hcur|exact Hshown].
Qed.

Lemma run_not_submit trace :
  forall s base adaptive,
    Forall (fun x => Page.isSubmit x.2 = false) trace ->
    Page.windowBasePlan s = Some base ->
    Page.currentPlan s = Some adaptive ->
    (exists r' logs',
        Page.windowCurrentPlan s
        = Some (adaptPlan (Page.atAdapt r') (Page.atScan r') logs' base)
        /\ Page.planTable s
           = Page.renderPlan (Page.atRender r') logs'
               (adaptPlan (Page.atAdapt r') (Page.atScan r') logs' base)) ->
    let s' := Page.run s trace in
    Page.windowBasePlan s' = Some base
    /\ Page.currentPlan s' = Some adaptive
    /\ exists r' logs',
        Page.windowCurrentPlan s'
        = Some (adaptPlan (Page.atAdapt r') (Page.atScan r') logs' base)
        /\ Page.planTable s'
           = Page.renderPlan (Page.atRender r') logs'
               (adaptPlan (Page.atAdapt r') (Page.atScan r') logs' base).
Proof.
  induction trace as [|[[r logs] e] trace IH];
    intros s base adaptive Htrace Hbase Hcur Hshown; cbn zeta.
  - split; [exact Hbase|]. split; [exact Hcur|exact Hshown].
  - apply Forall_cons in Htrace as [He Htrace]. cbn [snd] in He.
    destruct (step_not_submit s r logs e base adaptive He Hbase Hcur Hshown)
      as (Hbase' & Hcur' & Hshown').
    unfold Page.run. cbn [fold_left].
    apply (IH _ base adaptive Htrace Hbase' Hcur' Hshown').
Qed.

(** X25: after the form is submitted, and whatever changes of the log store
    and returns to the form follow: the base plan of the window is the
    generated plan; every table shown after a change of the log store holds
    the adaptation of that base plan, not of a plan adapted before; the
    calendar button exports the plan as it was adapted at the submission,
    not the plan of the table. *)
Theorem page_after_submit
    (s : Page.State) (r : Page.Readings) (logs : list LogEntry)
    (data : FormData) (trace : list (Page.Readings * list LogEntry * Page.Event))
    (today : Z) (clock : Z -> Z) (logsAtClick : list LogEntry) :
  Forall (fun x => Page.isSubmit x.2 = false) trace ->
  let base := generatePlan (Page.atGenerate r) data in
  let adaptive := adaptPlan (Page.atAdapt r) (Page.atScan r) logs base in
  let s' := Page.run (Page.step s (r, logs, Page.submit data)) trace in
  Page.windowBasePlan s' = Some base
  /\ Page.currentPlan s' = Some adaptive
  /\ (exists r' logs',
        Page.windowCurrentPlan s'
        = Some (adaptPlan (Page.atAdapt r') (Page.atScan r') logs' base)
        /\ Page.planTable s'
           = Page.renderPlan (Page.atRender r') logs'
               (adaptPlan (Page.atAdapt r') (Page.atScan r') logs' base))
  /\ Page.calendarClick today clock logsAtClick s'
     = Some (calendarLines today clock logsAtClick adaptive).
Proof.
  intros Htrace. cbn zeta.
  destruct (run_not_submit trace (Page.step s (r, logs, Page.submit data))
              (generatePlan (Page.atGenerate r) data)
              (adaptPlan (Page.atAdapt r) (Page.atScan r) logs
                 (generatePlan (Page.atGenerate r) data)) Htrace)
    as (Hbase & Hcur & Hshown).
  - reflexivity.
  - reflexivity.
  - exists r, logs. split; reflexivity.
  - split; [exact Hbase|]. split; [exact Hcur|]. split; [exact Hshown|].
    unfold Page.calendarClick. rewrite Hcur. reflexivity.
Qed.

Lemma page_after_submit_witness :
  let r := {| Page.atGenerate := Sample.monday; Page.atAdapt := Sample.monday;
              Page.atScan := Sample.monday; Page.atRender := Sample.monday;
              Page.atCountdown := Sample.monday |} in
  let trace := [(r, Sample.easyLog, Page.storage (lit "ocrLogs"));
                (r, Sample.easyLog, Page.back)] in
  let base := generatePlan (Page.atGenerate r) Sample.request in
  let adaptive := adaptPlan (Page.atAdapt r) (Page.atScan r) [] base in
  let s' := Page.run (Page.step Page.initial (r, [], Page.submit Sample.request))
              trace in
  Page.windowBasePlan s' = Some base
  /\ Page.currentPlan s' = Some adaptive
  /\ (exists r' logs',
        Page.windowCurrentPlan s'
        = Some (adaptPlan (Page.atAdapt r') (Page.atScan r') logs' base)
        /\ Page.planTable s'
           = Page.renderPlan (Page.atRender r') logs'
               (adaptPlan (Page.atAdapt r') (Page.atScan r') logs' base))
  /\ Page.calendarClick Sample.monday (fun _ => Sample.monday) Sample.easyLog s'
     = Some (calendarLines Sample.monday (fun _ => Sample.monday)
               Sample.easyLog adaptive).
Proof.
  intros r trace.
  apply (page_after_submit Page.initial r [] Sample.request trace
           Sample.monday (fun _ => Sample.monday) Sample.easyLog).
  unfold trace. repeat constructor.
Defined.

(** X26: the table and the calendar file agree on the days that are done:
    for a day of a year with four digits, the cell of the day in the table
    is marked completed, with the check mark before its text, exactly when
    the description of the event of that day in the calendar file says
    completed, both for the same reading of the clock and the same log
    store. *)
Theorem table_matches_calendar
    (today : Z) (clock : Z -> Z) (logs : list LogEntry) (plan : Plan)
    (uidCounter : Z) (wIndex dIndex : nat) (weekObj : WeekEntry)
    (desc : jsstring) :
  weeks plan !! wIndex = Some weekObj ->
  days weekObj !! dIndex = Some desc ->
  1000 <= (civil (addDays (startDateOf today)
                    (Z.of_nat wIndex * 7 + Z.of_nat dIndex))).1.1 <= 9999 ->
  exists row cell,
    Page.renderPlan today logs plan !! wIndex = Some row
    /\ Page.dayCells row !! dIndex = Some cell
    /\ Page.textContent cell
       = (if Page.completed cell then 10004%N :: 160%N :: desc else desc)
    /\ exists notesText,
        eventLines clock (logMapOf logs) (startDateOf today) uidCounter
          wIndex dIndex desc !! 6%nat
        = Some (lit "DESCRIPTION:" ++ escapeICSText desc ++ lit "\n"
                  ++ (if Page.completed cell
                      then lit "Status: completed" ++ notesText
                      else lit "Status: not completed")).
Proof.
  intros Hweek Hdesc Hyear.
  unfold Page.renderPlan. cbn zeta.
  rewrite list_lookup_imap, Hweek. cbn [fmap option_fmap option_map].
  eexists. eexists. split; [reflexivity|].
  cbn [Page.dayCells]. rewrite list_lookup_imap, Hdesc.
  cbn [fmap option_fmap option_map]. split; [reflexivity|].
  unfold eventLines. cbn zeta.
  rewrite (isoDateOf_toIso _ Hyear).
  unfold Page.renderCell. cbn zeta.
  destruct status_unescaped as [Hc Hn].
  destruct (logMapOf logs
              !! toIso (addDays (startDateOf today)
                          (Z.of_nat wIndex * 7 + Z.of_nat dIndex)))
    as [entry|]; cbn [Page.completed Page.textContent].
  - split; [reflexivity|]. eexists.
    cbn [lookup list_lookup]. rewrite Hc. reflexivity.
  - split; [reflexivity|]. exists [].
    cbn [lookup list_lookup]. rewrite Hn, app_nil_r. reflexivity.
Qed.

Lemma table_matches_calendar_witness :
  exists row cell,
    Page.renderPlan Sample.monday Sample.hardLog Sample.basePlan !! 0%nat
    = Some row
    /\ Page.dayCells row !! 0%nat = Some cell
    /\ Page.textContent cell
       = (if Page.completed cell
          then 10004%N :: 160%N :: (generateRunDesc true Base) else (generateRunDesc true Base))
    /\ exists notesText,
        eventLines (fun _ => Sample.monday) (logMapOf Sample.hardLog)
          (startDateOf Sample.monday) 1 0 0 (generateRunDesc true Base) !! 6%nat
        = Some (lit "DESCRIPTION:" ++ escapeICSText (generateRunDesc true Base) ++ lit "\n"
                  ++ (if Page.completed cell
                      then lit "Status: completed" ++ notesText
                      else lit "Status: not completed")).
Proof.
  apply (table_matches_calendar Sample.monday (fun _ => Sample.monday)
           Sample.hardLog Sample.basePlan 1 0 0 Sample.firstWeek (generateRunDesc true Base)).
  - vm_compute. reflexivity.
  - vm_compute. reflexivity.
  - vm_compute. split; discriminate.
Defined.

(** ** The search of coaches *)

Lemma keeps_without_format fmt exp specs coach :
  Coaches.keeps fmt exp specs coach = true ->
  Coaches.keeps None exp specs coach = true.
Proof.
  unfold Coaches.keeps. cbn [Coaches.given andb].
  destruct (Coaches.given fmt && Coaches.differs fmt (Coaches.format coach));
    [discriminate|]. intros H. exact H.
Qed.

Lemma keeps_without_experience fmt exp specs coach :
  Coaches.keeps fmt exp specs coach = true ->
  Coaches.keeps fmt None specs coach = true.
Proof.
  unfold Coaches.keeps. cbn [Coaches.given andb].
  destruct (Coaches.given fmt && Coaches.differs fmt (Coaches.format coach));
    [discriminate|].
  destruct (Coaches.given exp
            && negb (Coaches.includesValue (Coaches.levels coach) exp));
    [discriminate|]. intros H. exact H.
Qed.

Lemma keeps_without_specialties fmt exp specs coach :
  Coaches.keeps fmt exp specs coach = true ->
  Coaches.keeps fmt exp [] coach = true.
Proof.
  unfold Coaches.keeps.
  destruct (Coaches.given fmt && Coaches.differs fmt (Coaches.format coach));
    [discriminate|].
  destruct (Coaches.given exp
            && negb (Coaches.includesValue (Coaches.levels coach) exp));
    [discriminate|]. reflexivity.
Qed.

Lemma keeps_one_more_specialty fmt exp spec specs coach :
  specs <> [] ->
  Coaches.keeps fmt exp specs coach = true ->
  Coaches.keeps fmt exp (spec :: specs) coach = true.
Proof.
  unfold Coaches.keeps. intros Hspecs.
  destruct (Coaches.given fmt && Coaches.differs fmt (Coaches.format coach));
    [discriminate|].
  destruct (Coaches.given exp
            && negb (Coaches.includesValue (Coaches.levels coach) exp));
    [discriminate|].
  destruct specs as [|s specs]; [contradiction|]. cbn zeta.
  destruct (existsb (fun spec0 => Coaches.includes (Coaches.specialties coach) spec0)
              (s :: specs)) eqn:Hex; [|discriminate].
  intros _. cbn [existsb] in Hex |- *. rewrite Hex, orb_true_r. reflexivity.
Qed.

(** X28: the search of coaches without a criterion lists every coach, in
    the order of the data; a coach found with some criteria is found too
    when the format, the level or the specialties are left out, or when a
    specialty is added to a selection that has one already. *)
Theorem coach_search_widens
    (selectedFormat experience : option jsstring)
    (specialtiesSelected : list jsstring) (spec : jsstring)
    (coach : Coaches.Coach) :
  Coaches.matches None None [] = Coaches.coaches
  /\ (coach ∈ Coaches.matches selectedFormat experience specialtiesSelected ->
      coach ∈ Coaches.coaches
      /\ coach ∈ Coaches.matches None experience specialtiesSelected
      /\ coach ∈ Coaches.matches selectedFormat None specialtiesSelected
      /\ coach ∈ Coaches.matches selectedFormat experience []
      /\ (specialtiesSelected <> [] ->
          coach ∈ Coaches.matches selectedFormat experience
                    (spec :: specialtiesSelected))).
Proof.
  split; [reflexivity|].
  unfold Coaches.matches. rewrite !list_elem_of_In, !filter_In.
  intros [Hin Hkeeps].
  split; [exact Hin|].
  split; [split; [exact Hin|exact (keeps_without_format _ _ _ _ Hkeeps)]|].
  split; [split; [exact Hin|exact (keeps_without_experience _ _ _ _ Hkeeps)]|].
  split; [split; [exact Hin|exact (keeps_without_specialties _ _ _ _ Hkeeps)]|].
  intros Hspecs.
  split; [exact Hin|exact (keeps_one_more_specialty _ _ _ _ _ Hspecs Hkeeps)].
Qed.
